(** * Index-artifact cache and external-indexer invocation of [load.py]

    A shallow embedding of the indexing part of [load.py]:
    [Index_managment_prep] (validation, executable resolution, artifact path
    resolution through the reference manifest), the two orchestrators
    [d2vwitch] and [ffmsindex], [run_process], [correct_byte_for_range],
    [update_index_path_reference], [json_load], [json_dump] and
    [random_name]; and of four helpers of the loader, [get_num],
    [only_same_pattern], [eval_settings] and [validate_sources].

    The Python code is effectful: it reads and writes the file system, logs
    through two loggers, draws temporary names and runs an external tool.
    The embedding threads an explicit [world] through a small state and
    exception monad; everything the program cannot decide by itself (the
    search path, permissions, the external tool, the JSON codec, the names
    drawn by [tempfile], the decoding of text files, a write that the system
    interrupts) is a field of an environment record [env], so every theorem
    holds for every behaviour of those collaborators.

    What the model fixes about the platform:
    - paths follow the POSIX conventions of [os.path] and name a node by
      their spelling; the empty path names nothing, and a path that ends in
      a separator never names a regular file;
    - a file holds bytes; a file opened in text mode is read through the
      text layer of the environment ([read_text]: the encoding of the
      locale, line ends translated to newline, decoding by chunks), which
      delivers characters, that is code points, or fails; positions are
      byte positions, and text of the ASCII range is written as its bytes;
    - [json.dump] and [json.load] are the codec of the environment, and a
      manifest is a dictionary from strings to strings;
    - opening a file for writing fails on a directory or when the
      environment refuses it ([may_write]), and the write that follows may
      be interrupted by the system ([write_fault]), which leaves the file
      with what was written until then; reading is always granted;
    - [os.system] is any function from the command line and the files to an
      exit status and new files; it is run on a thread that is joined at
      once, so the calls are sequential;
    - the temporary file behind [random_name] leaves no trace;
    - the text of a library exception in the log is given by [str_exn]. *)

From Stdlib Require Import ZArith Ascii String Lia.
From Stdlib Require DecimalString DecimalN.
From stdpp Require Import base decidable option list strings gmap fin_maps relations.

Local Open Scope Z_scope.

(** ** Characters and strings *)

Definition slash : ascii := "/"%char.
Definition dot : ascii := "."%char.
Definition dquote : ascii := "034"%char.
Definition newline : ascii := "010"%char.
Definition space : ascii := " "%char.

(** [s.startswith(pre)] *)
Fixpoint startswith (s pre : string) {struct pre} : bool :=
  match pre with
  | EmptyString => true
  | String a pre' =>
      match s with
      | EmptyString => false
      | String b s' => bool_decide (a = b) && startswith s' pre'
      end
  end.

(** [s.endswith(c)] for a one-character suffix *)
Fixpoint endswith_char (s : string) (c : ascii) : bool :=
  match s with
  | EmptyString => false
  | String a EmptyString => bool_decide (a = c)
  | String _ s' => endswith_char s' c
  end.

(** [c in s] *)
Fixpoint contains (s : string) (c : ascii) : bool :=
  match s with
  | EmptyString => false
  | String a s' => bool_decide (a = c) || contains s' c
  end.

(** [s[len(pre):]] when [s] starts with [pre] *)
Fixpoint strip_prefix (pre s : string) : option string :=
  match pre with
  | EmptyString => Some s
  | String a pre' =>
      match s with
      | EmptyString => None
      | String b s' => if bool_decide (a = b) then strip_prefix pre' s' else None
      end
  end.

(** Decoded text: a list of code points. *)
Definition text : Type := list N.

Definition codes (s : string) : text := N_of_ascii <$> list_ascii_of_string s.

(** The characters [str.strip()] removes: those of [str.isspace]. *)
Definition is_space (c : N) : bool :=
  bool_decide (c ∈ [9; 10; 11; 12; 13; 28; 29; 30; 31; 32; 133; 160; 5760;
                    8192; 8193; 8194; 8195; 8196; 8197; 8198; 8199; 8200;
                    8201; 8202; 8232; 8233; 8239; 8287; 12288]%N).

Fixpoint lstrip (s : text) : text :=
  match s with
  | [] => []
  | c :: s' => if is_space c then lstrip s' else s
  end.

Fixpoint rstrip (s : text) : text :=
  match s with
  | [] => []
  | c :: s' =>
      match rstrip s' with
      | [] => if is_space c then [] else [c]
      | r => c :: r
      end
  end.

(** [s.strip()] *)
Definition strip (s : text) : text := rstrip (lstrip s).

(** [s.startswith(pre)] on decoded text *)
Fixpoint text_startswith (s pre : text) {struct pre} : bool :=
  match pre with
  | [] => true
  | a :: pre' =>
      match s with
      | [] => false
      | b :: s' => bool_decide (a = b) && text_startswith s' pre'
      end
  end.

(** [s.split(sep)] for a one-character separator: empty fields are kept *)
Fixpoint split_on (sep : ascii) (s : string) : list string :=
  match s with
  | EmptyString => [EmptyString]
  | String c s' =>
      if bool_decide (c = sep) then EmptyString :: split_on sep s'
      else match split_on sep s' with
           | w :: ws => String c w :: ws
           | [] => [String c EmptyString]
           end
  end.

(** The lines of a text whose line ends are newlines (code point 10): each
    keeps its newline, the last one may lack it. *)
Fixpoint readlines (s : text) : list text :=
  match s with
  | [] => []
  | c :: s' =>
      if bool_decide (c = 10%N) then [c] :: readlines s'
      else match readlines s' with
           | l :: ls => (c :: l) :: ls
           | [] => [[c]]
           end
  end.

Definition quoted (s : string) : string :=
  String dquote (s +:+ String dquote EmptyString).

(** ** Paths ([os.path], POSIX conventions) *)

(** [os.path.join(a, b)] *)
Definition dir_prefix (a : string) : string :=
  if bool_decide (a = "") || endswith_char a slash then a
  else a +:+ "/".

Definition join (a b : string) : string :=
  if startswith b "/" then b else dir_prefix a +:+ b.

(** [os.path.basename(p)]: what follows the last slash *)
Fixpoint basename (p : string) : string :=
  match p with
  | EmptyString => EmptyString
  | String c p' =>
      if contains p' slash then basename p'
      else if bool_decide (c = slash) then p' else p
  end.

(** [p[:i+1]] for [i] the index of the last slash *)
Fixpoint head_raw (p : string) : string :=
  match p with
  | EmptyString => EmptyString
  | String c p' =>
      if contains p' slash then String c (head_raw p')
      else if bool_decide (c = slash) then "/" else EmptyString
  end.

(** [s.rstrip('/')] *)
Fixpoint rstrip_slash (s : string) : string :=
  match s with
  | EmptyString => EmptyString
  | String c s' =>
      match rstrip_slash s' with
      | EmptyString => if bool_decide (c = slash) then EmptyString
                       else String c EmptyString
      | r => String c r
      end
  end.

(** [os.path.dirname(p)]: the head, without its trailing slashes unless it
    consists of slashes only *)
Definition dirname (p : string) : string :=
  let head := head_raw p in
  match rstrip_slash head with
  | EmptyString => head
  | r => r
  end.

(** [os.path.split(p)] *)
Definition split (p : string) : string * string := (dirname p, basename p).

Fixpoint all_dots (s : string) : bool :=
  match s with
  | EmptyString => true
  | String c s' => bool_decide (c = dot) && all_dots s'
  end.

(** Split at the last dot: [(p[:i], p[i:])] *)
Fixpoint rsplit_dot (s : string) : option (string * string) :=
  match s with
  | EmptyString => None
  | String c s' =>
      match rsplit_dot s' with
      | Some (a, b) => Some (String c a, b)
      | None => if bool_decide (c = dot) then Some (EmptyString, s) else None
      end
  end.

(** [os.path.splitext(p)] for a base name [p] (the source applies it to
    [os.path.basename(file)]): leading dots do not start an extension. *)
Definition splitext (p : string) : string * string :=
  match rsplit_dot p with
  | Some (a, b) => if all_dots a then (p, EmptyString) else (a, b)
  | None => (p, EmptyString)
  end.

(** A directory entry name: not empty, no separator. *)
Definition valid_name (f : string) : bool :=
  negb (bool_decide (f = "")) && negb (contains f slash).

(** ** The file system

    A node is a directory or a regular file holding text.  A path names a
    node by its spelling: the model does not identify different spellings of
    one path, and the empty path names nothing ([os.path.isdir('')] is
    [False]).  A file holds a string of bytes. *)

Inductive node :=
| Dir
| File (data : string).

#[global] Instance node_eq_dec : EqDecision node.
Proof. solve_decision. Defined.

Definition stat (fs : gmap string node) (p : string) : option node :=
  if bool_decide (p = "") then None
  else match fs !! p with
       | Some (File data) =>
           (* a trailing separator only resolves to a directory *)
           if endswith_char p slash then None else Some (File data)
       | n => n
       end.

(** [os.path.exists], [os.path.isfile], [os.path.isdir] *)
Definition path_exists (fs : gmap string node) (p : string) : bool :=
  match stat fs p with Some _ => true | None => false end.

Definition isfile (fs : gmap string node) (p : string) : bool :=
  match stat fs p with Some (File _) => true | _ => false end.

Definition isdir (fs : gmap string node) (p : string) : bool :=
  match stat fs p with Some Dir => true | _ => false end.

(** Operating-system errors, by the name of their Python class. *)
Inductive oserror :=
| FileExistsError
| FileNotFoundError
| NotADirectoryError
| IsADirectoryError
| PermissionError
| PlainOSError.

#[global] Instance oserror_eq_dec : EqDecision oserror.
Proof. solve_decision. Defined.

(** The name of the entry of directory [d] stored under key [k], if any. *)
Definition entry_of (d k : string) : option string :=
  match strip_prefix (dir_prefix d) k with
  | Some f => if valid_name f then Some f else None
  | None => None
  end.

(** [os.listdir(d)]: the entries of [d], in the order the system yields
    them; fails when [d] is no directory. *)
Definition listdir (fs : gmap string node) (d : string)
  : oserror + list string :=
  match stat fs d with
  | Some Dir => inr (omap (λ kv, entry_of d kv.1) (map_to_list fs))
  | Some (File _) => inl NotADirectoryError
  | None => inl FileNotFoundError
  end.

(** [os.mkdir(p)] *)
Definition parent (p : string) : string := dirname (rstrip_slash p).

Definition mkdir (p : string) (fs : gmap string node)
  : oserror + gmap string node :=
  match stat fs p with
  | Some _ => inl FileExistsError
  | None =>
      if bool_decide (p = "") then inl FileNotFoundError
      else if bool_decide (parent p = "") then inr (<[p := Dir]> fs)
      else match stat fs (parent p) with
           | Some Dir => inr (<[p := Dir]> fs)
           | Some (File _) => inl NotADirectoryError
           | None => inl FileNotFoundError
           end
  end.

(** [os.makedirs(name)] with [exist_ok=False]: the missing ancestors are
    created first; a [FileExistsError] of the recursive call is swallowed,
    the one of the final [mkdir] is not.  What was created stays when a later
    step fails, so the file system is returned together with the error.
    [fuel] bounds the recursion over the ancestors; the length of [name] is
    enough. *)
Fixpoint makedirs_fuel (fuel : nat) (name : string) (fs : gmap string node)
  : gmap string node * option oserror :=
  let '(head, tail) := split name in
  let '(head, tail) :=
    if bool_decide (tail = "") then split head else (head, tail) in
  let final (fs : gmap string node) :=
    match mkdir name fs with
    | inr fs' => (fs', None)
    | inl e => (fs, Some e)
    end in
  match fuel with
  | O => final fs
  | S fuel' =>
      if negb (bool_decide (head = "")) && negb (bool_decide (tail = ""))
         && negb (path_exists fs head)
      then
        match makedirs_fuel fuel' head fs with
        | (fs1, None) | (fs1, Some FileExistsError) =>
            if bool_decide (tail = ".") then (fs1, None) else final fs1
        | (fs1, Some e) => (fs1, Some e)
        end
      else final fs
  end.

(** A path that exists has its ancestors, so [os.makedirs] on it reaches the
    final [mkdir] at once and fails there. *)
Definition makedirs (name : string) (fs : gmap string node)
  : gmap string node * option oserror :=
  match stat fs name with
  | Some _ => (fs, Some FileExistsError)
  | None => makedirs_fuel (String.length name) name fs
  end.

Fixpoint nuls (n : nat) : string :=
  match n with
  | O => EmptyString
  | S n' => String zero (nuls n')
  end.

(** [f.seek(pos); f.write(txt)] for a text of the ASCII range: its bytes
    overwrite the file in place from byte [pos] on, and extend it when they
    reach past its end (a gap is filled with NUL). *)
Definition write_at (pos : nat) (txt data : string) : string :=
  let n := String.length data in
  String.substring 0 pos data +:+ nuls (pos - n) +:+ txt
  +:+ String.substring (pos + String.length txt) n data.

(** ** Values exchanged with the collaborators *)

(** What [json.load] may return: a dictionary of strings, or some other
    value, of which only the truth value matters here.  Dictionary values
    are strings, as [json_dump] writes them. *)
Inductive jval :=
| JDict (d : gmap string string)
| JOther (truthy : bool).

#[global] Instance jval_eq_dec : EqDecision jval.
Proof. solve_decision. Defined.

(** [bool(v)] *)
Definition jtruthy (v : jval) : bool :=
  match v with
  | JDict d => negb (bool_decide (d = ∅))
  | JOther t => t
  end.

(** The values a caller may pass as [re_use_indexing]. *)
Inductive pyval :=
| PyBool (b : bool)
| PyInt (n : Z)
| PyStr (s : string)
| PyNone.

(** Python's [==] on those values: [True == 1] and [False == 0]. *)
Definition py_eq (a b : pyval) : bool :=
  match a, b with
  | PyBool x, PyBool y => bool_decide (x = y)
  | PyInt x, PyInt y => bool_decide (x = y)
  | PyBool x, PyInt y | PyInt y, PyBool x =>
      bool_decide (y = if x then 1 else 0)
  | PyStr x, PyStr y => bool_decide (x = y)
  | PyNone, PyNone => true
  | _, _ => false
  end.

(** [v in l] *)
Definition py_in (v : pyval) (l : list pyval) : bool :=
  existsb (py_eq v) l.

(** [bool(v)] *)
Definition py_truthy (v : pyval) : bool :=
  match v with
  | PyBool b => b
  | PyInt n => negb (bool_decide (n = 0))
  | PyStr s => negb (bool_decide (s = ""))
  | PyNone => false
  end.

(** [isinstance(v, bool)] *)
Definition is_bool (v : pyval) : bool :=
  match v with PyBool _ => true | _ => false end.

(** ** Environment, world and the monad *)

Record env := Env {
  (** [shutil.which(name)] on the current search path *)
  which : gmap string node → string → option string;
  (** [os.access(path, os.X_OK)] *)
  access_x : string → bool;
  (** [os.system(cmd)]: exit status and what the command did to the files *)
  os_system : string → gmap string node → Z * gmap string node;
  (** whether the system lets the program open [path] for writing *)
  may_write : string → bool;
  (** [json.dumps] and [json.loads] *)
  json_dumps : jval → string;
  json_loads : string → option jval;
  (** the base name of the [k]-th temporary file drawn from [tempfile] *)
  rand : nat → string;
  (** a write to [path] that the system interrupts after the file was opened
      (no space left, a limit on the size): what the file holds then *)
  write_fault : gmap string node → string → option string;
  (** the text layer: what reading on from byte [pos] of a file with these
      bytes delivers, decoded in the encoding of the locale and with the
      line ends translated to newline, up to the end of the file or to the
      chunk that cannot be decoded; and whether it stopped for that reason *)
  read_text : string → nat → text * bool;
}.

Inductive level := INFO | ERROR.

(** The world: the files, what the two loggers received, how many temporary
    names were drawn, and the commands handed to [os.system] so far. *)
Record world := World {
  fs : gmap string node;
  log : list (level * string);
  ticks : nat;
  spawned : list string;
}.

Inductive exn :=
| ValueError (msg : string)
| ExecutableNotInPATHError (msg executable : string)
| TypeError (msg : string)
| OSError (e : oserror) (path : string).

Inductive result (A : Type) :=
| Ok (a : A)
| Raise (e : exn).
Arguments Ok {A} a.
Arguments Raise {A} e.

Definition M (A : Type) : Type := world → result A * world.

#[global] Instance M_ret : MRet M := λ A a w, (Ok a, w).
#[global] Instance M_bind : MBind M := λ A B f m w,
  match m w with
  | (Ok a, w') => f a w'
  | (Raise e, w') => (Raise e, w')
  end.

Definition raise {A} (e : exn) : M A := λ w, (Raise e, w).
Definition get_fs : M (gmap string node) := λ w, (Ok (fs w), w).
Definition put_fs (f : gmap string node) : M unit :=
  λ w, (Ok tt, World f (log w) (ticks w) (spawned w)).
Definition say (l : level) (msg : string) : M unit :=
  λ w, (Ok tt, World (fs w) (log w ++ [(l, msg)]) (ticks w) (spawned w)).

(** [logger.info(msg)] and [logger_error.error(msg)] *)
Definition logger_info (msg : string) : M unit := say INFO msg.
Definition logger_error (msg : string) : M unit := say ERROR msg.

(** [try: m  except Exception as e: h e] *)
Definition try_except {A} (m : M A) (h : exn → M A) : M A := λ w,
  match m w with
  | (Ok a, w') => (Ok a, w')
  | (Raise e, w') => h e w'
  end.

Definition oserror_name (e : oserror) : string :=
  match e with
  | FileExistsError => "FileExistsError"
  | FileNotFoundError => "FileNotFoundError"
  | NotADirectoryError => "NotADirectoryError"
  | IsADirectoryError => "IsADirectoryError"
  | PermissionError => "PermissionError"
  | PlainOSError => "OSError"
  end.

(** [str(e)]: the text of the library is not reproduced, only its parts. *)
Definition str_exn (e : exn) : string :=
  match e with
  | ValueError m | TypeError m | ExecutableNotInPATHError m _ => m
  | OSError k p => oserror_name k +:+ ": " +:+ p
  end.

(** ** File primitives *)

(** [open(path, 'r')] followed by reading the whole file *)
Definition open_read (path : string) : M string := λ w,
  match stat (fs w) path with
  | Some (File data) => (Ok data, w)
  | Some Dir => (Raise (OSError IsADirectoryError path), w)
  | None => (Raise (OSError FileNotFoundError path), w)
  end.

(** Whether [open(path, 'w')] succeeds.  The existence of the parent
    directory is not checked here: the callers list it first. *)
Definition open_error (E : env) (fs : gmap string node) (path : string)
  : option oserror :=
  if bool_decide (path = "") then Some FileNotFoundError
  else if endswith_char path slash then Some IsADirectoryError
  else match fs !! path with
       | Some Dir => Some IsADirectoryError
       | _ => if may_write E path then None else Some PermissionError
       end.

(** The error of [with open(path, 'w') as f: f.write(data)], if any: that
    of [open], or that of a write the system interrupts. *)
Definition open_w_error (E : env) (fs : gmap string node) (path : string)
  : option oserror :=
  match open_error E fs path with
  | Some e => Some e
  | None =>
      match write_fault E fs path with
      | Some _ => Some PlainOSError
      | None => None
      end
  end.

(** The files after a failure of that statement: [open] creates or
    truncates the file before anything is written. *)
Definition after_failed_write (E : env) (fs : gmap string node) (path : string)
  : gmap string node :=
  match open_error E fs path with
  | Some _ => fs
  | None =>
      match write_fault E fs path with
      | Some written => <[path := File written]> fs
      | None => fs
      end
  end.

(** [with open(path, 'w') as f: f.write(data)] *)
Definition write_file (E : env) (path data : string) : M unit := λ w,
  match open_error E (fs w) path with
  | Some e => (Raise (OSError e path), w)
  | None =>
      match write_fault E (fs w) path with
      | Some written =>
          (Raise (OSError PlainOSError path),
           World (<[path := File written]> (fs w)) (log w) (ticks w)
                 (spawned w))
      | None =>
          (Ok tt,
           World (<[path := File data]> (fs w)) (log w) (ticks w) (spawned w))
      end
  end.

(** [f.seek(pos); f.read(1)] on a file opened in text mode: the first
    character the text layer delivers from there, the empty string at the end
    of the file, or the error of the decoder. *)
Definition read1 (E : env) (pos : nat) (data : string) : M text :=
  let '(chars, failed) := read_text E data pos in
  match chars with
  | c :: _ => mret [c]
  | [] => if failed then raise (ValueError "UnicodeDecodeError") else mret []
  end.

(** [open(path, 'r+')]: the file must exist and be writable. *)
Definition open_update (E : env) (path : string) : M string := λ w,
  match stat (fs w) path with
  | Some (File data) =>
      if may_write E path then (Ok data, w)
      else (Raise (OSError PermissionError path), w)
  | Some Dir => (Raise (OSError IsADirectoryError path), w)
  | None => (Raise (OSError FileNotFoundError path), w)
  end.

(** [os.remove(path)] *)
Definition os_remove (E : env) (path : string) : M unit := λ w,
  match stat (fs w) path with
  | Some (File _) =>
      if may_write E path
      then (Ok tt, World (delete path (fs w)) (log w) (ticks w) (spawned w))
      else (Raise (OSError PermissionError path), w)
  | Some Dir => (Raise (OSError IsADirectoryError path), w)
  | None => (Raise (OSError FileNotFoundError path), w)
  end.

Definition lift_os {A} (path : string) (r : oserror + A) : M A :=
  match r with
  | inr a => mret a
  | inl e => raise (OSError e path)
  end.

(** ** The program *)

Section Program.
Context (E : env).

(**
<<
def json_load(storage, filename):
    path = os.path.join(storage, filename)
    try:
        with open(path, 'r') as f:
            template = json.load(f)
    except Exception as e:
        logger_error.error(str(e))
        return {}
    else:
        return template
>> *)
Definition json_load (storage filename : string) : M jval :=
  let path := join storage filename in
  try_except
    (data ← open_read path;
     match json_loads E data with
     | Some template => mret template
     | None => raise (ValueError "JSONDecodeError")
     end)
    (λ e, logger_error (str_exn e);; mret (JDict ∅)).

(**
<<
def json_dump(storage, filename, template):
    path = os.path.join(storage, filename)
    try:
        with open(path, 'w') as f:
           json.dump(template, f)
    except Exception as e:
        logger_error.error(str(e))
        return False
    else:
        return True
>> *)
Definition json_dump (storage filename : string) (template : jval) : M bool :=
  let path := join storage filename in
  try_except
    (write_file E path (json_dumps E template);; mret true)
    (λ e, logger_error (str_exn e);; mret false).

(** [random_name]: the base name of a fresh [tempfile.NamedTemporaryFile],
    which is closed (and so removed) at once. *)
Definition random_name : M string := λ w,
  (Ok (rand E (ticks w)), World (fs w) (log w) (S (ticks w)) (spawned w)).

(** [Path(file).name]: the last component, a trailing separator ignored *)
Definition path_name (file : string) : string := basename (rstrip_slash file).

(** ['{}list{}'.format(index_ext, name)] *)
Definition list_name (index_ext name : string) : string :=
  index_ext +:+ "list" +:+ name.

(**
<<
def update_index_path_reference(file, index_path, file_index_ref,
                                indexing_dir, reflist_name, index_ext):
    if not file_index_ref:
         file_index_ref = json_load(indexing_dir, reflist_name)
    file_index_ref[Path(file).name] = index_path
    old_name = reflist_name
    reflist_name = '{}list{}'.format(index_ext, random_name())
    isDumped = json_dump(indexing_dir, reflist_name, file_index_ref)
    if isDumped:
        logger.info('reference for new indexed file updated')
        old_file = Path(indexing_dir).joinpath(old_name)
        if old_file.is_file():
            os.remove(old_file)
    else:
        logger_error.error('json failed to store updated reference')
>> *)
Definition update_index_path_reference
    (file index_path : string) (file_index_ref : jval)
    (indexing_dir reflist_name index_ext : string) : M unit :=
  file_index_ref ←
    (if negb (jtruthy file_index_ref) then json_load indexing_dir reflist_name
     else mret file_index_ref);
  file_index_ref ←
    match file_index_ref with
    | JDict d => mret (JDict (<[path_name file := index_path]> d))
    | JOther _ => raise (TypeError "object does not support item assignment")
    end;
  let old_name := reflist_name in
  name ← random_name;
  let reflist_name := list_name index_ext name in
  isDumped ← json_dump indexing_dir reflist_name file_index_ref;
  if isDumped : bool then
    logger_info "reference for new indexed file updated";;
    let old_file := join indexing_dir old_name in
    fs ← get_fs;
    if isfile fs old_file then os_remove E old_file else mret tt
  else
    logger_error "json failed to store updated reference".

(** The test of the loop of [get_reflist_name]. *)
Definition is_reflist (fs : gmap string node) (indexing_dir index_ext f : string)
  : bool :=
  isfile fs (join indexing_dir f) && startswith f (index_ext +:+ "list").

(**
<<
    def get_reflist_name(self, indexing_dir, index_ext):
        reflist_name = ''
        for f in os.listdir(indexing_dir):
            if os.path.isfile(os.path.join(indexing_dir, f)) and f.startswith(index_ext+'list'):
                reflist_name = f
                break
        if not reflist_name:
            reflist_name = '{}list{}'.format(index_ext, random_name())
            isDumped = json_dump(indexing_dir, reflist_name, {'filebase':'index file'})
            if not isDumped:
                logger_error.error(f'json failed to create empty dictionary to store {index_ext} references')
                return ''
            else:
                return reflist_name
        return reflist_name
>> *)
Definition placeholder : jval := JDict {[ "filebase" := "index file" ]}.

Definition get_reflist_name (indexing_dir index_ext : string) : M string :=
  fs ← get_fs;
  names ← lift_os indexing_dir (listdir fs indexing_dir);
  let reflist_name :=
    default "" (List.find (is_reflist fs indexing_dir index_ext) names) in
  if bool_decide (reflist_name = "") then
    name ← random_name;
    let reflist_name := list_name index_ext name in
    isDumped ← json_dump indexing_dir reflist_name placeholder;
    if negb isDumped then
      logger_error ("json failed to create empty dictionary to store "
                    +:+ index_ext +:+ " references");;
      mret ""
    else mret reflist_name
  else mret reflist_name.

(**
<<
    def get_index_path_using_reflist(self, source, index_ext, indexing_dir, re_use_indexing):
        file_index_ref = {}
        reflist_name = self.get_reflist_name(indexing_dir, index_ext)
        index_path = ''
        if re_use_indexing:
            logger.info(...)
            file_index_ref = json_load(indexing_dir, reflist_name)
            if file_index_ref and isinstance(file_index_ref, dict):
                try:
                    index_path = file_index_ref[os.path.basename(source)]
                except KeyError:
                    index_path = ''
                    logger.info(...)
                else:
                    if os.path.exists(index_path):
                        logger.info(...)
                    else:
                        index_path = ''
                        logger.info(...)
                        del file_index_ref[os.path.basename(source)]
            else:
                logger.info(...)
        else:
            logger.info(...)
        isIndexing = False
        if not index_path:
            isIndexing = True
            index_path = os.path.join(indexing_dir, random_name() + '.' + index_ext)
        return isIndexing, index_path, reflist_name, file_index_ref
>> *)
Definition lookup_reference (source index_ext : string) (file_index_ref : jval)
  : M (string * jval) :=
  match file_index_ref with
  | JDict d =>
      if jtruthy file_index_ref then
        match d !! basename source with
        | None =>
            logger_info ("key '" +:+ basename source
              +:+ "' index file not found in reference, new " +:+ index_ext
              +:+ " file will be created");;
            mret ("", file_index_ref)
        | Some index_path =>
            fs ← get_fs;
            if path_exists fs index_path then
              logger_info (index_ext +:+ "_file=" +:+ quoted index_path);;
              mret (index_path, file_index_ref)
            else
              logger_info ("index file found in reference, but actual "
                +:+ index_ext +:+ " file does not exist, will be created");;
              mret ("", JDict (delete (basename source) d))
        end
      else
        logger_info ("reference file is not available, new " +:+ index_ext
                     +:+ " file will be created");;
        mret ("", file_index_ref)
  | JOther _ =>
      logger_info ("reference file is not available, new " +:+ index_ext
                   +:+ " file will be created");;
      mret ("", file_index_ref)
  end.

Definition get_index_path_using_reflist
    (source index_ext indexing_dir : string) (re_use_indexing : pyval)
  : M (bool * string * string * jval) :=
  let file_index_ref := JDict ∅ in
  reflist_name ← get_reflist_name indexing_dir index_ext;
  '(index_path, file_index_ref) ←
    (if py_truthy re_use_indexing then
       logger_info ("re_use_indexing is enabled, looking for " +:+ index_ext
                    +:+ " file in temp");;
       file_index_ref ← json_load indexing_dir reflist_name;
       lookup_reference source index_ext file_index_ref
     else
       logger_info ("re_use_indexing is disabled, new " +:+ index_ext
                    +:+ " file will be created");;
       mret ("", file_index_ref));
  if bool_decide (index_path = "") then
    name ← random_name;
    mret (true, join indexing_dir (name +:+ "." +:+ index_ext),
          reflist_name, file_index_ref)
  else mret (false, index_path, reflist_name, file_index_ref).

(**
<<
    def get_index_path(self, file, index_ext, indexing_dir, re_use_indexing):
        isIndexing = True
        name = os.path.splitext(os.path.basename(file))[0]
        index_path = os.path.join(indexing_dir, name + '.' + index_ext)
        if re_use_indexing:
            logger.info(...)
            if os.path.isfile(index_path):
                isIndexing = False
                logger.info(...)
            else:
                logger.info(...)
        else:
             logger.info(...)
        return isIndexing, index_path
>> *)
Definition get_index_path
    (file index_ext indexing_dir : string) (re_use_indexing : pyval)
  : M (bool * string) :=
  let name := (splitext (basename file)).1 in
  let index_path := join indexing_dir (name +:+ "." +:+ index_ext) in
  if py_truthy re_use_indexing then
    logger_info ("re_use_indexing is enabled, looking for " +:+ index_ext
                 +:+ " file in " +:+ quoted (dirname file) +:+ " directory");;
    fs ← get_fs;
    if isfile fs index_path then
      logger_info (index_ext +:+ "_file="
                   +:+ quoted (basename file +:+ "." +:+ index_ext));;
      mret (false, index_path)
    else
      logger_info ("index file not found, new " +:+ index_ext
                   +:+ " file will be created");;
      mret (true, index_path)
  else
    logger_info ("re_use_indexing is disabled, new " +:+ index_ext
                 +:+ " file will be created");;
    mret (true, index_path).

Definition not_in_path_msg (exec_name : string) : string :=
  "No directory passed for " +:+ exec_name
  +:+ " and executable not found in PATH!, Use Load module settings window to select "
  +:+ exec_name +:+ " directory, then save changes and re-load clip.".

Definition not_a_directory_msg (exec_name exec_dir : string) : string :=
  "directory for " +:+ exec_name +:+ " is not a directory: " +:+ quoted exec_dir.

Definition not_in_dir_msg (exec_name exec_dir : string) : string :=
  exec_name +:+ " executable is not in " +:+ quoted exec_dir.

(**
<<
    def get_exec_path(self, exec_dir, exec_name, fallback_tool_dir):
        exec_path=''
        if not exec_dir:
            exec_path = shutil.which(exec_name)
            if exec_path and os.path.isfile(exec_path):
                if not os.access(exec_path, os.X_OK):
                    logger.info(f'executable {exec_name} might not have administrative rights to run')
            else:
                if fallback_tool_dir and os.path.isdir(fallback_tool_dir):
                    logger.info(...)
                    exec_dir = fallback_tool_dir
                else:
                    raise ExecutableNotInPATHError(..., f'{exec_name}')
        if not os.path.isdir(exec_dir):
            raise ValueError(f'directory for {exec_name} is not a directory: "{exec_dir}"')
        if not exec_path:
            exec_path = os.path.join(exec_dir, exec_name)
        if not os.path.isfile(exec_path):
            exec_path += '.exe'
            if not os.path.isfile(exec_path):
                raise ValueError(f'{exec_name} executable is not in "{exec_dir}"')
        return exec_path
>>
    [exec_path] is [None] or a string after [shutil.which]; both the empty
    string and [None] are false, so [None] is kept as the empty string. *)
Definition get_exec_path (exec_dir exec_name fallback_tool_dir : string)
  : M string :=
  fs ← get_fs;
  '(exec_dir, exec_path) ←
    (if bool_decide (exec_dir = "") then
       let exec_path := default "" (which E fs exec_name) in
       if negb (bool_decide (exec_path = "")) && isfile fs exec_path then
         (if negb (access_x E exec_path) then
            logger_info ("executable " +:+ exec_name
                         +:+ " might not have administrative rights to run")
          else mret tt);;
         mret (exec_dir, exec_path)
       else if negb (bool_decide (fallback_tool_dir = ""))
               && isdir fs fallback_tool_dir then
         logger_info ("No directory passed for " +:+ exec_name
           +:+ ", executable not found in PATH, but fallback_tool_dir passed:"
           +:+ String newline (quoted fallback_tool_dir));;
         mret (fallback_tool_dir, exec_path)
       else
         raise (ExecutableNotInPATHError (not_in_path_msg exec_name) exec_name)
     else mret (exec_dir, ""));
  if negb (isdir fs exec_dir) then
    raise (ValueError (not_a_directory_msg exec_name exec_dir))
  else
    let exec_path :=
      if bool_decide (exec_path = "") then join exec_dir exec_name
      else exec_path in
    if negb (isfile fs exec_path) then
      let exec_path := exec_path +:+ ".exe" in
      if negb (isfile fs exec_path) then
        raise (ValueError (not_in_dir_msg exec_name exec_dir))
      else mret exec_path
    else mret exec_path.

(** The attributes of an [Index_managment_prep] object.  In co-located mode
    the source leaves [reflist_name] and [file_index_ref] unset and never
    reads them; they hold the initial values of the locals here. *)
Record prep := Prep {
  isIndexing : bool;
  index_path : string;
  reflist_name : string;
  file_index_ref : jval;
  exec_path : string;
  using_reflist : bool;
  indexing_dir : string;
}.

(** [prep.indexing_dir], for the functions that have an argument of that
    name too *)
Definition prep_indexing_dir (p : prep) : string := indexing_dir p.

Definition no_source_msg (exec_name : string) : string :=
  "[" +:+ exec_name +:+ "] no source argument for indexing".

Definition not_a_file_msg (exec_name source : string) : string :=
  "[" +:+ exec_name +:+ "] not a file: " +:+ source.

Definition invalid_policy_msg (exec_name : string) : string :=
  "[" +:+ exec_name +:+ "] re_use_indexing argument must be True or False".

Definition invalid_directory_msg (exec_name indexing_dir : string) : string :=
  "[" +:+ exec_name +:+ "] argument indexing_dir is not a directory: "
  +:+ quoted indexing_dir.

(** [os.path.join(indexing_dir, 'indexing', basename)] with
    [basename = os.path.basename(os.path.dirname(source))] *)
Definition cache_subdir (indexing_dir source : string) : string :=
  join (join indexing_dir "indexing") (basename (dirname source)).

(**
<<
    def __init__(self, index_ext, exec_name, source, re_use_indexing, exec_dir, indexing_dir, fallback_tool_dir=''):
        ...
        if not source:
            raise ValueError(f'[{exec_name}] no source argument for indexing')
        if not os.path.isfile(source):
            raise ValueError(f'[{exec_name}] not a file: {source}')
        if re_use_indexing not in [True, False]:
            raise ValueError(f'[{exec_name}] re_use_indexing argument must be True or False')
        exec_path = self.get_exec_path(exec_dir, exec_name, fallback_tool_dir)
        if indexing_dir:
            if not os.path.isdir(indexing_dir):
                raise ValueError(f'[{exec_name}] argument indexing_dir is not a directory: "{indexing_dir}"')
            using_reflist = True
            basename = os.path.basename(os.path.dirname(source))
            indexing_dir = os.path.join(indexing_dir, 'indexing', basename)
            try:
                os.makedirs(indexing_dir)
            except FileExistsError:
                pass
            else:
                logger.info(f'creating directory: {indexing_dir}')
            finally:
                self.isIndexing, self.index_path, self.reflist_name, self.file_index_ref = self.get_index_path_using_reflist(source, index_ext, indexing_dir, re_use_indexing)
        else:
            indexing_dir = os.path.dirname(source)
            self.isIndexing, self.index_path = self.get_index_path(source, index_ext, indexing_dir, re_use_indexing)
        self.exec_path     =  exec_path
        self.using_reflist =  using_reflist
        self.indexing_dir  =  indexing_dir
>>
    The [finally] clause runs also when [os.makedirs] fails with another
    error, which is raised again afterwards unless the clause itself
    raises. *)
Definition Index_managment_prep
    (index_ext exec_name source : string) (re_use_indexing : pyval)
    (exec_dir indexing_dir fallback_tool_dir : string) : M prep :=
  fs ← get_fs;
  if bool_decide (source = "") then
    raise (ValueError (no_source_msg exec_name))
  else if negb (isfile fs source) then
    raise (ValueError (not_a_file_msg exec_name source))
  else if negb (py_in re_use_indexing [PyBool true; PyBool false]) then
    raise (ValueError (invalid_policy_msg exec_name))
  else
    exec_path ← get_exec_path exec_dir exec_name fallback_tool_dir;
    if negb (bool_decide (indexing_dir = "")) then
      if negb (isdir fs indexing_dir) then
        raise (ValueError (invalid_directory_msg exec_name indexing_dir))
      else
        let indexing_dir := cache_subdir indexing_dir source in
        pending ←
          (let '(fs', err) := makedirs indexing_dir fs in
           put_fs fs';;
           match err with
           | None =>
               logger_info ("creating directory: " +:+ indexing_dir);;
               mret None
           | Some FileExistsError => mret None
           | Some e => mret (Some e)
           end);
        '(isIndexing, index_path, reflist_name, file_index_ref) ←
          get_index_path_using_reflist source index_ext indexing_dir
                                       re_use_indexing;
        match pending with
        | Some e => raise (OSError e indexing_dir)
        | None =>
            mret (Prep isIndexing index_path reflist_name file_index_ref
                       exec_path true indexing_dir)
        end
    else
      let indexing_dir := dirname source in
      '(isIndexing, index_path) ←
        get_index_path source index_ext indexing_dir re_use_indexing;
      mret (Prep isIndexing index_path "" (JDict ∅) exec_path false
                 indexing_dir).

(**
<<
def process(cmd, result):
    return_code = os.system(cmd)
    result[0]=return_code
>> *)
Definition process (cmd : string) (result : list (option Z))
  : M (list (option Z)) := λ w,
  let '(return_code, fs') := os_system E cmd (fs w) in
  (Ok (<[0%nat := Some return_code]> result),
   World fs' (log w) (ticks w) (spawned w ++ [cmd])).

(**
<<
def run_process(cmd):
    results = [None]
    p = threading.Thread(target=process, args=(cmd,results))
    p.start()
    p.join()
    if results[0]==0:
        return True
    return False
>>
    The thread is joined before anything else happens, so [process] runs to
    its end in between; it shares the list [results] with the caller. *)
Definition run_process (cmd : string) : M bool :=
  let results := [None] in
  results ← process cmd results;
  if bool_decide (results !! 0%nat = Some (Some 0)) then mret true
  else mret false.

(** The marker of the range flag in an artifact. *)
Definition marker : text := codes "YUVRGB_Scale".

(** Whether a line has its line end. *)
Definition complete (line : text) : bool := bool_decide (last line = Some 10%N).

(** The lines [for line in f] delivers from what the text layer decodes: a
    last line without line end is delivered at the end of the file only;
    when the decoder fails, the error comes in its place. *)
Definition delivered (chars : text) (failed : bool) : list text :=
  if failed then filter (λ line, complete line = true) (readlines chars)
  else readlines chars.

(** The scan of [correct_byte_for_range]: the length of the lines before the
    first one whose stripped text starts with the marker, and whether there
    is one. *)
Fixpoint scan_marker (lines : list text) (offset : nat) : nat * bool :=
  match lines with
  | [] => (offset, false)
  | line :: rest =>
      if text_startswith (strip line) marker then (offset, true)
      else scan_marker rest (offset + length line)
  end.

(**
<<
def correct_byte_for_range(d2v_path, input_range):
    if input_range == 'full': input_range_number = '0'
    else:                     input_range_number = '1'
    with open(d2v_path, 'r+') as f:
        offset = 0
        try:
            for line in f:
                if line.strip().startswith('YUVRGB_Scale'):
                    break
                offset += len(line)
            if offset:
                f.seek(offset+13)   #'YUVRGB_Scale=0 or 'YUVRGB_Scale=1'
                _range = f.read(1)
                if _range != input_range_number:
                    f.seek(0)
                    f.seek(offset)
                    f.write(f'YUVRGB_Scale={input_range_number}')
                    f.close()
                    logger.info(...)
        except:
            logger_error.error("Not d2v index file or not compatible, input_range byte check failed")
>>
    [open] is outside the [try], so its failure is raised.  The file is
    opened in text mode: the loop counts the characters of the decoded lines,
    while [seek] takes the count for a byte position.  Inside the [try] the
    decoder may fail, in the loop (unless the loop has left before) or in
    [f.read(1)], and the system may interrupt the write; the bare [except]
    logs an error for each of them. *)
Definition correct_byte_for_range (d2v_path input_range : string) : M unit :=
  let input_range_number :=
    if bool_decide (input_range = "full") then "0" else "1" in
  data ← open_update E d2v_path;
  try_except
    (let '(chars, failed) := read_text E data 0 in
     let '(offset, found) := scan_marker (delivered chars failed) 0 in
     if negb found && failed then raise (ValueError "UnicodeDecodeError")
     else if negb (bool_decide (offset = 0%nat)) then
       _range ← read1 E (offset + 13) data;
       if negb (bool_decide (_range = codes input_range_number)) then
         fs ← get_fs;
         match write_fault E fs d2v_path with
         | Some written =>
             put_fs (<[d2v_path := File written]> fs);;
             raise (OSError PlainOSError d2v_path)
         | None =>
             put_fs (<[d2v_path :=
                       File (write_at offset
                               ("YUVRGB_Scale=" +:+ input_range_number)
                               data)]> fs);;
             logger_info ("correcting input range byte in d2v file to '"
                          +:+ input_range_number +:+ "' - '" +:+ input_range
                          +:+ "'")
         end
       else mret tt
     else mret tt)
    (λ _, logger_error
            "Not d2v index file or not compatible, input_range byte check failed").

(** The loop of [d2vwitch] over the options:
<<
        input_range = 'limited'
        args = d2vwitch_options.split(' ')
        while args:
            arg = args.pop(0)
            if arg =='--input-range' and args:
                input_range = args.pop(0)
>> *)
Fixpoint scan_input_range (args : list string) (input_range : string) : string :=
  match args with
  | [] => input_range
  | arg :: args' =>
      if bool_decide (arg = "--input-range") then
        match args' with
        | value :: args'' => scan_input_range args'' value
        | [] => input_range
        end
      else scan_input_range args' input_range
  end.

Definition d2vwitch_cmd (p : prep) (d2vwitch_options source : string) : string :=
  let cmd_output := " --output " +:+ quoted (index_path p) in
  "title d2vwitch creating:  " +:+ index_path p
  +:+ " | mode con: cols=80 lines=6 | " +:+ quoted (exec_path p) +:+ " "
  +:+ d2vwitch_options +:+ " " +:+ cmd_output +:+ " " +:+ quoted source.

Definition created_msg (index_ext : string) (p : prep) : string :=
  "created " +:+ index_ext +:+ " file:"
  +:+ String newline (index_ext +:+ "_file=" +:+ index_path p).

(**
<<
def d2vwitch( source, indexing_dir='', d2vwitch_dir='', re_use_indexing=True, d2vwitch_options='', fallback_tool_dir=''):
    index_ext = 'd2v'
    exec_name = 'd2vwitch'
    logger.info(f'indexing, using {exec_name} for: {source}')
    prep = Index_managment_prep(index_ext, exec_name, source, re_use_indexing, d2vwitch_dir, indexing_dir, fallback_tool_dir)
    if not prep.isIndexing:
        input_range = 'limited'
        args = d2vwitch_options.split(' ')
        while args: ...
        correct_byte_for_range(prep.index_path, input_range)
        return prep.index_path
    cmd_output = f' --output "{prep.index_path}"'
    cmd = f'title d2vwitch creating:  {prep.index_path} | mode con: cols=80 lines=6 | "{prep.exec_path}" {d2vwitch_options} {cmd_output} "{source}"'
    logger.info(f'd2vwitch command line:\n{cmd}')
    isSuccess = run_process(cmd)
    if isSuccess and Path(prep.index_path).is_file():
        if prep.using_reflist:
            update_index_path_reference(source, prep.index_path, prep.file_index_ref, prep.indexing_dir, prep.reflist_name, index_ext)
        logger.info(f'created {index_ext} file:\n{index_ext}_file={prep.index_path}')
        return prep.index_path
    else:
        logger_error.error(f'ERROR while indexing with {exec_name}')
        return ''
>> *)
Definition d2vwitch (source indexing_dir d2vwitch_dir : string)
    (re_use_indexing : pyval) (d2vwitch_options fallback_tool_dir : string)
  : M string :=
  let index_ext := "d2v" in
  let exec_name := "d2vwitch" in
  logger_info ("indexing, using " +:+ exec_name +:+ " for: " +:+ source);;
  prep ← Index_managment_prep index_ext exec_name source re_use_indexing
                              d2vwitch_dir indexing_dir fallback_tool_dir;
  if negb (isIndexing prep) then
    let input_range :=
      scan_input_range (split_on space d2vwitch_options) "limited" in
    correct_byte_for_range (index_path prep) input_range;;
    mret (index_path prep)
  else
    let cmd := d2vwitch_cmd prep d2vwitch_options source in
    logger_info ("d2vwitch command line:" +:+ String newline cmd);;
    isSuccess ← run_process cmd;
    fs ← get_fs;
    if isSuccess && isfile fs (index_path prep) then
      (if using_reflist prep then
         update_index_path_reference source (index_path prep)
           (file_index_ref prep) (prep_indexing_dir prep) (reflist_name prep)
           index_ext
       else mret tt);;
      logger_info (created_msg index_ext prep);;
      mret (index_path prep)
    else
      logger_error ("ERROR while indexing with " +:+ exec_name);;
      mret "".

Definition ffmsindex_cmd (p : prep) (source : string) : string :=
  "title ffmsindex creating:  " +:+ index_path p
  +:+ " | mode con: cols=80 lines=6 | " +:+ quoted (exec_path p) +:+ " -f "
  +:+ quoted source +:+ " " +:+ quoted (index_path p).

(**
<<
def ffmsindex(source='', indexing_dir = '', ffmsindex_dir = '', re_use_indexing = True, fallback_tool_dir=''):
    index_ext = 'ffindex'
    exec_name = 'ffmsindex'
    logger.info(f'indexing, using {exec_name} for: {source}')
    prep = Index_managment_prep(index_ext, exec_name, source, re_use_indexing, ffmsindex_dir, indexing_dir, fallback_tool_dir)
    if not prep.isIndexing:
        return prep.index_path
    cmd = f'title ffmsindex creating:  {prep.index_path} | mode con: cols=80 lines=6 | "{prep.exec_path}" -f "{source}" "{prep.index_path}"'
    logger.info(f'ffmsindex command line:\n{cmd}')
    isSuccess = run_process(cmd)
    if isSuccess and Path(prep.index_path).is_file():
        if prep.using_reflist:
            update_index_path_reference(source, prep.index_path, prep.file_index_ref, prep.indexing_dir, prep.reflist_name, index_ext)
        logger.info(f'created {index_ext} file:\n{index_ext}_file={prep.index_path}')
        return prep.index_path
    else:
        logger_error.error(f'ERROR while indexing with {exec_name}')
        return ''
>> *)
Definition ffmsindex (source indexing_dir ffmsindex_dir : string)
    (re_use_indexing : pyval) (fallback_tool_dir : string) : M string :=
  let index_ext := "ffindex" in
  let exec_name := "ffmsindex" in
  logger_info ("indexing, using " +:+ exec_name +:+ " for: " +:+ source);;
  prep ← Index_managment_prep index_ext exec_name source re_use_indexing
                              ffmsindex_dir indexing_dir fallback_tool_dir;
  if negb (isIndexing prep) then mret (index_path prep)
  else
    let cmd := ffmsindex_cmd prep source in
    logger_info ("ffmsindex command line:" +:+ String newline cmd);;
    isSuccess ← run_process cmd;
    fs ← get_fs;
    if isSuccess && isfile fs (index_path prep) then
      (if using_reflist prep then
         update_index_path_reference source (index_path prep)
           (file_index_ref prep) (prep_indexing_dir prep) (reflist_name prep)
           index_ext
       else mret tt);;
      logger_info (created_msg index_ext prep);;
      mret (index_path prep)
    else
      logger_error ("ERROR while indexing with " +:+ exec_name);;
      mret "".

End Program.

(** ** Numbered image files

    [imwri_Read] selects the files that are numbered like the chosen one
    with [only_same_pattern] and reads the number of a file with [get_num].
    Both work on the stem of a path.  A stem is a string of characters below
    256: there [ch.isdigit()] holds of the ten decimal digits and of the
    superscripts two, three and one (178, 179 and 185), while [int] accepts
    the decimal digits only.  Stems are file names, far shorter than the
    limit [int] puts on the length of a numeral. *)

Definition is_decimal (c : ascii) : bool :=
  let n := nat_of_ascii c in Nat.leb 48 n && Nat.leb n 57.

(** [ch.isdigit()] *)
Definition isdigit (c : ascii) : bool :=
  is_decimal c || bool_decide (nat_of_ascii c ∈ [178; 179; 185]%nat).

(** [s.isdigit()]: false on the empty string *)
Definition str_isdigit (s : string) : bool :=
  negb (bool_decide (s = "")) && forallb isdigit (list_ascii_of_string s).

(** The loop at the head of [get_num] and of [only_same_pattern]:
<<
    digits = ''
    for ch in reversed(stem):
        if ch.isdigit(): digits = f'{ch}{digits}'
        else:            break
>> *)
Fixpoint digits_loop (reversed : list ascii) (digits : string) : string :=
  match reversed with
  | [] => digits
  | ch :: rest =>
      if isdigit ch then digits_loop rest (String ch digits) else digits
  end.

Definition trailing_digits (stem : string) : string :=
  digits_loop (reverse (list_ascii_of_string stem)) "".




(** [s[:-k]] for [k > 0]: nothing is left when [s] has at most [k]
    characters. *)
Definition drop_last (k : nat) (s : string) : string :=
  String.substring 0 (String.length s - k) s.

Section Paths.
(** The paths of [pathlib]: the function asks them for their stem only. *)
Context {P : Type} (stem : P → string).

(**
<<
def only_same_pattern(path, paths):
    digits = ''
    path_stem = path.stem
    for ch in reversed(path_stem):
        if ch.isdigit(): digits = f'{ch}{digits}'
        else:            break
    if digits == '': return [path]
    same_non_digit_part = path_stem[:-len(digits)]
    if same_non_digit_part:
        return [p for p in paths if str(p.stem)[:-len(digits)] == same_non_digit_part]
    else:
        stem_length =len(path_stem)
        return [p for p in paths if str(p.stem).isdigit() and len(str(p.stem))==stem_length]
>> *)
Definition only_same_pattern (path : P) (paths : list P) : list P :=
  let path_stem := stem path in
  let digits := trailing_digits path_stem in
  if bool_decide (digits = "") then [path]
  else
    let same_non_digit_part := drop_last (String.length digits) path_stem in
    if negb (bool_decide (same_non_digit_part = "")) then
      filter (λ p, drop_last (String.length digits) (stem p)
                   = same_non_digit_part) paths
    else
      let stem_length := String.length path_stem in
      filter (λ p, str_isdigit (stem p) = true
                   ∧ String.length (stem p) = stem_length) paths.

End Paths.

(** ** Stored settings *)

Section Settings.
(** The values of a settings dictionary, of which [eval_settings] asks the
    type only, and the dictionary [DEFAULT_SETTINGS] of the module. *)
Context {V T : Type} `{EqDecision T} (type_of : V → T).
Context (DEFAULT_SETTINGS : gmap string V).

(**
<<
def eval_settings(settings):
    settings_eval = {}
    for k, default_value in DEFAULT_SETTINGS.items():
        settings_eval[k] = settings.get(k, default_value)
        if type(settings_eval[k]) != type(default_value):
            settings_eval[k] = default_value
    return settings_eval
>>
    [settings] is a dictionary or, as [None], a value of another type, on
    which the first [settings.get] raises [AttributeError] ([None] as a
    result). *)
Definition eval_settings (settings : option (gmap string V))
  : option (gmap string V) :=
  match settings with
  | Some settings =>
      Some (map_fold
              (λ k default_value settings_eval,
                 let settings_eval :=
                   <[k := default default_value (settings !! k)]> settings_eval in
                 if decide (type_of (default default_value (settings !! k))
                            ≠ type_of default_value)
                 then <[k := default_value]> settings_eval
                 else settings_eval)
              ∅ DEFAULT_SETTINGS)
  | None => if decide (DEFAULT_SETTINGS = ∅) then Some ∅ else None
  end.

End Settings.

(** ** Source arguments *)

(** What a source argument is made of: a clip, a string, a dictionary (an
    object of the caller, named by its address), an instance of
    [Clip_data], a class, or anything else. *)
Inductive item (C : Type) :=
| IClip (c : C)
| IStr (s : string)
| IDict (r : nat)
| IDataclass
| IClass
| IOther.
Arguments IClip {C} c.
Arguments IStr {C} s.
Arguments IDict {C} r.
Arguments IDataclass {C}.
Arguments IClass {C}.
Arguments IOther {C}.

(** The argument itself: one such value, or a list or tuple of them. *)
Inductive source_arg (C : Type) :=
| ArgItem (i : item C)
| ArgList (items : list (item C)).
Arguments ArgItem {C} i.
Arguments ArgList {C} items.

(** An element of the list [dicts]: the empty dictionary made for a source,
    or the dictionary of the caller that replaced it. *)
Inductive dict_of_source :=
| DEmpty
| DGiven (r : nat).

#[global] Instance dict_of_source_eq_dec : EqDecision dict_of_source.
Proof. solve_decision. Defined.

(** The [SourceError]s of [validate_sources], by their cause. *)
Inductive source_error :=
| NotAList
| NotAFilepath (item : string)
| DictionaryMisplaced
| DataclassGiven
| WrongItem.

Section Validate.
Context {C V : Type}.
(** [Path(item).is_file()] *)
Context (is_file : string → bool).

(** The first loop of [validate_sources]:
<<
        for item in items:
            if isinstance(item, (vs.VideoNode, str)):
                if isinstance(item, str) and not Path(item).is_file():
                    raise SourceError(f'[load] Not a valid filepath: {item}')
                sources.append(item)
                dicts.append({})
            elif isinstance(item, dict):
                try:
                    dicts[-1] = item
                except IndexError:
                    raise SourceError(...)
            elif isinstance(item, type(Clip_data())):
                raise SourceError(SOURCE_DATACLASS_ERROR)
            else:
                raise SourceError(...)
>> *)
Fixpoint collect_sources (items : list (item C))
    (sources : list (item C)) (dicts : list dict_of_source)
  : source_error + (list (item C) * list dict_of_source) :=
  match items with
  | [] => inr (sources, dicts)
  | item :: items' =>
      match item with
      | IClip _ => collect_sources items' (sources ++ [item]) (dicts ++ [DEmpty])
      | IStr s =>
          if negb (is_file s) then inl (NotAFilepath s)
          else collect_sources items' (sources ++ [item]) (dicts ++ [DEmpty])
      | IDict r =>
          match dicts with
          | [] => inl DictionaryMisplaced
          | _ => collect_sources items' sources
                   (<[pred (length dicts) := DGiven r]> dicts)
          end
      | IDataclass => inl DataclassGiven
      | IClass | IOther => inl WrongItem
      end
  end.

(** The second loop, which works on the dictionaries of the caller:
<<
        for d in dicts:
            if 'vs_output_index' in d:
                vs_wanted_outputs.append(d['vs_output_index'])
                del d['vs_output_index']
            else:
                vs_wanted_outputs.append(None)
>>
    [heap] holds the dictionaries by address. *)
Fixpoint wanted_outputs (dicts : list dict_of_source)
    (heap : gmap nat (gmap string V)) (vs_wanted_outputs : list (option V))
  : list (option V) * gmap nat (gmap string V) :=
  match dicts with
  | [] => (vs_wanted_outputs, heap)
  | d :: dicts' =>
      match d with
      | DGiven r =>
          match heap !! r ≫= (.!! "vs_output_index") with
          | Some v =>
              wanted_outputs dicts'
                (alter (delete "vs_output_index") r heap)
                (vs_wanted_outputs ++ [Some v])
          | None => wanted_outputs dicts' heap (vs_wanted_outputs ++ [None])
          end
      | DEmpty => wanted_outputs dicts' heap (vs_wanted_outputs ++ [None])
      end
  end.

(**
<<
    def validate_sources(self, sources):
        items = sources
        if isinstance(items, (vs.VideoNode, str, type(Clip_data))):
            return [items], [{}], [None]
        else:
            if not isinstance(items, (tuple,list)):
                raise SourceError(f'[load] source items must be in a list')
        sources = []
        dicts = []
        for item in items: ...
        vs_wanted_outputs = []
        for d in dicts: ...
        return sources, dicts, vs_wanted_outputs
>> *)
Definition validate_sources (sources : source_arg C)
    (heap : gmap nat (gmap string V))
  : source_error
    + (list (item C) * list dict_of_source * list (option V)
       * gmap nat (gmap string V)) :=
  match sources with
  | ArgItem (IClip _ as items) | ArgItem (IStr _ as items)
  | ArgItem (IClass as items) =>
      inr ([items], [DEmpty], [None], heap)
  | ArgItem _ => inl NotAList
  | ArgList items =>
      match collect_sources items [] [] with
      | inl e => inl e
      | inr (sources, dicts) =>
          let '(vs_wanted_outputs, heap) := wanted_outputs dicts heap [] in
          inr (sources, dicts, vs_wanted_outputs, heap)
      end
  end.

End Validate.

(** ** An example environment

    A small JSON codec for dictionaries of plain strings, a search path with
    one tool on it, and a supply of temporary names.  The examples below run
    the program in it. *)

Definition dumps_entry (kv : string * string) : string :=
  quoted kv.1 +:+ ": " +:+ quoted kv.2.

Definition example_dumps (v : jval) : string :=
  match v with
  | JDict d => "{" +:+ String.concat ", " (dumps_entry <$> map_to_list d) +:+ "}"
  | JOther true => "true"
  | JOther false => "null"
  end.

(** The text up to the next double quote, and what follows it. *)
Fixpoint until_quote (s : string) : option (string * string) :=
  match s with
  | EmptyString => None
  | String c s' =>
      if bool_decide (c = dquote) then Some (EmptyString, s')
      else match until_quote s' with
           | Some (a, r) => Some (String c a, r)
           | None => None
           end
  end.

Fixpoint loads_entries (fuel : nat) (s : string) (acc : gmap string string)
  : option jval :=
  match fuel with
  | O => None
  | S fuel' =>
      match strip_prefix (String dquote EmptyString) s with
      | None => None
      | Some s1 =>
          match until_quote s1 with
          | None => None
          | Some (k, s2) =>
              match strip_prefix (": " +:+ String dquote EmptyString) s2 with
              | None => None
              | Some s3 =>
                  match until_quote s3 with
                  | None => None
                  | Some (v, s4) =>
                      let acc := <[k := v]> acc in
                      if bool_decide (s4 = "}") then Some (JDict acc)
                      else match strip_prefix ", " s4 with
                           | Some s5 => loads_entries fuel' s5 acc
                           | None => None
                           end
                  end
              end
          end
      end
  end.

Definition example_loads (s : string) : option jval :=
  if bool_decide (s = "true") then Some (JOther true)
  else if bool_decide (s = "null") then Some (JOther false)
  else if bool_decide (s = "{}") then Some (JDict ∅)
  else match strip_prefix "{" s with
       | Some s' => loads_entries (String.length s) s' ∅
       | None => None
       end.

Definition example_names : list string :=
  ["tmpk3v9x_2a"; "tmp0hq7wz5m"; "tmpy81n_c4d"; "tmpb6r2e0tj"; "tmpu5s3f9gp"].

Definition example_rand (k : nat) : string :=
  default "tmpzzzzzzzz" (example_names !! k).

Definition example_which (fs : gmap string node) (name : string)
  : option string :=
  if isfile fs ("/usr/bin/" +:+ name) then Some ("/usr/bin/" +:+ name) else None.

(** Universal newlines: a carriage return, alone or before a line feed,
    is read as one newline. *)
Fixpoint translate_newlines (s : text) : text :=
  match s with
  | [] => []
  | c :: s' =>
      if bool_decide (c = 13%N) then
        match s' with
        | c' :: s'' =>
            if bool_decide (c' = 10%N) then 10%N :: translate_newlines s''
            else 10%N :: translate_newlines s'
        | [] => [10%N]
        end
      else c :: translate_newlines s'
  end.

(** A text layer for the encoding ISO 8859-1: every byte is a character, so
    it never fails. *)
Definition example_read_text (data : string) (pos : nat) : text * bool :=
  (translate_newlines (drop pos (codes data)), false).

(** The environment in which the external tool behaves as [tool]. *)
Definition example_env (tool : string → gmap string node → Z * gmap string node)
  : env :=
  Env example_which (λ _, true) tool (λ _, true)
      example_dumps example_loads example_rand (λ _ _, None)
      example_read_text.

(** A tool that fails and writes nothing. *)
Definition failing_tool (cmd : string) (fs : gmap string node)
  : Z * gmap string node := (1, fs).

(** A tool that writes [data] to [path] and exits with status 0. *)
Definition writing_tool (path data : string) (cmd : string)
    (fs : gmap string node) : Z * gmap string node :=
  (0, <[path := File data]> fs).

(** A machine with a source file, a tool directory and a cache directory. *)
Definition example_fs : gmap string node :=
  list_to_map
    [("/media", Dir); ("/media/clip.mpg", File "mpeg2 data");
     ("/tools", Dir); ("/tools/d2vwitch", File "binary");
     ("/tools/ffmsindex", File "binary");
     ("/tmp", Dir)].

Definition example_world : world := World example_fs [] 0 [].

(** The same machine with the tool on the search path as well. *)
Definition path_fs : gmap string node :=
  <["/usr/bin" := Dir]> (<["/usr/bin/d2vwitch" := File "binary"]> example_fs).

Definition path_world : world := World path_fs [] 0 [].

(** Text files of the indexer: the range flag follows the marker. *)
Definition unlines (ls : list string) : string :=
  String.concat (String newline EmptyString) ls.

Definition d2v_full : string :=
  unlines ["DGIndexProjectFile16"; "1"; "/media/clip.mpg"; "";
           "Stream_Type=0"; "YUVRGB_Scale=0"; "Frame_Rate=25000 (25/1)"; ""].

Definition d2v_limited : string :=
  unlines ["DGIndexProjectFile16"; "1"; "/media/clip.mpg"; "";
           "Stream_Type=0"; "YUVRGB_Scale=1"; "Frame_Rate=25000 (25/1)"; ""].

Definition new_d2v : string := "/tmp/indexing/media/tmp0hq7wz5m.d2v".

(** A cache that already holds an artifact of the source, written for the
    full range. *)
Definition indexed_fs : gmap string node :=
  <["/tmp/indexing" := Dir]>
  (<["/tmp/indexing/media" := Dir]>
  (<["/tmp/indexing/media/d2vlisttmpq0q0q0q0" :=
       File (example_dumps (JDict {[ "clip.mpg" := "/tmp/indexing/media/old.d2v" ]}))]>
  (<["/tmp/indexing/media/old.d2v" := File d2v_full]> example_fs))).

Definition indexed_world : world := World indexed_fs [] 0 [].

(** A cache whose manifest points at an artifact that is gone. *)
Definition stale_fs : gmap string node :=
  <["/tmp/indexing" := Dir]>
  (<["/tmp/indexing/media" := Dir]>
  (<["/tmp/indexing/media/d2vlisttmpq0q0q0q0" :=
       File (example_dumps (JDict {[ "clip.mpg" := "/tmp/indexing/media/old.d2v" ]}))]>
  example_fs)).

Definition stale_world : world := World stale_fs [] 0 [].

(** The tool writes the artifact the resolver allocates in [stale_world]. *)
Definition stale_tool_env : env := example_env (writing_tool
  "/tmp/indexing/media/tmpk3v9x_2a.d2v" d2v_limited).

(** A directory with one manifest, and two replacements in a row. *)
Definition one_manifest_fs : gmap string node :=
  <["/tmp/d2vlisttmpq0q0q0q0" := File "{}"]> example_fs.

Definition one_manifest_world : world := World one_manifest_fs [] 0 [].

Definition after_first_update : world :=
  (update_index_path_reference (example_env failing_tool) "/media/clip.mpg"
     "/tmp/a.d2v" (JDict ∅) "/tmp" "d2vlisttmpq0q0q0q0" "d2v"
     one_manifest_world).2.

Definition after_second_update : world :=
  (update_index_path_reference (example_env failing_tool) "/media/clip2.mpg"
     "/tmp/b.d2v" (JDict ∅) "/tmp" "d2vlisttmpk3v9x_2a" "d2v"
     after_first_update).2.

(** An artifact whose first line is the marker line. *)
Definition marker_first : string :=
  unlines ["YUVRGB_Scale=1"; "Frame_Rate=25000 (25/1)"; ""].

Definition marker_first_world : world :=
  World (<["/tmp/a.d2v" := File marker_first]> example_fs) [] 0 [].

(** A text layer for ASCII: a byte above 127 in what it reads makes it fail
    with nothing delivered (the files of the examples fit in one chunk). *)
Definition ascii_read_text (data : string) (pos : nat) : text * bool :=
  let chars := drop pos (codes data) in
  if forallb (λ c, c <? 128)%N chars then (translate_newlines chars, false)
  else ([], true).

Definition ascii_env : env :=
  Env example_which (λ _, true) failing_tool (λ _, true)
      example_dumps example_loads example_rand (λ _ _, None)
      ascii_read_text.

(** A machine whose source file is not text. *)
Definition binary_world : world :=
  World (<["/media/clip.mpg" := File (String "255"%char "mpeg2 data")]>
           example_fs) [] 0 [].

(** A cache for [ffmsindex] that knows one source, [other.mkv], and a tool
    that writes the artifact the resolver allocates first. *)
Definition ffindex_fs : gmap string node :=
  <["/media/other.mkv" := File "matroska data"]>
  (<["/tmp/indexing" := Dir]>
  (<["/tmp/indexing/media" := Dir]>
  (<["/tmp/indexing/media/ffindexlisttmpq0q0q0q0" :=
       File (example_dumps
               (JDict {[ "other.mkv" := "/tmp/indexing/media/old.ffindex" ]}))]>
  (<["/tmp/indexing/media/old.ffindex" := File "ffms2 index"]> example_fs)))).

Definition ffindex_world : world := World ffindex_fs [] 0 [].

Definition ffindex_tool_env : env := example_env (writing_tool
  "/tmp/indexing/media/tmpk3v9x_2a.ffindex" "ffms2 index").

(** Settings whose values are truth values or strings. *)
Definition example_type_of (v : bool + string) : bool :=
  match v with inl _ => true | inr _ => false end.

Definition example_defaults : gmap string (bool + string) :=
  {[ "re_use_indexing" := inl true; "indexing_dir" := inr "/tmp" ]}.

Definition example_settings : gmap string (bool + string) :=
  {[ "re_use_indexing" := inr "yes"; "indexing_dir" := inr "/cache";
     "unknown" := inl false ]}.

(** A source argument in which one dictionary of the caller follows two
    sources. *)
Definition example_items : list (item unit) :=
  [IStr "/media/clip.mpg"; IDict 0; IClip (); IStr "/tools/ffmsindex";
   IDict 0].

Definition example_heap : gmap nat (gmap string Z) :=
  {[ 0%nat := {[ "vs_output_index" := 4; "matrix_in" := 1 ]} ]}.

(** ** Notions used by the statements *)

(** The manifest files of a directory: the entries [get_reflist_name]
    accepts, in listing order. *)
Definition manifests (fs : gmap string node) (indexing_dir index_ext : string)
  : list string :=
  match listdir fs indexing_dir with
  | inr names => filter (λ f, is_reflist fs indexing_dir index_ext f = true) names
  | inl _ => []
  end.

(** The first two statements of [d2vwitch] and of [ffmsindex]: the call is
    announced and the resolver is built. *)
Definition d2vwitch_prep (E : env) (source indexing_dir d2vwitch_dir : string)
    (re_use_indexing : pyval) (fallback_tool_dir : string) : M prep :=
  logger_info ("indexing, using " +:+ "d2vwitch" +:+ " for: " +:+ source);;
  Index_managment_prep E "d2v" "d2vwitch" source re_use_indexing
                       d2vwitch_dir indexing_dir fallback_tool_dir.

Definition ffmsindex_prep (E : env) (source indexing_dir ffmsindex_dir : string)
    (re_use_indexing : pyval) (fallback_tool_dir : string) : M prep :=
  logger_info ("indexing, using " +:+ "ffmsindex" +:+ " for: " +:+ source);;
  Index_managment_prep E "ffindex" "ffmsindex" source re_use_indexing
                       ffmsindex_dir indexing_dir fallback_tool_dir.

(** One successful manifest replacement in [indexing_dir]: the caller hands
    over the manifest its scan found (as the orchestrators do through
    [prep.reflist_name]), the new manifest can be written, and the call
    returns. *)
Inductive update_step (E : env) (indexing_dir index_ext : string)
  : world → world → Prop :=
| Update_step w w' file index_path file_index_ref old_name :
    head (manifests (fs w) indexing_dir index_ext) = Some old_name →
    open_w_error E (fs w)
      (join indexing_dir (list_name index_ext (rand E (ticks w)))) = None →
    update_index_path_reference E file index_path file_index_ref
      indexing_dir old_name index_ext w = (Ok tt, w') →
    update_step E indexing_dir index_ext w w'.

(** The mapping [update_index_path_reference] works on: the one it is
    handed, or the one of the manifest on disk when that is empty or false
    ([if not file_index_ref: file_index_ref = json_load(...)]). *)
Definition mapping_for_update (E : env) (file_index_ref : jval)
    (indexing_dir reflist_name : string) : M jval :=
  if negb (jtruthy file_index_ref) then json_load E indexing_dir reflist_name
  else mret file_index_ref.

(** [keeps_files m]: running [m] changes neither the files nor the list of
    spawned commands, whatever it returns. *)
Definition keeps_files {A} (m : M A) : Prop :=
  ∀ w r w', m w = (r, w') →
    fs w' = fs w ∧ spawned w' = spawned w ∧ (ticks w ≤ ticks w')%nat.

(** The digit [correct_byte_for_range] wants after the marker:
    [input_range_number]. *)
Definition range_number (input_range : string) : string :=
  if bool_decide (input_range = "full") then "0" else "1".

(** [plain_read E data]: from every position the text layer gives the bytes
    of [data] as they are, one character for each byte: the encoding decodes
    each byte of [data] to the character of its value, and [data] has no
    carriage return for the translation of newlines to change. *)
Definition plain_read (E : env) (data : string) : Prop :=
  ∀ pos, read_text E data pos = (drop pos (codes data), false).

(** The items [validate_sources] takes for sources. *)
Definition is_source {C} (i : item C) : bool :=
  match i with IClip _ | IStr _ => true | _ => false end.

(** ** Strings and paths: basic facts *)

Ltac munfold :=
  unfold mbind, M_bind, mret, M_ret, raise, get_fs, put_fs, logger_info,
    logger_error, say, try_except, lift_os in *.

Lemma strip_prefix_app pre f : strip_prefix pre (pre +:+ f) = Some f.
Proof.
  induction pre as [|a pre IH]; simpl; [done|].
  by rewrite bool_decide_eq_true_2.
Qed.

Lemma strip_prefix_Some pre s f : strip_prefix pre s = Some f → s = pre +:+ f.
Proof.
  revert s. induction pre as [|a pre IH]; intros s; simpl.
  - by intros [= ->].
  - destruct s as [|b s]; [done|]. case_bool_decide as Hab; [|done].
    intros Hs. subst b. by rewrite (IH _ Hs).
Qed.

Lemma app_inv_head_str pre f g : pre +:+ f = pre +:+ g → f = g.
Proof. induction pre as [|a pre IH]; simpl; [done|]. intros [= H]. auto. Qed.

Lemma app_empty_inv a b : a +:+ b = "" → a = "" ∧ b = "".
Proof. destruct a; simpl; [done|discriminate]. Qed.

Lemma valid_name_nonempty f : valid_name f = true → f ≠ "".
Proof.
  unfold valid_name. intros [H _]%andb_true_iff.
  apply negb_true_iff, bool_decide_eq_false in H. done.
Qed.

Lemma valid_name_no_slash f : valid_name f = true → contains f slash = false.
Proof. unfold valid_name. intros [_ H]%andb_true_iff. by apply negb_true_iff. Qed.

Lemma endswith_contains s c : endswith_char s c = true → contains s c = true.
Proof.
  induction s as [|a s IH]; simpl; [done|].
  destruct s as [|b s].
  - intros ->. done.
  - intros H. rewrite (IH H). by rewrite orb_true_r.
Qed.

Lemma endswith_app x f c :
  f ≠ "" → endswith_char (x +:+ f) c = endswith_char f c.
Proof.
  intros Hf. induction x as [|a x IH]; simpl; [done|].
  destruct (x +:+ f) as [|b y] eqn:Hxy; [|done].
  apply app_empty_inv in Hxy as [_ ?]. done.
Qed.

Lemma join_valid d f : valid_name f = true → join d f = dir_prefix d +:+ f.
Proof.
  intros Hf. unfold join.
  destruct f as [|a f]; [done|]. simpl.
  apply valid_name_no_slash in Hf. simpl in Hf.
  apply orb_false_iff in Hf as [Ha _].
  apply bool_decide_eq_false in Ha.
  rewrite bool_decide_eq_false_2; [done|]. intros H. apply Ha. done.
Qed.

Lemma join_valid_nonempty d f : valid_name f = true → join d f ≠ "".
Proof.
  intros Hf. rewrite join_valid by done.
  intros [_ ?]%app_empty_inv. by apply (valid_name_nonempty f).
Qed.

Lemma join_valid_no_trailing_slash d f :
  valid_name f = true → endswith_char (join d f) slash = false.
Proof.
  intros Hf. rewrite join_valid by done.
  rewrite endswith_app by by apply valid_name_nonempty.
  destruct (endswith_char f slash) eqn:H; [|done].
  apply endswith_contains in H. by rewrite valid_name_no_slash in H.
Qed.

Lemma join_valid_inj d f g :
  valid_name f = true → valid_name g = true → join d f = join d g → f = g.
Proof.
  intros Hf Hg. rewrite !join_valid by done. apply app_inv_head_str.
Qed.

Lemma stat_join_valid fs d f :
  valid_name f = true → stat fs (join d f) = fs !! join d f.
Proof.
  intros Hf. unfold stat.
  rewrite bool_decide_eq_false_2 by by apply join_valid_nonempty.
  rewrite join_valid_no_trailing_slash by done.
  by destruct (fs !! join d f) as [[]|].
Qed.

Lemma stat_empty fs : stat fs "" = None.
Proof. done. Qed.

Lemma isdir_empty fs : isdir fs "" = false.
Proof. done. Qed.

Lemma isfile_no_trailing_slash fs p :
  isfile fs p = true → endswith_char p slash = false.
Proof.
  unfold isfile, stat. case_bool_decide; [done|].
  destruct (fs !! p) as [[|data]|]; try done.
  by destruct (endswith_char p slash).
Qed.

Lemma isfile_lookup fs p :
  isfile fs p = true → ∃ data, fs !! p = Some (File data).
Proof.
  unfold isfile, stat. case_bool_decide; [done|].
  destruct (fs !! p) as [[|data]|]; try done. eauto.
Qed.

Lemma rstrip_slash_cons c s :
  rstrip_slash (String c s) =
  match rstrip_slash s with
  | EmptyString => if bool_decide (c = slash) then EmptyString
                   else String c EmptyString
  | r => String c r
  end.
Proof. done. Qed.

Lemma rstrip_slash_id s : endswith_char s slash = false → rstrip_slash s = s.
Proof.
  induction s as [|a s IH]; [done|].
  rewrite rstrip_slash_cons. destruct s as [|b s].
  - simpl. by intros ->.
  - intros H. by rewrite (IH H).
Qed.

Lemma path_name_file fs source :
  isfile fs source = true → path_name source = basename source.
Proof.
  intros H%isfile_no_trailing_slash. unfold path_name.
  by rewrite rstrip_slash_id.
Qed.

(** ** Directory listings and manifests *)

Lemma entry_of_Some d k f :
  entry_of d k = Some f ↔ valid_name f = true ∧ k = join d f.
Proof.
  unfold entry_of. split.
  - destruct (strip_prefix (dir_prefix d) k) as [g|] eqn:Hs; [|done].
    destruct (valid_name g) eqn:Hv; [|done]. intros [= ->].
    split; [done|]. rewrite join_valid by done. by apply strip_prefix_Some.
  - intros [Hv ->]. rewrite join_valid by done.
    by rewrite strip_prefix_app, Hv.
Qed.

Lemma NoDup_entries d (l : list (string * node)) :
  NoDup l.*1 → NoDup (omap (λ kv, entry_of d kv.1) l).
Proof.
  induction l as [|[k v] l IH]; simpl; [constructor|].
  intros [Hk Hl]%NoDup_cons. specialize (IH Hl).
  destruct (entry_of d k) as [f|] eqn:Hf; [|done].
  apply NoDup_cons. split; [|done].
  intros ([k' v'] & Hin & Hf')%list_elem_of_omap. simpl in Hf'.
  apply entry_of_Some in Hf as [_ ->]. apply entry_of_Some in Hf' as [_ ->].
  apply Hk. apply list_elem_of_fmap. by exists (join d f, v').
Qed.

Lemma listdir_inr fs d names :
  listdir fs d = inr names →
  isdir fs d = true ∧ NoDup names ∧
  ∀ f, f ∈ names ↔ valid_name f = true ∧ is_Some (fs !! join d f).
Proof.
  unfold listdir, isdir. destruct (stat fs d) as [[|data]|]; try done.
  intros [= <-]. split; [done|]. split.
  - apply NoDup_entries, NoDup_fst_map_to_list.
  - intros f. rewrite list_elem_of_omap. split.
    + intros ([k v] & Hin & Hf). simpl in Hf.
      apply entry_of_Some in Hf as [Hv ->]. split; [done|].
      apply elem_of_map_to_list in Hin. eauto.
    + intros [Hv [v Hlook]]. exists (join d f, v). split.
      * by apply elem_of_map_to_list.
      * simpl. by apply entry_of_Some.
Qed.

Lemma isdir_listdir fs d : isdir fs d = true → ∃ names, listdir fs d = inr names.
Proof.
  unfold listdir, isdir. destruct (stat fs d) as [[|data]|]; try done. eauto.
Qed.

Lemma find_head_filter {A} (p : A → bool) (l : list A) :
  List.find p l = head (filter (λ x, p x = true) l).
Proof.
  induction l as [|x l IH]; simpl; [done|].
  rewrite filter_cons. destruct (p x) eqn:Hp.
  - rewrite decide_True by done. done.
  - rewrite decide_False by done. done.
Qed.

Lemma manifests_elem fs d ext f :
  f ∈ manifests fs d ext ↔
  isdir fs d = true ∧ valid_name f = true ∧ isfile fs (join d f) = true
  ∧ startswith f (ext +:+ "list") = true.
Proof.
  unfold manifests. destruct (listdir fs d) as [e|names] eqn:Hl.
  - split; [by intros ?%elem_of_nil|]. intros [Hd _].
    apply isdir_listdir in Hd as [? ?]. congruence.
  - apply listdir_inr in Hl as (Hd & _ & Hin).
    rewrite list_elem_of_filter, Hin. unfold is_reflist.
    rewrite andb_true_iff. split.
    + intros [[? ?] [? ?]]. done.
    + intros (_ & ? & Hf & ?). split; [done|]. split; [done|].
      apply isfile_lookup in Hf as [? ->]. eauto.
Qed.

Lemma manifests_NoDup fs d ext : NoDup (manifests fs d ext).
Proof.
  unfold manifests. destruct (listdir fs d) as [e|names] eqn:Hl.
  - constructor.
  - apply listdir_inr in Hl as (_ & Hnd & _). by apply NoDup_filter.
Qed.

(** ** Running the manifest store *)

Lemma json_load_file E storage filename f l t s data v :
  stat f (join storage filename) = Some (File data) →
  json_loads E data = Some v →
  json_load E storage filename (World f l t s) = (Ok v, World f l t s).
Proof.
  intros Hstat Hloads. unfold json_load, open_read. munfold. simpl.
  by rewrite Hstat, Hloads.
Qed.

Lemma open_w_error_None E f path :
  open_w_error E f path = None →
  open_error E f path = None ∧ write_fault E f path = None.
Proof.
  unfold open_w_error. destruct (open_error E f path); [done|].
  by destruct (write_fault E f path).
Qed.

Lemma after_failed_write_None E f path :
  open_w_error E f path = None → after_failed_write E f path = f.
Proof.
  intros [Ho Hw]%open_w_error_None. unfold after_failed_write.
  by rewrite Ho, Hw.
Qed.

Lemma after_failed_write_open E f path e :
  open_error E f path = Some e → after_failed_write E f path = f.
Proof. intros Ho. unfold after_failed_write. by rewrite Ho. Qed.

Lemma after_failed_write_lookup_ne E f path q :
  q ≠ path → after_failed_write E f path !! q = f !! q.
Proof.
  intros Hq. unfold after_failed_write.
  destruct (open_error E f path); [done|].
  destruct (write_fault E f path); [|done]. by rewrite lookup_insert_ne.
Qed.

Lemma json_dump_ok E storage filename template f l t s :
  open_w_error E f (join storage filename) = None →
  json_dump E storage filename template (World f l t s)
  = (Ok true, World (<[join storage filename := File (json_dumps E template)]> f)
                    l t s).
Proof.
  intros [Ho Hw]%open_w_error_None. unfold json_dump, write_file. munfold.
  simpl. by rewrite Ho, Hw.
Qed.

Lemma json_dump_fail E storage filename template f l t s e :
  open_w_error E f (join storage filename) = Some e →
  json_dump E storage filename template (World f l t s)
  = (Ok false,
     World (after_failed_write E f (join storage filename))
           (l ++ [(ERROR, str_exn (OSError e (join storage filename)))]) t s).
Proof.
  unfold open_w_error, after_failed_write, json_dump, write_file. munfold.
  simpl. destruct (open_error E f (join storage filename)) as [e'|].
  - by intros [= ->].
  - destruct (write_fault E f (join storage filename)); [|done].
    by intros [= <-].
Qed.

Lemma head_manifests_valid fs d ext m :
  head (manifests fs d ext) = Some m →
  isdir fs d = true ∧ valid_name m = true ∧ isfile fs (join d m) = true
  ∧ startswith m (ext +:+ "list") = true.
Proof.
  intros H. apply manifests_elem.
  destruct (manifests fs d ext) as [|x xs]; simplify_eq/=. apply list_elem_of_here.
Qed.

Lemma get_reflist_name_found E d ext f l t s m :
  head (manifests f d ext) = Some m →
  get_reflist_name E d ext (World f l t s) = (Ok m, World f l t s).
Proof.
  intros Hm. pose proof (head_manifests_valid _ _ _ _ Hm) as (Hd & Hv & _).
  apply isdir_listdir in Hd as [names Hnames].
  unfold get_reflist_name. munfold. simpl. rewrite Hnames. simpl.
  unfold manifests in Hm. rewrite Hnames in Hm.
  rewrite find_head_filter, Hm. simpl.
  rewrite bool_decide_eq_false_2 by by apply valid_name_nonempty. done.
Qed.

Lemma get_reflist_name_absent E d ext f l t s :
  isdir f d = true →
  manifests f d ext = [] →
  get_reflist_name E d ext (World f l t s) =
  let name := list_name ext (rand E t) in
  match open_w_error E f (join d name) with
  | None =>
      (Ok name, World (<[join d name := File (json_dumps E placeholder)]> f)
                      l (S t) s)
  | Some e =>
      (Ok "", World (after_failed_write E f (join d name))
        (l ++ [(ERROR, str_exn (OSError e (join d name)));
               (ERROR, "json failed to create empty dictionary to store "
                        +:+ ext +:+ " references")]) (S t) s)
  end.
Proof.
  intros Hd Hm. apply isdir_listdir in Hd as [names Hnames].
  unfold get_reflist_name. munfold. simpl. rewrite Hnames. simpl.
  unfold manifests in Hm. rewrite Hnames in Hm.
  rewrite find_head_filter, Hm. simpl.
  unfold random_name. simpl.
  destruct (open_w_error E f (join d (list_name ext (rand E t)))) as [e|] eqn:Ho.
  - rewrite (json_dump_fail _ _ _ _ _ _ _ _ _ Ho). simpl.
    by rewrite <- app_assoc.
  - rewrite (json_dump_ok _ _ _ _ _ _ _ _ Ho). done.
Qed.

(** ** Computations that leave the files alone *)


Lemma keeps_files_ret {A} (a : A) : keeps_files (mret a).
Proof. intros w r w' [= <- <-]. done. Qed.

Lemma keeps_files_raise {A} e : keeps_files (raise (A:=A) e).
Proof. intros w r w' [= <- <-]. done. Qed.

Lemma keeps_files_bind {A B} (m : M A) (k : A → M B) :
  keeps_files m → (∀ a, keeps_files (k a)) → keeps_files (m ≫= k).
Proof.
  intros Hm Hk w r w'. munfold.
  destruct (m w) as [[a|e] w1] eqn:Hmw.
  - intros Hkw. apply Hm in Hmw as (Hf1 & Hs1 & Ht1).
    apply Hk in Hkw as (Hf2 & Hs2 & Ht2).
    split; [congruence|]. split; [congruence|lia].
  - intros [= <- <-]. by apply Hm in Hmw.
Qed.

Lemma keeps_files_say lvl msg : keeps_files (say lvl msg).
Proof. intros w r w' [= <- <-]. done. Qed.

Lemma keeps_files_get_fs : keeps_files get_fs.
Proof. intros w r w' [= <- <-]. done. Qed.

Lemma keeps_files_random_name E : keeps_files (random_name E).
Proof. intros w r w' [= <- <-]. simpl. split; [done|]. split; [done|lia]. Qed.

Lemma keeps_files_json_load E storage filename :
  keeps_files (json_load E storage filename).
Proof.
  intros w r w'. unfold json_load, open_read. munfold.
  destruct (stat (fs w) (join storage filename)) as [[|data]|];
    [| destruct (json_loads E data) |]; intros [= <- <-]; done.
Qed.

Lemma json_load_returns E storage filename w :
  ∃ v, (json_load E storage filename w).1 = Ok v.
Proof.
  unfold json_load, open_read. munfold.
  destruct (stat (fs w) (join storage filename)) as [[|data]|];
    [| destruct (json_loads E data) |]; simpl; eauto.
Qed.

Ltac keeps_files_step :=
  first
    [ apply keeps_files_ret | apply keeps_files_raise
    | apply keeps_files_say | apply keeps_files_get_fs
    | apply keeps_files_random_name | apply keeps_files_json_load
    | apply keeps_files_bind; [|intros ?] ].

Lemma keeps_files_lookup_reference source ext ref :
  keeps_files (lookup_reference source ext ref).
Proof.
  unfold lookup_reference, logger_info.
  destruct ref as [d|t]; [|repeat keeps_files_step].
  destruct (jtruthy (JDict d)); [|repeat keeps_files_step].
  destruct (d !! basename source); [|repeat keeps_files_step].
  apply keeps_files_bind; [apply keeps_files_get_fs|]. intros fs0.
  destruct (path_exists fs0 s); repeat keeps_files_step.
Qed.

Lemma keeps_files_get_exec_path E exec_dir exec_name fallback_tool_dir :
  keeps_files (get_exec_path E exec_dir exec_name fallback_tool_dir).
Proof.
  unfold get_exec_path, logger_info.
  apply keeps_files_bind; [apply keeps_files_get_fs|]. intros fs0.
  apply keeps_files_bind.
  - repeat case_match; repeat keeps_files_step.
  - intros [d p]. repeat case_match; repeat keeps_files_step.
Qed.

Lemma keeps_files_get_index_path file ext dir v :
  keeps_files (get_index_path file ext dir v).
Proof.
  unfold get_index_path, logger_info.
  destruct (py_truthy v); [|repeat keeps_files_step].
  apply keeps_files_bind; [apply keeps_files_say|]. intros _.
  apply keeps_files_bind; [apply keeps_files_get_fs|]. intros fs0.
  case_match; repeat keeps_files_step.
Qed.

(** The log does not influence a computation of this kind: only its files
    and counters do. *)
Lemma get_exec_path_result E exec_dir exec_name fallback_tool_dir f l t s l' t' s' :
  (get_exec_path E exec_dir exec_name fallback_tool_dir (World f l t s)).1
  = (get_exec_path E exec_dir exec_name fallback_tool_dir (World f l' t' s')).1.
Proof.
  unfold get_exec_path. munfold. simpl.
  repeat (case_match; simplify_eq/=; try done).
Qed.

(** ** Running the manifest replacement *)

(** The mapping [update_index_path_reference] works on: the one it is
    given, or the one on disk when that is empty or false. *)
Lemma update_run E file ipath dir old ext d f l l1 t s ref :
  (if negb (jtruthy ref) then json_load E dir old else mret ref)
    (World f l t s) = (Ok (JDict d), World f l1 t s) →
  update_index_path_reference E file ipath ref dir old ext (World f l t s) =
  let new := list_name ext (rand E t) in
  let d' := <[path_name file := ipath]> d in
  match open_w_error E f (join dir new) with
  | None =>
      let f1 := <[join dir new := File (json_dumps E (JDict d'))]> f in
      let w1 := World f1 (l1 ++ [(INFO, "reference for new indexed file updated")])
                      (S t) s in
      if isfile f1 (join dir old) then os_remove E (join dir old) w1
      else (Ok tt, w1)
  | Some e =>
      (Ok tt, World (after_failed_write E f (join dir new))
         (l1 ++ [(ERROR, str_exn (OSError e (join dir new)));
                 (ERROR, "json failed to store updated reference")]) (S t) s)
  end.
Proof.
  intros Href. unfold update_index_path_reference.
  unfold mbind at 1. unfold M_bind at 1. rewrite Href.
  munfold. unfold random_name. simpl.
  destruct (open_w_error E f (join dir (list_name ext (rand E t)))) as [e|] eqn:Ho.
  - rewrite (json_dump_fail _ _ _ _ _ _ _ _ _ Ho). simpl.
    by rewrite <- app_assoc.
  - rewrite (json_dump_ok _ _ _ _ _ _ _ _ Ho). simpl.
    destruct (isfile _ (join dir old)); done.
Qed.

Lemma update_run_other E file ipath dir old ext b f l l1 t s ref :
  (if negb (jtruthy ref) then json_load E dir old else mret ref)
    (World f l t s) = (Ok (JOther b), World f l1 t s) →
  update_index_path_reference E file ipath ref dir old ext (World f l t s) =
  (Raise (TypeError "object does not support item assignment"), World f l1 t s).
Proof.
  intros Href. unfold update_index_path_reference.
  unfold mbind at 1. unfold M_bind at 1. by rewrite Href.
Qed.

Lemma mapping_for_update_run E ref dir old f l t s :
  ∃ v l1, mapping_for_update E ref dir old (World f l t s)
          = (Ok v, World f l1 t s).
Proof.
  unfold mapping_for_update.
  destruct (negb (jtruthy ref)); [|by eexists _, _].
  destruct (json_load E dir old (World f l t s)) as [r [f' l' t' s']] eqn:Hl.
  pose proof (json_load_returns E dir old (World f l t s)) as [v Hr].
  rewrite Hl in Hr. simpl in Hr. subst r.
  unfold json_load, open_read in Hl. munfold. simpl in Hl.
  exists v, l'.
  destruct (stat f (join dir old)) as [[|data]|];
    [| destruct (json_loads E data) |]; simplify_eq/=; done.
Qed.

(** Whatever it is given, [update_index_path_reference] changes the files
    only by writing the new manifest, and removes the old one only then. *)
Lemma update_effect E file ipath ref dir old ext w :
  let new := list_name ext (rand E (ticks w)) in
  let w' := (update_index_path_reference E file ipath ref dir old ext w).2 in
  spawned w' = spawned w ∧
  match open_w_error E (fs w) (join dir new) with
  | Some _ =>
      fs w' = fs w ∨ fs w' = after_failed_write E (fs w) (join dir new)
  | None =>
      fs w' = fs w ∨
      ∃ d, d !! path_name file = Some ipath ∧
        let f1 := <[join dir new := File (json_dumps E (JDict d))]> (fs w) in
        fs w' = f1 ∨ (isfile f1 (join dir old) = true ∧
                      fs w' = delete (join dir old) f1)
  end.
Proof.
  destruct w as [f l t s]. simpl.
  assert (∃ v l1, (if negb (jtruthy ref) then json_load E dir old else mret ref)
            (World f l t s) = (Ok v, World f l1 t s)) as (v & l1 & Hv).
  { destruct (negb (jtruthy ref)); [|by eexists _, _].
    destruct (json_load E dir old (World f l t s)) as [r [f' l' t' s']] eqn:Hl.
    pose proof (json_load_returns E dir old (World f l t s)) as [v Hr].
    rewrite Hl in Hr. simpl in Hr. subst r.
    unfold json_load, open_read in Hl. munfold. simpl in Hl.
    exists v, l'.
    destruct (stat f (join dir old)) as [[|data]|];
      [| destruct (json_loads E data) |]; simplify_eq/=; done. }
  destruct v as [d|b].
  - rewrite (update_run _ _ _ _ _ _ _ _ _ _ _ _ _ Hv). simpl.
    destruct (open_w_error E f (join dir (list_name ext (rand E t))));
      [by auto|].
    split.
    + destruct (isfile _ (join dir old)); [|done]. clear Hv.
      unfold os_remove. simpl. repeat case_match; done.
    + right. exists (<[path_name file:=ipath]> d).
      split; [by rewrite lookup_insert_eq|]. clear Hv.
      destruct (isfile _ (join dir old)) eqn:Hfile; [|by left].
      unfold os_remove. simpl.
      repeat case_match; simplify_eq/=; auto.
  - rewrite (update_run_other _ _ _ _ _ _ _ _ _ _ _ _ _ Hv). simpl.
    split; [done|]. clear Hv. case_match; auto.
Qed.

(** With a dictionary to work on and an old manifest that may be removed,
    the update returns. *)
Lemma update_returns E file ipath ref dir old ext w d :
  (mapping_for_update E ref dir old w).1 = Ok (JDict d) →
  may_write E (join dir old) = true →
  (update_index_path_reference E file ipath ref dir old ext w).1 = Ok tt.
Proof.
  destruct w as [f l t s]. intros Hd Hw.
  destruct (mapping_for_update_run E ref dir old f l t s) as (v0 & l1 & Hv).
  rewrite Hv in Hd. injection Hd as ->.
  rewrite (update_run _ _ _ _ _ _ _ _ _ _ _ _ _ Hv). cbv zeta.
  destruct (open_w_error E f _); [done|].
  set (f1 := <[_ := _]> f).
  destruct (isfile f1 (join dir old)) eqn:Hold; [|done].
  unfold os_remove. cbn [fs log ticks spawned].
  unfold isfile in Hold.
  destruct (stat f1 (join dir old)) as [[|?]|]; try done.
  by rewrite Hw.
Qed.

(** ** One manifest per directory *)

Lemma length_app_str a b :
  String.length (a +:+ b) = (String.length a + String.length b)%nat.
Proof. induction a as [|c a IH]; simpl; [done|]. by rewrite IH. Qed.

Lemma app_assoc_str a b c : (a +:+ b) +:+ c = a +:+ (b +:+ c).
Proof.
  induction a as [|x a IH]; [done|].
  change (String x ((a +:+ b) +:+ c) = String x (a +:+ b +:+ c)). by f_equal.
Qed.

Lemma startswith_app p x : startswith (p +:+ x) p = true.
Proof.
  induction p as [|c p IH]; simpl; [done|].
  by rewrite bool_decide_eq_true_2.
Qed.

Lemma list_name_prefix ext name :
  startswith (list_name ext name) (ext +:+ "list") = true.
Proof. unfold list_name. rewrite <- app_assoc_str. apply startswith_app. Qed.

Lemma join_valid_ne_dir d g : valid_name g = true → join d g ≠ d.
Proof.
  intros Hg Heq. apply (f_equal String.length) in Heq.
  rewrite join_valid, length_app_str in Heq by done.
  assert (String.length g ≠ 0%nat).
  { destruct g; [|done]. by apply valid_name_nonempty in Hg. }
  assert (String.length d ≤ String.length (dir_prefix d))%nat; [|lia].
  unfold dir_prefix. case_match; [done|]. rewrite length_app_str. lia.
Qed.

Lemma stat_insert_ne fs p q n : p ≠ q → stat (<[p := n]> fs) q = stat fs q.
Proof. intros Hne. unfold stat. by rewrite lookup_insert_ne. Qed.

Lemma stat_delete_ne fs p q : p ≠ q → stat (delete p fs) q = stat fs q.
Proof. intros Hne. unfold stat. by rewrite lookup_delete_ne. Qed.

Lemma isfile_insert_valid fs d g data :
  valid_name g = true → isfile (<[join d g := File data]> fs) (join d g) = true.
Proof.
  intros Hg. unfold isfile. by rewrite stat_join_valid, lookup_insert_eq.
Qed.

Lemma isfile_delete fs p : isfile (delete p fs) p = false.
Proof.
  unfold isfile, stat. rewrite lookup_delete_eq. by case_bool_decide.
Qed.

(** What a successful call leaves behind. *)
Lemma update_ok E file ipath ref dir old ext w w' :
  update_index_path_reference E file ipath ref dir old ext w = (Ok tt, w') →
  let new := list_name ext (rand E (ticks w)) in
  open_w_error E (fs w) (join dir new) = None →
  ticks w' = S (ticks w) ∧
  ∃ d, d !! path_name file = Some ipath ∧
    let f1 := <[join dir new := File (json_dumps E (JDict d))]> (fs w) in
    fs w' = if isfile f1 (join dir old) then delete (join dir old) f1 else f1.
Proof.
  destruct w as [f l t s]. simpl. intros Hrun Hopen.
  assert (∃ v l1, (if negb (jtruthy ref) then json_load E dir old else mret ref)
            (World f l t s) = (Ok v, World f l1 t s)) as (v & l1 & Hv).
  { destruct (negb (jtruthy ref)); [|by eexists _, _].
    destruct (json_load E dir old (World f l t s)) as [r [f' l' t' s']] eqn:Hl.
    pose proof (json_load_returns E dir old (World f l t s)) as [v Hr].
    rewrite Hl in Hr. simpl in Hr. subst r.
    unfold json_load, open_read in Hl. munfold. simpl in Hl.
    exists v, l'.
    destruct (stat f (join dir old)) as [[|data]|];
      [| destruct (json_loads E data) |]; simplify_eq/=; done. }
  destruct v as [d|b].
  - rewrite (update_run _ _ _ _ _ _ _ _ _ _ _ _ _ Hv) in Hrun. simpl in Hrun.
    rewrite Hopen in Hrun. clear Hv.
    destruct (isfile _ (join dir old)) eqn:Hfile.
    + unfold os_remove in Hrun. simpl in Hrun.
      repeat case_match; simplify_eq/=. split; [done|].
      exists (<[path_name file:=ipath]> d).
      split; [by rewrite lookup_insert_eq|]. by rewrite Hfile.
    + simplify_eq/=. split; [done|].
      exists (<[path_name file:=ipath]> d).
      split; [by rewrite lookup_insert_eq|]. by rewrite Hfile.
  - rewrite (update_run_other _ _ _ _ _ _ _ _ _ _ _ _ _ Hv) in Hrun. done.
Qed.

Lemma singleton_list {A} (l : list A) a :
  NoDup l → (∀ x, x ∈ l ↔ x = a) → l = [a].
Proof.
  intros Hnd Hin. destruct l as [|x l].
  - assert (a ∈ @nil A) as ?%elem_of_nil by by apply Hin. done.
  - assert (x = a) as -> by (apply Hin; left).
    destruct l as [|y l]; [done|].
    assert (y = a) as -> by (apply Hin; right; left).
    apply NoDup_cons in Hnd as [Hna _]. destruct Hna. left.
Qed.

Lemma update_step_manifests E dir ext w w' old :
  manifests (fs w) dir ext = [old] →
  let new := list_name ext (rand E (ticks w)) in
  valid_name new = true →
  new ≠ old →
  update_step E dir ext w w' →
  manifests (fs w') dir ext = [new] ∧ ticks w' = S (ticks w).
Proof.
  intros Hm new Hv Hne Hstep.
  destruct Hstep as [w w' file ipath ref old' Hhead Hopen Hrun].
  rewrite Hm in Hhead. injection Hhead as <-.
  apply update_ok in Hrun as (Ht & d & _ & Hfs); [|done].
  split; [|done]. simpl in Hfs. fold new in Hfs.
  assert (old ∈ manifests (fs w) dir ext) as Hold by (rewrite Hm; left).
  apply manifests_elem in Hold as (Hdir & Hvo & Hfo & Hso).
  assert (join dir new ≠ join dir old) as Hjne.
  { intros ?%join_valid_inj; done. }
  assert (isfile (<[join dir new:=File (json_dumps E (JDict d))]> (fs w))
                 (join dir old) = true) as Hfo'.
  { unfold isfile in *. by rewrite stat_insert_ne. }
  rewrite Hfo' in Hfs.
  apply singleton_list; [apply manifests_NoDup|]. intros g.
  rewrite manifests_elem, Hfs. split.
  - intros (_ & Hvg & Hfg & Hsg).
    destruct (decide (g = new)) as [|Hgn]; [done|]. exfalso.
    destruct (decide (g = old)) as [->|Hgo].
    { by rewrite isfile_delete in Hfg. }
    assert (g ∈ manifests (fs w) dir ext) as Hg.
    { apply manifests_elem. split; [done|]. split; [done|]. split; [|done].
      unfold isfile in *.
      rewrite stat_delete_ne, stat_insert_ne in Hfg; [done|..];
        intros ?%join_valid_inj; done. }
    rewrite Hm in Hg. apply list_elem_of_singleton in Hg. done.
  - intros ->. split; [|split; [done|split]].
    + unfold isdir in *.
      rewrite stat_delete_ne, stat_insert_ne; [done|..];
        by apply join_valid_ne_dir.
    + unfold isfile. rewrite stat_delete_ne by done.
      by apply isfile_insert_valid.
    + apply list_name_prefix.
Qed.

(** ** Running the resolver *)

Lemma path_exists_nonempty f p : path_exists f p = true → p ≠ "".
Proof. intros H ->. done. Qed.

Lemma jtruthy_lookup d k (v : string) : d !! k = Some v → jtruthy (JDict d) = true.
Proof.
  intros Hk. simpl. rewrite bool_decide_eq_false_2; [done|].
  intros ->. by rewrite lookup_empty in Hk.
Qed.

Lemma resolver_reuse E source ext sub v f l t s m data d p :
  py_truthy v = true →
  head (manifests f sub ext) = Some m →
  stat f (join sub m) = Some (File data) →
  json_loads E data = Some (JDict d) →
  d !! basename source = Some p →
  path_exists f p = true →
  ∃ l', get_index_path_using_reflist E source ext sub v (World f l t s)
        = (Ok (false, p, m, JDict d), World f l' t s).
Proof.
  intros Hv Hm Hstat Hloads Hd Hp.
  unfold get_index_path_using_reflist.
  unfold mbind at 1. unfold M_bind at 1.
  rewrite (get_reflist_name_found _ _ _ _ _ _ _ _ Hm). rewrite Hv.
  munfold. simpl.
  rewrite (json_load_file _ _ _ _ _ _ _ _ _ Hstat Hloads).
  unfold lookup_reference. rewrite (jtruthy_lookup _ _ _ Hd), Hd.
  munfold. simpl. rewrite Hp. simpl.
  rewrite bool_decide_eq_false_2 by by eapply path_exists_nonempty.
  eauto.
Qed.

Lemma resolver_stale E source ext sub v f l t s m data d p :
  py_truthy v = true →
  head (manifests f sub ext) = Some m →
  stat f (join sub m) = Some (File data) →
  json_loads E data = Some (JDict d) →
  d !! basename source = Some p →
  path_exists f p = false →
  ∃ l', get_index_path_using_reflist E source ext sub v (World f l t s)
        = (Ok (true, join sub (rand E t +:+ "." +:+ ext), m,
               JDict (delete (basename source) d)), World f l' (S t) s).
Proof.
  intros Hv Hm Hstat Hloads Hd Hp.
  unfold get_index_path_using_reflist.
  unfold mbind at 1. unfold M_bind at 1.
  rewrite (get_reflist_name_found _ _ _ _ _ _ _ _ Hm). rewrite Hv.
  munfold. simpl.
  rewrite (json_load_file _ _ _ _ _ _ _ _ _ Hstat Hloads).
  unfold lookup_reference. rewrite (jtruthy_lookup _ _ _ Hd), Hd.
  munfold. simpl. rewrite Hp. simpl. eauto.
Qed.

(** After the manifest is located or created, the resolver only reads. *)
Lemma resolver_after_reflist E source ext sub v w m w1 :
  get_reflist_name E sub ext w = (Ok m, w1) →
  ∃ a b d w', get_index_path_using_reflist E source ext sub v w
              = (Ok (a, b, m, d), w')
    ∧ fs w' = fs w1 ∧ spawned w' = spawned w1.
Proof.
  intros Hm. unfold get_index_path_using_reflist.
  unfold mbind at 1. unfold M_bind at 1. rewrite Hm.
  set (k := (if py_truthy v then _ else _) : M (string * jval)).
  assert (keeps_files k) as Hk.
  { unfold k. destruct (py_truthy v); unfold logger_info.
    - apply keeps_files_bind; [apply keeps_files_say|]. intros _.
      apply keeps_files_bind; [apply keeps_files_json_load|]. intros ?.
      apply keeps_files_lookup_reference.
    - repeat keeps_files_step. }
  assert (∃ x, (k w1).1 = Ok x) as [[ip ref] Hx].
  { unfold k. destruct (py_truthy v); munfold; simpl; [|eauto].
    destruct (json_load_returns E sub m
                (World (fs w1) (log w1 ++ [(INFO,
                   "re_use_indexing is enabled, looking for " +:+ ext
                   +:+ " file in temp")]) (ticks w1) (spawned w1))) as [x Hx].
    destruct (json_load _ _ _ _) as [r w2]. simpl in Hx. subst r.
    unfold lookup_reference. munfold.
    repeat case_match; simpl; eauto. }
  unfold mbind, M_bind.
  destruct (k w1) as [r w2] eqn:Hkw. simpl in Hx. subst r.
  apply Hk in Hkw as (Hf & Hs & _).
  unfold random_name. munfold.
  case_bool_decide; simpl; eauto 10.
Qed.

Lemma get_exec_path_world E exec_dir exec_name fallback_tool_dir f l t s r w' :
  get_exec_path E exec_dir exec_name fallback_tool_dir (World f l t s) = (r, w') →
  ∃ l', w' = World f l' t s.
Proof.
  unfold get_exec_path. munfold. simpl.
  repeat (case_match; simplify_eq/=; try done); intros; simplify_eq; eauto.
Qed.

(** The constructor in namespaced mode, once its checks pass. *)
Lemma constructor_namespaced E ext exec_name source v exec_dir indexing_dir
    fallback_tool_dir f l t s ep f1 err :
  source ≠ "" →
  isfile f source = true →
  py_in v [PyBool true; PyBool false] = true →
  (get_exec_path E exec_dir exec_name fallback_tool_dir (World f l t s)).1 = Ok ep →
  indexing_dir ≠ "" →
  isdir f indexing_dir = true →
  makedirs (cache_subdir indexing_dir source) f = (f1, err) →
  ∃ l1,
    Index_managment_prep E ext exec_name source v exec_dir indexing_dir
      fallback_tool_dir (World f l t s) =
    let sub := cache_subdir indexing_dir source in
    match get_index_path_using_reflist E source ext sub v (World f1 l1 t s) with
    | (Ok (a, b, c, d), w') =>
        match err with
        | None | Some FileExistsError => (Ok (Prep a b c d ep true sub), w')
        | Some e => (Raise (OSError e sub), w')
        end
    | (Raise e, w') => (Raise e, w')
    end.
Proof.
  intros Hs Hf Hv Hep Hi Hd Hmk.
  destruct (get_exec_path E exec_dir exec_name fallback_tool_dir (World f l t s))
    as [r w1] eqn:Hrun.
  simpl in Hep. subst r.
  destruct (get_exec_path_world _ _ _ _ _ _ _ _ _ _ Hrun) as [l' ->].
  unfold Index_managment_prep. munfold. cbn [fs log ticks spawned].
  rewrite (bool_decide_eq_false_2 _ Hs), Hf, Hv. cbn [negb].
  rewrite Hrun. rewrite (bool_decide_eq_false_2 _ Hi), Hd. cbn [negb].
  rewrite Hmk. cbn [fs log ticks spawned].
  destruct err as [[]|]; simpl;
    match goal with
    | |- context [get_index_path_using_reflist _ _ _ _ _ (World _ ?l1 _ _)] =>
        exists l1
    end;
    destruct (get_index_path_using_reflist _ _ _ _ _ _)
      as [[[[[a b] c] d]|e] w']; reflexivity.
Qed.

(** ** Creating directories *)

Lemma makedirs_existing fs name n :
  stat fs name = Some n → makedirs name fs = (fs, Some FileExistsError).
Proof. intros H. unfold makedirs. by rewrite H. Qed.

Lemma mkdir_isfile p fs fs' q :
  mkdir p fs = inr fs' → isfile fs' q = isfile fs q.
Proof.
  unfold mkdir. destruct (stat fs p) eqn:Hp; [done|].
  assert (isfile (<[p:=Dir]> fs) q = isfile fs q) as Hins.
  { unfold isfile. destruct (decide (p = q)) as [->|Hne].
    - rewrite Hp. unfold stat. rewrite lookup_insert_eq. by case_bool_decide.
    - by rewrite stat_insert_ne. }
  repeat case_match; intros; simplify_eq; done.
Qed.

Lemma makedirs_fuel_isfile n name fs q :
  isfile (makedirs_fuel n name fs).1 q = isfile fs q.
Proof.
  revert name fs. induction n as [|n IH]; intros name fs; simpl.
  - repeat case_match; simplify_eq/=; try done; by eapply mkdir_isfile.
  - repeat case_match; simplify_eq/=; try done;
      repeat match goal with
             | H : makedirs_fuel n ?h ?f = (?f1, _) |- _ =>
                 lazymatch goal with
                 | _ : isfile f1 q = isfile f q |- _ => fail
                 | _ => let Hq := fresh "Hq" in
                        pose proof (IH h f) as Hq; rewrite H in Hq;
                        simpl in Hq
                 end
             | H : mkdir _ _ = inr _ |- _ => apply (mkdir_isfile _ _ _ q) in H
             end; congruence.
Qed.

Lemma makedirs_isfile name fs q : isfile (makedirs name fs).1 q = isfile fs q.
Proof.
  unfold makedirs. destruct (stat fs name); [done|apply makedirs_fuel_isfile].
Qed.

(** ** Running the orchestrators *)

Lemma run_process_run E cmd f l t s :
  run_process E cmd (World f l t s) =
  (Ok (bool_decide ((os_system E cmd f).1 = 0)),
   World (os_system E cmd f).2 l t (s ++ [cmd])).
Proof.
  unfold run_process, process. munfold. simpl.
  destruct (os_system E cmd f) as [code f2]. simpl.
  destruct (decide (code = 0)) as [->|Hne].
  - by rewrite !bool_decide_eq_true_2.
  - rewrite !bool_decide_eq_false_2; [done|done|]. intros [= ?]. done.
Qed.

Lemma d2vwitch_after_prep E source indexing_dir d2vwitch_dir v opts fb w p w1 :
  d2vwitch_prep E source indexing_dir d2vwitch_dir v fb w = (Ok p, w1) →
  d2vwitch E source indexing_dir d2vwitch_dir v opts fb w =
  if negb (isIndexing p) then
    (correct_byte_for_range E (index_path p)
       (scan_input_range (split_on space opts) "limited");;
     mret (index_path p)) w1
  else
    let cmd := d2vwitch_cmd p opts source in
    let code := (os_system E cmd (fs w1)).1 in
    let fs2 := (os_system E cmd (fs w1)).2 in
    let w2 := World fs2
                (log w1 ++ [(INFO, "d2vwitch command line:" +:+ String newline cmd)])
                (ticks w1) (spawned w1 ++ [cmd]) in
    if bool_decide (code = 0) && isfile fs2 (index_path p) then
      ((if using_reflist p then
          update_index_path_reference E source (index_path p)
            (file_index_ref p) (prep_indexing_dir p) (reflist_name p) "d2v"
        else mret tt);;
       logger_info (created_msg "d2v" p);;
       mret (index_path p)) w2
    else
      (Ok "", World fs2 (log w2 ++ [(ERROR, "ERROR while indexing with d2vwitch")])
                    (ticks w2) (spawned w2)).
Proof.
  intros Hprep. unfold d2vwitch. unfold d2vwitch_prep in Hprep. cbv zeta.
  unfold mbind at 1. unfold M_bind at 1.
  unfold mbind at 1 in Hprep. unfold M_bind at 1 in Hprep.
  destruct (logger_info _ w) as [[[]|e] w0] eqn:Hlog; [|done].
  unfold mbind at 1. unfold M_bind at 1. rewrite Hprep.
  destruct (isIndexing p); [|done]. cbn [negb].
  destruct w1 as [f1 l1 t1 s1].
  unfold mbind at 1. unfold M_bind at 1. unfold logger_info at 1, say at 1.
  unfold mbind at 1. unfold M_bind at 1.
  rewrite run_process_run. cbn [fs log ticks spawned].
  unfold mbind at 1. unfold M_bind at 1. unfold get_fs at 1.
  cbn [fs log ticks spawned]. by destruct (_ && _).
Qed.

Lemma ffmsindex_after_prep E source indexing_dir ffmsindex_dir v fb w p w1 :
  ffmsindex_prep E source indexing_dir ffmsindex_dir v fb w = (Ok p, w1) →
  ffmsindex E source indexing_dir ffmsindex_dir v fb w =
  if negb (isIndexing p) then (Ok (index_path p), w1)
  else
    let cmd := ffmsindex_cmd p source in
    let code := (os_system E cmd (fs w1)).1 in
    let fs2 := (os_system E cmd (fs w1)).2 in
    let w2 := World fs2
                (log w1 ++ [(INFO, "ffmsindex command line:" +:+ String newline cmd)])
                (ticks w1) (spawned w1 ++ [cmd]) in
    if bool_decide (code = 0) && isfile fs2 (index_path p) then
      ((if using_reflist p then
          update_index_path_reference E source (index_path p)
            (file_index_ref p) (prep_indexing_dir p) (reflist_name p) "ffindex"
        else mret tt);;
       logger_info (created_msg "ffindex" p);;
       mret (index_path p)) w2
    else
      (Ok "", World fs2 (log w2 ++ [(ERROR, "ERROR while indexing with ffmsindex")])
                    (ticks w2) (spawned w2)).
Proof.
  intros Hprep. unfold ffmsindex. unfold ffmsindex_prep in Hprep. cbv zeta.
  unfold mbind at 1. unfold M_bind at 1.
  unfold mbind at 1 in Hprep. unfold M_bind at 1 in Hprep.
  destruct (logger_info _ w) as [[[]|e] w0] eqn:Hlog; [|done].
  unfold mbind at 1. unfold M_bind at 1. rewrite Hprep.
  destruct (isIndexing p); [|done]. cbn [negb].
  destruct w1 as [f1 l1 t1 s1].
  unfold mbind at 1. unfold M_bind at 1. unfold logger_info at 1, say at 1.
  unfold mbind at 1. unfold M_bind at 1.
  rewrite run_process_run. cbn [fs log ticks spawned].
  unfold mbind at 1. unfold M_bind at 1. unfold get_fs at 1.
  cbn [fs log ticks spawned]. by destruct (_ && _).
Qed.

(** The range correction touches at most the file it is given. *)
Lemma correct_byte_frame E path range w :
  let r := correct_byte_for_range E path range w in
  spawned r.2 = spawned w ∧ ticks r.2 = ticks w
  ∧ (∀ q, q ≠ path → fs r.2 !! q = fs w !! q)
  ∧ (r.1 = Ok tt ∨ ∃ e, r.1 = Raise (OSError e path))
  ∧ (isfile (fs w) path = true → may_write E path = true → r.1 = Ok tt).
Proof.
  unfold correct_byte_for_range, open_update, isfile, try_except, read1.
  munfold. simpl.
  destruct (stat (fs w) path) as [[|data]|]; simpl;
    [repeat split; try done; eauto| |repeat split; try done; eauto].
  destruct (may_write E path); simpl; [|repeat split; try done; eauto].
  repeat (case_match; simplify_eq/=); repeat split; eauto;
    intros q Hq; by rewrite lookup_insert_ne.
Qed.

(** ** The constructor on an indexed source *)

Lemma isdir_stat f d : isdir f d = true → stat f d = Some Dir.
Proof. unfold isdir. by destruct (stat f d) as [[|?]|]. Qed.

Lemma constructor_reuse E ext exec_name source v exec_dir indexing_dir fb
    f l t s ep m data d p :
  let sub := cache_subdir indexing_dir source in
  source ≠ "" →
  isfile f source = true →
  py_in v [PyBool true; PyBool false] = true →
  py_truthy v = true →
  (get_exec_path E exec_dir exec_name fb (World f l t s)).1 = Ok ep →
  indexing_dir ≠ "" →
  isdir f indexing_dir = true →
  head (manifests f sub ext) = Some m →
  stat f (join sub m) = Some (File data) →
  json_loads E data = Some (JDict d) →
  d !! basename source = Some p →
  path_exists f p = true →
  ∃ l', Index_managment_prep E ext exec_name source v exec_dir indexing_dir fb
          (World f l t s)
        = (Ok (Prep false p m (JDict d) ep true sub), World f l' t s).
Proof.
  intros sub Hs Hf Hin Hv Hep Hi Hd Hm Hstat Hloads Hlook Hp.
  pose proof (head_manifests_valid _ _ _ _ Hm) as (Hsub%isdir_stat & _).
  destruct (constructor_namespaced E ext exec_name source v exec_dir
              indexing_dir fb f l t s ep f (Some FileExistsError)
              Hs Hf Hin Hep Hi Hd (makedirs_existing _ _ _ Hsub)) as [l1 ->].
  cbv zeta. fold sub.
  destruct (resolver_reuse E source ext sub v f l1 t s m data d p
              Hv Hm Hstat Hloads Hlook Hp) as [l' ->].
  eauto.
Qed.

Lemma constructor_stale E ext exec_name source v exec_dir indexing_dir fb
    f l t s ep m data d p :
  let sub := cache_subdir indexing_dir source in
  source ≠ "" →
  isfile f source = true →
  py_in v [PyBool true; PyBool false] = true →
  py_truthy v = true →
  (get_exec_path E exec_dir exec_name fb (World f l t s)).1 = Ok ep →
  indexing_dir ≠ "" →
  isdir f indexing_dir = true →
  head (manifests f sub ext) = Some m →
  stat f (join sub m) = Some (File data) →
  json_loads E data = Some (JDict d) →
  d !! basename source = Some p →
  path_exists f p = false →
  ∃ l', Index_managment_prep E ext exec_name source v exec_dir indexing_dir fb
          (World f l t s)
        = (Ok (Prep true (join sub (rand E t +:+ "." +:+ ext)) m
                    (JDict (delete (basename source) d)) ep true sub),
           World f l' (S t) s).
Proof.
  intros sub Hs Hf Hin Hv Hep Hi Hd Hm Hstat Hloads Hlook Hp.
  pose proof (head_manifests_valid _ _ _ _ Hm) as (Hsub%isdir_stat & _).
  destruct (constructor_namespaced E ext exec_name source v exec_dir
              indexing_dir fb f l t s ep f (Some FileExistsError)
              Hs Hf Hin Hep Hi Hd (makedirs_existing _ _ _ Hsub)) as [l1 ->].
  cbv zeta. fold sub.
  destruct (resolver_stale E source ext sub v f l1 t s m data d p
              Hv Hm Hstat Hloads Hlook Hp) as [l' ->].
  eauto.
Qed.

Lemma d2vwitch_prep_run E source indexing_dir d2vwitch_dir v fb f l t s :
  d2vwitch_prep E source indexing_dir d2vwitch_dir v fb (World f l t s) =
  Index_managment_prep E "d2v" "d2vwitch" source v d2vwitch_dir indexing_dir fb
    (World f (l ++ [(INFO, "indexing, using " +:+ "d2vwitch" +:+ " for: "
                            +:+ source)]) t s).
Proof. done. Qed.

(** ** Replacements in a row *)

Lemma update_steps_manifests E dir ext n w0 w m :
  manifests (fs w0) dir ext = [m] →
  Forall (λ k, valid_name (list_name ext (rand E k)) = true) (seq (ticks w0) n) →
  NoDup (m :: ((λ k, list_name ext (rand E k)) <$> seq (ticks w0) n)) →
  nsteps (update_step E dir ext) n w0 w →
  ticks w = (ticks w0 + n)%nat
  ∧ manifests (fs w) dir ext
    = [match n with
       | O => m
       | S k => list_name ext (rand E (ticks w0 + k))
       end].
Proof.
  intros Hm Hvalid Hfresh Hsteps. revert m Hm Hvalid Hfresh.
  induction Hsteps as [w|n w0 w1 w Hstep Hsteps IH]; intros m Hm Hvalid Hfresh.
  - split; [lia|done].
  - simpl in Hvalid, Hfresh.
    apply Forall_cons in Hvalid as [Hv Hvalid].
    apply NoDup_cons in Hfresh as [Hnew Hfresh].
    pose proof (update_step_manifests E dir ext w0 w1 m Hm Hv) as Hone.
    destruct Hone as [Hm1 Ht1]; [|done|].
    { intros Heq. apply Hnew. rewrite Heq. left. }
    rewrite <- Ht1 in Hvalid, Hfresh.
    destruct (IH _ Hm1 Hvalid Hfresh) as [Ht Hw]. split; [lia|].
    rewrite Hw. destruct n as [|k]; [by rewrite Nat.add_0_r|].
    do 3 f_equal. lia.
Qed.

(** What a call that returns has done to the files. *)
Lemma update_returned E file ipath ref dir old ext w w' :
  let new := list_name ext (rand E (ticks w)) in
  update_index_path_reference E file ipath ref dir old ext w = (Ok tt, w') →
  match open_w_error E (fs w) (join dir new) with
  | None =>
      ∃ d, (mapping_for_update E ref dir old w).1 = Ok (JDict d) ∧
        let f1 := <[join dir new :=
                    File (json_dumps E (JDict (<[path_name file := ipath]> d)))]>
                    (fs w) in
        fs w' = if isfile f1 (join dir old) then delete (join dir old) f1
                else f1
  | Some _ => fs w' = after_failed_write E (fs w) (join dir new)
  end.
Proof.
  destruct w as [f l t s]. cbv zeta. cbn [fs log ticks spawned]. intros Hrun.
  destruct (mapping_for_update_run E ref dir old f l t s) as (v0 & l1 & Hv).
  destruct v0 as [d|b].
  - rewrite (update_run _ _ _ _ _ _ _ _ _ _ _ _ _ Hv) in Hrun.
    cbv zeta in Hrun.
    destruct (open_w_error E f _); [by simplify_eq|].
    exists d. rewrite Hv. split; [done|]. cbv zeta.
    set (f1 := <[_ := _]> f) in *.
    destruct (isfile f1 (join dir old)); [|by simplify_eq].
    unfold os_remove in Hrun. cbn [fs log ticks spawned] in Hrun.
    destruct (stat f1 (join dir old)) as [[|?]|]; try done.
    destruct (may_write E (join dir old)); by simplify_eq.
  - by rewrite (update_run_other _ _ _ _ _ _ _ _ _ _ _ _ _ Hv) in Hrun.
Qed.

(** * The claims *)

(** C1.  Executable resolution with an empty tool directory, when the tool
    is found on the search path as an existing file.  The claim expects the
    found path to be returned.  The code keeps [exec_dir] empty on that
    branch and then tests [os.path.isdir(exec_dir)], which is false for the
    empty path: whatever the environment, [get_exec_path] raises the
    not-a-directory [ValueError].  Only the log may have grown, by the note
    on a missing execute permission. *)
Theorem get_exec_path_on_search_path_raises E exec_name fallback_tool_dir w p :
  which E (fs w) exec_name = Some p →
  p ≠ "" →
  isfile (fs w) p = true →
  get_exec_path E "" exec_name fallback_tool_dir w =
  (Raise (ValueError (not_a_directory_msg exec_name "")),
   if access_x E p then w
   else World (fs w)
          (log w ++ [(INFO, "executable " +:+ exec_name
                       +:+ " might not have administrative rights to run")])
          (ticks w) (spawned w)).
Proof.
  intros Hwhich Hp Hfile. unfold get_exec_path. munfold. simpl.
  rewrite Hwhich. simpl. rewrite (bool_decide_eq_false_2 _ Hp), Hfile. simpl.
  by destruct (access_x E p).
Qed.

(** C1, witness: [shutil.which] finds [/usr/bin/d2vwitch], a regular file,
    and the call raises. *)
Lemma get_exec_path_on_search_path_raises_witness :
  get_exec_path (example_env failing_tool) "" "d2vwitch" "" path_world
  = (Raise (ValueError (not_a_directory_msg "d2vwitch" "")), path_world).
Proof.
  exact (get_exec_path_on_search_path_raises (example_env failing_tool)
           "d2vwitch" "" path_world "/usr/bin/d2vwitch"
           eq_refl ltac:(discriminate) eq_refl).
Defined.

(** C2, counterexample.  A first call of [d2vwitch] asks for the limited
    range; the tool succeeds and writes an artifact whose flag is 0.  The
    call returns that artifact as the tool wrote it: applying
    [correct_byte_for_range] afterwards would still change the file, so the
    correction was not applied on this path. *)
Lemma new_artifact_is_not_corrected :
  let E := example_env (writing_tool new_d2v d2v_full) in
  let r := d2vwitch E "/media/clip.mpg" "/tmp" "/tools" (PyBool true)
             "--input-range limited" "" example_world in
  r.1 = Ok new_d2v
  ∧ fs r.2 !! new_d2v = Some (File d2v_full)
  ∧ fs (correct_byte_for_range E new_d2v "limited" r.2).2 !! new_d2v
    = Some (File d2v_limited)
  ∧ d2v_full ≠ d2v_limited.
Proof. vm_compute. repeat split; discriminate. Qed.

(** C2, amended.  Once the resolver is built, [d2vwitch] applies
    [correct_byte_for_range] to the artifact exactly when it reuses it
    ([isIndexing] false): the world it leaves is the one the correction
    leaves, with the range read from the options, and it returns the artifact
    path when the correction returns (it can only fail in opening the
    artifact).  When a new artifact has just been generated ([isIndexing]
    true, exit status 0, file present) no correction runs.  In co-located
    mode the call returns the artifact path and the files are as the tool
    left them.  In namespaced mode the call returns the artifact path exactly
    when the manifest update returns, which it does whenever the mapping it
    works on is a dictionary and the old manifest may be removed; and outside
    the two manifest paths every file is as the tool left it. *)
Theorem range_correction_on_reuse_only
    E source indexing_dir d2vwitch_dir v opts fb w p w1 :
  d2vwitch_prep E source indexing_dir d2vwitch_dir v fb w = (Ok p, w1) →
  let r := d2vwitch E source indexing_dir d2vwitch_dir v opts fb w in
  (isIndexing p = false →
   let input_range := scan_input_range (split_on space opts) "limited" in
   let c := correct_byte_for_range E (index_path p) input_range w1 in
   r.2 = c.2
   ∧ r.1 = match c.1 with Ok _ => Ok (index_path p) | Raise e => Raise e end)
  ∧ (isIndexing p = true →
     let cmd := d2vwitch_cmd p opts source in
     let fs2 := (os_system E cmd (fs w1)).2 in
     let w2 := World fs2
                 (log w1 ++ [(INFO, "d2vwitch command line:"
                                      +:+ String newline cmd)])
                 (ticks w1) (spawned w1 ++ [cmd]) in
     let dir := prep_indexing_dir p in
     let old := reflist_name p in
     let new := list_name "d2v" (rand E (ticks w1)) in
     (os_system E cmd (fs w1)).1 = 0 →
     isfile fs2 (index_path p) = true →
     (using_reflist p = false →
      r = (Ok (index_path p),
           World fs2 (log w2 ++ [(INFO, created_msg "d2v" p)]) (ticks w1)
                 (spawned w1 ++ [cmd])))
     ∧ (using_reflist p = true →
        let u := update_index_path_reference E source (index_path p)
                   (file_index_ref p) dir old "d2v" w2 in
        r.1 = match u.1 with Ok _ => Ok (index_path p) | Raise e => Raise e end
        ∧ fs r.2 = fs u.2)
     ∧ (∀ d, (mapping_for_update E (file_index_ref p) dir old w2).1
             = Ok (JDict d) →
             may_write E (join dir old) = true →
             r.1 = Ok (index_path p))
     ∧ ∀ path, path ≠ join dir new → path ≠ join dir old →
               fs r.2 !! path = fs2 !! path).
Proof.
  intros Hp. cbv zeta.
  rewrite (d2vwitch_after_prep _ _ _ _ _ _ _ _ _ _ Hp). split.
  - intros ->. cbn [negb]. munfold.
    by destruct (correct_byte_for_range _ _ _ w1) as [[[]|e] w2].
  - intros ->. cbn [negb]. cbv zeta. intros Hcode Hfile.
    rewrite Hcode, Hfile. rewrite bool_decide_eq_true_2 by done. cbn [andb].
    set (w2 := World _ _ _ _).
    pose proof (update_effect E source (index_path p) (file_index_ref p)
                  (prep_indexing_dir p) (reflist_name p) "d2v" w2) as [_ Hu].
    cbv zeta in Hu.
    split; [|split; [|split]].
    + intros ->. by munfold.
    + intros ->. munfold.
      by destruct (update_index_path_reference _ _ _ _ _ _ _ w2)
        as [[[]|e] w3].
    + intros d Hd Hw. destruct (using_reflist p); [|by munfold].
      pose proof (update_returns E source (index_path p) (file_index_ref p)
                    (prep_indexing_dir p) (reflist_name p) "d2v" w2 d Hd Hw)
        as Hret.
      munfold.
      destruct (update_index_path_reference _ _ _ _ _ _ _ w2)
        as [[[]|e] w3]; [done|discriminate].
    + intros path Hn Ho.
      assert (fs ((if using_reflist p
                   then update_index_path_reference E source (index_path p)
                          (file_index_ref p) (prep_indexing_dir p)
                          (reflist_name p) "d2v"
                   else mret tt) w2).2 !! path = fs w2 !! path) as Hfr.
      { destruct (using_reflist p); [|done].
        destruct (open_w_error _ _ _).
        - destruct Hu as [->| ->]; [done|].
          by apply after_failed_write_lookup_ne.
        - destruct Hu as [->|(d & _ & [->| [_ ->]])]; [done| |].
          + by rewrite lookup_insert_ne.
          + by rewrite lookup_delete_ne, lookup_insert_ne. }
      munfold.
      destruct (using_reflist p); [|exact Hfr].
      destruct (update_index_path_reference _ _ _ _ _ _ _ w2)
        as [[[]|e] w3]; exact Hfr.
Qed.

(** C2, witness: a reused artifact written for the full range is patched to
    the limited range and returned; an artifact the tool has just written for
    the full range, though the limited range is asked for, is returned as it
    is. *)
Lemma range_correction_on_reuse_only_witness :
  (let E := example_env failing_tool in
   let r := d2vwitch E "/media/clip.mpg" "/tmp" "/tools" (PyBool true)
              "--input-range limited" "" indexed_world in
   r.1 = Ok "/tmp/indexing/media/old.d2v"
   ∧ fs r.2 !! "/tmp/indexing/media/old.d2v" = Some (File d2v_limited))
  ∧ (let E := example_env (writing_tool new_d2v d2v_full) in
     let r := d2vwitch E "/media/clip.mpg" "/tmp" "/tools" (PyBool true)
                "--input-range limited" "" example_world in
     r.1 = Ok new_d2v ∧ fs r.2 !! new_d2v = Some (File d2v_full)).
Proof.
  split.
  - pose (E := example_env failing_tool).
    pose (rp := d2vwitch_prep E "/media/clip.mpg" "/tmp" "/tools"
                  (PyBool true) "" indexed_world).
    pose (p := Prep false "/tmp/indexing/media/old.d2v" "d2vlisttmpq0q0q0q0"
                 (JDict {[ "clip.mpg" := "/tmp/indexing/media/old.d2v" ]})
                 "/tools/d2vwitch" true "/tmp/indexing/media").
    destruct (range_correction_on_reuse_only E "/media/clip.mpg" "/tmp"
                "/tools" (PyBool true) "--input-range limited" ""
                indexed_world p rp.2) as [Hreuse _].
    + vm_compute. reflexivity.
    + destruct (Hreuse eq_refl) as [Hw Hr]. cbv zeta. split.
      * change (d2vwitch (example_env failing_tool)) with (d2vwitch E).
        rewrite Hr. vm_compute. reflexivity.
      * change (d2vwitch (example_env failing_tool)) with (d2vwitch E).
        rewrite Hw. vm_compute. reflexivity.
  - pose (E := example_env (writing_tool new_d2v d2v_full)).
    pose (rp := d2vwitch_prep E "/media/clip.mpg" "/tmp" "/tools"
                  (PyBool true) "" example_world).
    pose (p := Prep true new_d2v "d2vlisttmpk3v9x_2a" placeholder
                 "/tools/d2vwitch" true "/tmp/indexing/media").
    destruct (range_correction_on_reuse_only E "/media/clip.mpg" "/tmp"
                "/tools" (PyBool true) "--input-range limited" ""
                example_world p rp.2) as [_ Hnew].
    + vm_compute. reflexivity.
    + destruct (Hnew eq_refl) as (_ & _ & Hret & Hframe);
        [vm_compute; reflexivity..|].
      cbv zeta. split.
      * apply (Hret {[ "filebase" := "index file" ]}); vm_compute; reflexivity.
      * change (d2vwitch (example_env (writing_tool new_d2v d2v_full)))
          with (d2vwitch E).
        rewrite Hframe; [vm_compute; reflexivity|vm_compute; discriminate..].
Defined.

(** C3, counterexample.  The integers 1 and 0 are no booleans, yet the
    constructor accepts them: the test is [re_use_indexing not in [True,
    False]], and in Python [1 == True] and [0 == False]. *)
Lemma integer_policy_is_accepted :
  is_bool (PyInt 1) = false
  ∧ (Index_managment_prep (example_env failing_tool) "d2v" "d2vwitch"
       "/media/clip.mpg" (PyInt 1) "/tools" "" "" example_world).1
    = Ok (Prep true "/media/clip.d2v" "" (JDict ∅) "/tools/d2vwitch" false
               "/media")
  ∧ (Index_managment_prep (example_env failing_tool) "d2v" "d2vwitch"
       "/media/clip.mpg" (PyInt 0) "/tools" "" "" example_world).1
    = Ok (Prep true "/media/clip.d2v" "" (JDict ∅) "/tools/d2vwitch" false
               "/media").
Proof. vm_compute. done. Qed.

(** C3, amended.  When the source is an existing file and [re_use_indexing]
    equals neither [True] nor [False] under Python's [==] (it is no boolean
    and not the integer 0 or 1: a string, [None], another integer), the
    constructor raises the invalid-policy [ValueError] and leaves the world
    as it was: no file is changed and no command is spawned. *)
Theorem constructor_rejects_unequal_policy
    E index_ext exec_name source v exec_dir indexing_dir fallback_tool_dir w :
  source ≠ "" →
  isfile (fs w) source = true →
  (∀ b, v ≠ PyBool b) → v ≠ PyInt 0 → v ≠ PyInt 1 →
  Index_managment_prep E index_ext exec_name source v exec_dir indexing_dir
    fallback_tool_dir w
  = (Raise (ValueError (invalid_policy_msg exec_name)), w).
Proof.
  intros Hs Hf Hb H0 H1. unfold Index_managment_prep. munfold. simpl.
  rewrite (bool_decide_eq_false_2 _ Hs), Hf. simpl.
  destruct v as [b|n|s|]; simpl.
  - by destruct (Hb b).
  - rewrite !bool_decide_eq_false_2 by naive_solver. done.
  - done.
  - done.
Qed.

(** C3, witness: the string [yes] is rejected. *)
Lemma constructor_rejects_unequal_policy_witness :
  Index_managment_prep (example_env failing_tool) "d2v" "d2vwitch"
    "/media/clip.mpg" (PyStr "yes") "/tools" "/tmp" "" example_world
  = (Raise (ValueError (invalid_policy_msg "d2vwitch")), example_world).
Proof.
  apply constructor_rejects_unequal_policy; [done|reflexivity|done..].
Defined.

(** C4, counterexample.  In a directory without manifest, [get_reflist_name]
    persists a mapping with one entry, [filebase] to [index file]; the text
    it writes differs from the one of the empty mapping. *)
Lemma created_manifest_is_not_empty :
  let E := example_env failing_tool in
  let r := get_reflist_name E "/tmp" "d2v" example_world in
  r.1 = Ok "d2vlisttmpk3v9x_2a"
  ∧ ∃ data, fs r.2 !! "/tmp/d2vlisttmpk3v9x_2a" = Some (File data)
    ∧ json_loads E data = Some (JDict {[ "filebase" := "index file" ]})
    ∧ data ≠ json_dumps E (JDict ∅).
Proof.
  vm_compute. split; [done|]. eexists. split; [done|]. split; [done|].
  discriminate.
Qed.

(** C4, amended.  When the directory holds no manifest file,
    [get_reflist_name] draws a random name, and: if the file
    [index_ext + list + random] can be written, it holds the JSON text of
    the one-entry placeholder mapping and its name is returned; if it cannot,
    both failures are logged and the empty name is returned.  No file has
    changed then when the file could not be opened; when the write was
    interrupted after that, the new file is left with what was written. *)
Theorem get_reflist_name_creates_placeholder E indexing_dir index_ext w :
  isdir (fs w) indexing_dir = true →
  manifests (fs w) indexing_dir index_ext = [] →
  let name := list_name index_ext (rand E (ticks w)) in
  let path := join indexing_dir name in
  let failed e f :=
    (Ok "", World f
       (log w ++ [(ERROR, str_exn (OSError e path));
                  (ERROR, "json failed to create empty dictionary to store "
                           +:+ index_ext +:+ " references")])
       (S (ticks w)) (spawned w)) in
  get_reflist_name E indexing_dir index_ext w =
  match open_error E (fs w) path, write_fault E (fs w) path with
  | None, None =>
      (Ok name, World (<[path := File (json_dumps E placeholder)]> (fs w))
                      (log w) (S (ticks w)) (spawned w))
  | Some e, _ => failed e (fs w)
  | None, Some written =>
      failed PlainOSError (<[path := File written]> (fs w))
  end.
Proof.
  destruct w as [f l t s]. cbn [fs log ticks spawned]. intros Hd Hm.
  rewrite (get_reflist_name_absent _ _ _ _ _ _ _ Hd Hm). cbv zeta.
  unfold open_w_error, after_failed_write.
  destruct (open_error E f _); [done|].
  by destruct (write_fault E f _).
Qed.

(** C4, witness: the manifest created in the example cache directory. *)
Lemma get_reflist_name_creates_placeholder_witness :
  get_reflist_name (example_env failing_tool) "/tmp" "d2v" example_world =
  (Ok "d2vlisttmpk3v9x_2a",
   World (<["/tmp/d2vlisttmpk3v9x_2a" :=
            File (json_dumps (example_env failing_tool) placeholder)]>
            example_fs) [] 1 []).
Proof.
  exact (get_reflist_name_creates_placeholder (example_env failing_tool)
           "/tmp" "d2v" example_world eq_refl eq_refl).
Defined.

(** C5.  Namespaced mode, reuse enabled, the manifest of the cache
    subdirectory maps the base name of the source to a path that exists.
    Then the resolver reports [isIndexing] false with that very path and
    changes no file; and [d2vwitch] returns that path (it can only fail in
    opening the artifact for the range correction), spawns no command, draws
    no random name and leaves every file but the artifact as it was, so the
    manifest is not written. *)
Theorem reuse_returns_indexed_artifact
    E source indexing_dir d2vwitch_dir fb opts v w ep m data d p :
  let sub := cache_subdir indexing_dir source in
  source ≠ "" →
  isfile (fs w) source = true →
  py_in v [PyBool true; PyBool false] = true →
  py_truthy v = true →
  (get_exec_path E d2vwitch_dir "d2vwitch" fb w).1 = Ok ep →
  indexing_dir ≠ "" →
  isdir (fs w) indexing_dir = true →
  head (manifests (fs w) sub "d2v") = Some m →
  stat (fs w) (join sub m) = Some (File data) →
  json_loads E data = Some (JDict d) →
  d !! basename source = Some p →
  path_exists (fs w) p = true →
  (∃ w1, Index_managment_prep E "d2v" "d2vwitch" source v d2vwitch_dir
           indexing_dir fb w
         = (Ok (Prep false p m (JDict d) ep true sub), w1)
     ∧ fs w1 = fs w ∧ ticks w1 = ticks w ∧ spawned w1 = spawned w)
  ∧ (let r := d2vwitch E source indexing_dir d2vwitch_dir v opts fb w in
     (r.1 = Ok p ∨ ∃ e, r.1 = Raise (OSError e p))
     ∧ (isfile (fs w) p = true → may_write E p = true → r.1 = Ok p)
     ∧ spawned r.2 = spawned w
     ∧ ticks r.2 = ticks w
     ∧ ∀ path, path ≠ p → fs r.2 !! path = fs w !! path).
Proof.
  destruct w as [f l t s]. cbv zeta. cbn [fs log ticks spawned].
  intros Hs Hf Hin Hv Hep Hi Hd Hm Hstat Hloads Hlook Hp. split.
  - destruct (constructor_reuse E "d2v" "d2vwitch" source v d2vwitch_dir
                indexing_dir fb f l t s ep m data d p
                Hs Hf Hin Hv Hep Hi Hd Hm Hstat Hloads Hlook Hp) as [l' ->].
    eauto.
  - rewrite (get_exec_path_result _ _ _ _ _ _ _ _
               (l ++ [(INFO, "indexing, using " +:+ "d2vwitch" +:+ " for: "
                              +:+ source)]) t s) in Hep.
    destruct (constructor_reuse E "d2v" "d2vwitch" source v d2vwitch_dir
                indexing_dir fb f _ t s ep m data d p
                Hs Hf Hin Hv Hep Hi Hd Hm Hstat Hloads Hlook Hp) as [l' Hprep].
    rewrite <- d2vwitch_prep_run in Hprep. cbv zeta.
    rewrite (d2vwitch_after_prep _ _ _ _ _ _ _ _ _ _ Hprep).
    cbn [isIndexing index_path negb].
    pose proof (correct_byte_frame E p
                  (scan_input_range (split_on space opts) "limited")
                  (World f l' t s)) as Hc.
    cbv zeta in Hc. cbn [fs log ticks spawned] in Hc. munfold.
    destruct (correct_byte_for_range _ _ _ _) as [[[]|e] w2];
      cbn [fst snd] in *; destruct Hc as (H1 & H2 & H3 & H4 & H5).
    + repeat split; eauto.
    + repeat split; eauto.
      * destruct H4 as [?|[e' He']]; [done|]. right. exists e'.
        by injection He' as ->.
      * intros Hfile Hw. by specialize (H5 Hfile Hw).
Qed.

(** C5, witness: the second call on an indexed source. *)
Lemma reuse_returns_indexed_artifact_witness :
  let r := d2vwitch (example_env failing_tool) "/media/clip.mpg" "/tmp" "/tools"
             (PyBool true) "--input-range full" "" indexed_world in
  r.1 = Ok "/tmp/indexing/media/old.d2v" ∧ spawned r.2 = [] ∧ ticks r.2 = 0%nat.
Proof.
  destruct (reuse_returns_indexed_artifact (example_env failing_tool)
              "/media/clip.mpg" "/tmp" "/tools" "" "--input-range full"
              (PyBool true) indexed_world "/tools/d2vwitch"
              "d2vlisttmpq0q0q0q0"
              (example_dumps (JDict {[ "clip.mpg" := "/tmp/indexing/media/old.d2v" ]}))
              {[ "clip.mpg" := "/tmp/indexing/media/old.d2v" ]}
              "/tmp/indexing/media/old.d2v")
    as [_ (_ & Hr & Hs & Ht & _)];
    [done|reflexivity|reflexivity|reflexivity|reflexivity|done|reflexivity
    |reflexivity|reflexivity|reflexivity|reflexivity|reflexivity|].
  cbv zeta. split; [|split]; [apply Hr; reflexivity|exact Hs|exact Ht].
Defined.

(** C6.  The new manifest is written before the old one is removed.  A
    call of [update_index_path_reference] that returns has, when the new
    manifest could be written, left the new manifest with the mapping it
    worked on and the new entry, and removed the old manifest from the files
    that hold the new one; when the write failed, the files are as that
    failure left them.  Whatever the outcome of a call, the old manifest is
    as before, or else the new manifest has been written with the new entry;
    in particular a failed write leaves the old manifest intact.  So, in a
    directory that holds one manifest, after [n] successful replacements
    (each handed the manifest its scan found, each drawing a valid name that
    differs from the names in use) exactly one manifest file exists: the one
    written last. *)
Theorem manifest_replacement_keeps_one E dir ext :
  (∀ file index_path file_index_ref old w w',
     let new := list_name ext (rand E (ticks w)) in
     update_index_path_reference E file index_path file_index_ref
       dir old ext w = (Ok tt, w') →
     match open_w_error E (fs w) (join dir new) with
     | None =>
         ∃ d, (mapping_for_update E file_index_ref dir old w).1
              = Ok (JDict d) ∧
           let f1 := <[join dir new :=
                       File (json_dumps E
                               (JDict (<[path_name file := index_path]> d)))]>
                       (fs w) in
           fs w' = if isfile f1 (join dir old) then delete (join dir old) f1
                   else f1
     | Some _ => fs w' = after_failed_write E (fs w) (join dir new)
     end)
  ∧ (∀ file index_path file_index_ref old w,
       let new := list_name ext (rand E (ticks w)) in
       let w' := (update_index_path_reference E file index_path
                    file_index_ref dir old ext w).2 in
       join dir new ≠ join dir old →
       fs w' !! join dir old = fs w !! join dir old
       ∨ (open_w_error E (fs w) (join dir new) = None
          ∧ ∃ d, d !! path_name file = Some index_path
                 ∧ fs w' !! join dir new
                   = Some (File (json_dumps E (JDict d)))))
  ∧ (∀ n w0 w m,
       manifests (fs w0) dir ext = [m] →
       Forall (λ k, valid_name (list_name ext (rand E k)) = true)
              (seq (ticks w0) n) →
       NoDup (m :: ((λ k, list_name ext (rand E k)) <$> seq (ticks w0) n)) →
       nsteps (update_step E dir ext) n w0 w →
       ticks w = (ticks w0 + n)%nat
       ∧ manifests (fs w) dir ext
         = [match n with
            | O => m
            | S k => list_name ext (rand E (ticks w0 + k))
            end]).
Proof.
  split; [|split].
  - intros file index_path file_index_ref old w w'. apply update_returned.
  - intros file index_path file_index_ref old w. cbv zeta. intros Hne.
    pose proof (update_effect E file index_path file_index_ref dir old ext w)
      as [_ Hu]. cbv zeta in Hu.
    destruct (open_w_error E (fs w) _).
    + left. destruct Hu as [->| ->]; [done|].
      apply after_failed_write_lookup_ne. congruence.
    + destruct Hu as [->|(d & Hd & [->|[_ ->]])]; [by left| |].
      * left. apply lookup_insert_ne. congruence.
      * right. split; [done|]. exists d. split; [done|].
        rewrite lookup_delete_ne by congruence. apply lookup_insert_eq.
  - intros n w0 w m. apply update_steps_manifests.
Qed.

(** C6, witness: two replacements in a row in the example directory leave
    the manifest written last. *)
Lemma manifest_replacement_keeps_one_witness :
  manifests (fs after_second_update) "/tmp" "d2v" = ["d2vlisttmp0hq7wz5m"].
Proof.
  refine (proj2 (proj2 (proj2 (manifest_replacement_keeps_one
            (example_env failing_tool) "/tmp" "d2v")) 2%nat
            one_manifest_world after_second_update "d2vlisttmpq0q0q0q0"
            _ _ _ _)).
  - vm_compute. reflexivity.
  - repeat constructor.
  - apply (bool_decide_unpack _). vm_compute. exact I.
  - eapply nsteps_l; [|eapply nsteps_l; [|apply nsteps_O]].
    + eapply (Update_step _ _ _ _ _ "/media/clip.mpg" "/tmp/a.d2v" (JDict ∅)
                "d2vlisttmpq0q0q0q0"); vm_compute; reflexivity.
    + eapply (Update_step _ _ _ _ _ "/media/clip2.mpg" "/tmp/b.d2v" (JDict ∅)
                "d2vlisttmpk3v9x_2a"); vm_compute; reflexivity.
Defined.

(** C7.  Namespaced mode, reuse enabled, the manifest maps the base name of
    the source to a path that does not exist.  Then the resolver reports
    [isIndexing] true with a fresh random artifact name and hands on the
    mapping without the stale entry, changing no file.  When the tool then
    exits with status 0 and the artifact exists, [d2vwitch] returns the new
    artifact path, and the directory holds a new manifest whose mapping sends
    the base name to the new artifact path, the old manifest being removed. *)
Theorem stale_entry_is_regenerated
    E source indexing_dir d2vwitch_dir fb opts v w ep m data d p fs2 :
  let sub := cache_subdir indexing_dir source in
  let artifact := join sub (rand E (ticks w) +:+ "." +:+ "d2v") in
  let prep := Prep true artifact m (JDict (delete (basename source) d)) ep
                   true sub in
  let new := list_name "d2v" (rand E (S (ticks w))) in
  source ≠ "" →
  isfile (fs w) source = true →
  py_in v [PyBool true; PyBool false] = true →
  py_truthy v = true →
  (get_exec_path E d2vwitch_dir "d2vwitch" fb w).1 = Ok ep →
  indexing_dir ≠ "" →
  isdir (fs w) indexing_dir = true →
  head (manifests (fs w) sub "d2v") = Some m →
  stat (fs w) (join sub m) = Some (File data) →
  json_loads E data = Some (JDict d) →
  d !! basename source = Some p →
  path_exists (fs w) p = false →
  os_system E (d2vwitch_cmd prep opts source) (fs w) = (0, fs2) →
  isfile fs2 artifact = true →
  stat fs2 (join sub m) = Some (File data) →
  valid_name new = true →
  new ≠ m →
  open_w_error E fs2 (join sub new) = None →
  may_write E (join sub m) = true →
  (∃ w1, Index_managment_prep E "d2v" "d2vwitch" source v d2vwitch_dir
           indexing_dir fb w = (Ok prep, w1)
     ∧ fs w1 = fs w ∧ spawned w1 = spawned w)
  ∧ (let r := d2vwitch E source indexing_dir d2vwitch_dir v opts fb w in
     r.1 = Ok artifact
     ∧ fs r.2 =
       delete (join sub m)
         (<[join sub new :=
            File (json_dumps E (JDict (<[basename source := artifact]> d)))]> fs2)
     ∧ spawned r.2 = spawned w ++ [d2vwitch_cmd prep opts source]).
Proof.
  rename indexing_dir into cache_dir.
  destruct w as [f l t s]. cbv zeta. cbn [fs log ticks spawned].
  set (sub := cache_subdir cache_dir source).
  set (artifact := join sub (rand E t +:+ "." +:+ "d2v")).
  set (b := basename source).
  set (new := list_name "d2v" (rand E (S t))).
  intros Hs Hf Hin Hv Hep Hi Hd Hm Hstat Hloads Hlook Hp
         Htool Hart Hstat2 Hvnew Hne Hopen Hwr.
  split.
  - destruct (constructor_stale E "d2v" "d2vwitch" source v d2vwitch_dir
                cache_dir fb f l t s ep m data d p
                Hs Hf Hin Hv Hep Hi Hd Hm Hstat Hloads Hlook Hp) as [l' ->].
    eauto.
  - rewrite (get_exec_path_result _ _ _ _ _ _ _ _
               (l ++ [(INFO, "indexing, using " +:+ "d2vwitch" +:+ " for: "
                              +:+ source)]) t s) in Hep.
    destruct (constructor_stale E "d2v" "d2vwitch" source v d2vwitch_dir
                cache_dir fb f _ t s ep m data d p
                Hs Hf Hin Hv Hep Hi Hd Hm Hstat Hloads Hlook Hp) as [l' Hprep].
    rewrite <- d2vwitch_prep_run in Hprep. fold sub artifact b in Hprep.
    rewrite (d2vwitch_after_prep _ _ _ _ _ _ _ _ _ _ Hprep).
    unfold prep_indexing_dir.
    cbn [isIndexing index_path using_reflist file_index_ref
         indexing_dir reflist_name negb fs log ticks spawned].
    cbv zeta.
    rewrite Htool. cbn [fst snd]. rewrite Hart.
    rewrite bool_decide_eq_true_2 by done. cbn [andb].
    pose proof (head_manifests_valid _ _ _ _ Hm) as (_ & Hvm & _).
    set (l2 := l' ++ _). set (s2 := s ++ _).
    assert (∃ l3, (if negb (jtruthy (JDict (delete b d)))
                   then json_load E sub m else mret (JDict (delete b d)))
                    (World fs2 l2 (S t) s2)
                  = (Ok (JDict (if negb (jtruthy (JDict (delete b d)))
                                then d else delete b d)),
                     World fs2 l3 (S t) s2)) as [l3 Hload].
    { destruct (negb (jtruthy (JDict (delete b d)))).
      - exists l2. by apply json_load_file with data.
      - by exists l2. }
    assert (join sub new ≠ join sub m) as Hjne.
    { intros ?%join_valid_inj; done. }
    set (d' := <[path_name source:=artifact]>
                 (if negb (jtruthy (JDict (delete b d))) then d else delete b d)).
    assert (stat (<[join sub new:=File (json_dumps E (JDict d'))]> fs2)
                 (join sub m) = Some (File data)) as Hstat3.
    { by rewrite stat_insert_ne. }
    assert (update_index_path_reference E source artifact (JDict (delete b d))
              sub m "d2v" (World fs2 l2 (S t) s2)
            = (Ok tt,
               World (delete (join sub m)
                        (<[join sub new:=File (json_dumps E (JDict d'))]> fs2))
                     (l3 ++ [(INFO, "reference for new indexed file updated")])
                     (S (S t)) s2)) as Hupd.
    { rewrite (update_run _ _ _ _ _ _ _ _ _ _ _ _ _ Hload).
      cbv zeta. fold new d'. rewrite Hopen.
      unfold isfile. rewrite Hstat3.
      unfold os_remove. cbn [fs log ticks spawned]. by rewrite Hstat3, Hwr. }
    munfold. rewrite Hupd. cbn [fs log ticks spawned fst snd].
    split; [done|]. split; [|done].
    unfold d'. rewrite (path_name_file _ _ Hf). fold b.
    destruct (negb (jtruthy (JDict (delete b d)))); [done|].
    by rewrite insert_delete_eq.
Qed.

(** C7, witness: the manifest after re-indexing a source whose artifact was
    deleted. *)
Lemma stale_entry_is_regenerated_witness :
  let r := d2vwitch stale_tool_env "/media/clip.mpg" "/tmp" "/tools"
             (PyBool true) "--input-range limited" "" stale_world in
  r.1 = Ok "/tmp/indexing/media/tmpk3v9x_2a.d2v"
  ∧ ∃ data, fs r.2 !! "/tmp/indexing/media/d2vlisttmp0hq7wz5m" = Some (File data)
      ∧ json_loads stale_tool_env data
        = Some (JDict {[ "clip.mpg" := "/tmp/indexing/media/tmpk3v9x_2a.d2v" ]}).
Proof.
  destruct (stale_entry_is_regenerated stale_tool_env
              "/media/clip.mpg" "/tmp" "/tools" "" "--input-range limited"
              (PyBool true) stale_world "/tools/d2vwitch"
              "d2vlisttmpq0q0q0q0"
              (example_dumps (JDict {[ "clip.mpg" := "/tmp/indexing/media/old.d2v" ]}))
              {[ "clip.mpg" := "/tmp/indexing/media/old.d2v" ]}
              "/tmp/indexing/media/old.d2v"
              (<["/tmp/indexing/media/tmpk3v9x_2a.d2v" := File d2v_limited]> stale_fs))
    as [_ (Hr & Hfs & _)];
    [done|reflexivity|reflexivity|reflexivity|reflexivity|done|reflexivity
    |reflexivity|reflexivity|reflexivity|reflexivity|reflexivity
    |reflexivity|reflexivity|reflexivity|reflexivity|done|reflexivity
    |reflexivity|].
  cbv zeta. split; [exact Hr|].
  rewrite Hfs. eexists. split; vm_compute; reflexivity.
Defined.

(** C8.  When indexing runs and the tool exits with a status other than 0,
    or the artifact file is missing afterwards, [d2vwitch] and [ffmsindex]
    return the empty string without raising, and the last log record is the
    indexing error.  [run_process] returns [True] exactly when the exit
    status is 0. *)
Theorem indexing_failure_returns_empty_path E :
  (∀ source indexing_dir d2vwitch_dir v opts fb w p w1,
     d2vwitch_prep E source indexing_dir d2vwitch_dir v fb w = (Ok p, w1) →
     isIndexing p = true →
     let cmd := d2vwitch_cmd p opts source in
     (os_system E cmd (fs w1)).1 ≠ 0
     ∨ isfile (os_system E cmd (fs w1)).2 (index_path p) = false →
     d2vwitch E source indexing_dir d2vwitch_dir v opts fb w =
     (Ok "", World (os_system E cmd (fs w1)).2
               (log w1 ++ [(INFO, "d2vwitch command line:" +:+ String newline cmd);
                           (ERROR, "ERROR while indexing with d2vwitch")])
               (ticks w1) (spawned w1 ++ [cmd])))
  ∧ (∀ source indexing_dir ffmsindex_dir v fb w p w1,
       ffmsindex_prep E source indexing_dir ffmsindex_dir v fb w = (Ok p, w1) →
       isIndexing p = true →
       let cmd := ffmsindex_cmd p source in
       (os_system E cmd (fs w1)).1 ≠ 0
       ∨ isfile (os_system E cmd (fs w1)).2 (index_path p) = false →
       ffmsindex E source indexing_dir ffmsindex_dir v fb w =
       (Ok "", World (os_system E cmd (fs w1)).2
                 (log w1 ++ [(INFO, "ffmsindex command line:" +:+ String newline cmd);
                             (ERROR, "ERROR while indexing with ffmsindex")])
                 (ticks w1) (spawned w1 ++ [cmd])))
  ∧ ∀ cmd w0,
      run_process E cmd w0 =
      (Ok (bool_decide ((os_system E cmd (fs w0)).1 = 0)),
       World (os_system E cmd (fs w0)).2 (log w0) (ticks w0)
             (spawned w0 ++ [cmd])).
Proof.
  split; [|split].
  - intros source idir tdir v opts fb w p w1 Hp Hip cmd Hfail.
    rewrite (d2vwitch_after_prep _ _ _ _ _ _ _ _ _ _ Hp), Hip. cbn [negb].
    cbv zeta. cbn [fs log ticks spawned]. fold cmd.
    assert (bool_decide ((os_system E cmd (fs w1)).1 = 0)
            && isfile (os_system E cmd (fs w1)).2 (index_path p) = false) as ->.
    { destruct Hfail as [Hc| ->]; [|apply andb_false_r].
      by rewrite bool_decide_eq_false_2. }
    by rewrite <- app_assoc.
  - intros source idir tdir v fb w p w1 Hp Hip cmd Hfail.
    rewrite (ffmsindex_after_prep _ _ _ _ _ _ _ _ _ Hp), Hip. cbn [negb].
    cbv zeta. cbn [fs log ticks spawned]. fold cmd.
    assert (bool_decide ((os_system E cmd (fs w1)).1 = 0)
            && isfile (os_system E cmd (fs w1)).2 (index_path p) = false) as ->.
    { destruct Hfail as [Hc| ->]; [|apply andb_false_r].
      by rewrite bool_decide_eq_false_2. }
    by rewrite <- app_assoc.
  - intros cmd [f l t s]. apply run_process_run.
Qed.

(** C8, witness: both orchestrators with a tool that fails. *)
Lemma indexing_failure_returns_empty_path_witness :
  (d2vwitch (example_env failing_tool) "/media/clip.mpg" "/tmp" "/tools"
     (PyBool true) "--input-range limited" "" example_world).1 = Ok ""
  ∧ (ffmsindex (example_env failing_tool) "/media/clip.mpg" "/tmp" "/tools"
       (PyBool true) "" example_world).1 = Ok "".
Proof.
  pose (E := example_env failing_tool).
  pose (rd := d2vwitch_prep E "/media/clip.mpg" "/tmp" "/tools" (PyBool true) ""
                example_world).
  pose (rf := ffmsindex_prep E "/media/clip.mpg" "/tmp" "/tools" (PyBool true) ""
                example_world).
  pose (p := Prep true new_d2v "d2vlisttmpk3v9x_2a" placeholder "/tools/d2vwitch"
                  true "/tmp/indexing/media").
  pose (q := Prep true "/tmp/indexing/media/tmp0hq7wz5m.ffindex"
                  "ffindexlisttmpk3v9x_2a" placeholder "/tools/ffmsindex"
                  true "/tmp/indexing/media").
  destruct (indexing_failure_returns_empty_path E) as (Hd & Hf & _).
  split.
  - refine (f_equal fst (Hd "/media/clip.mpg" "/tmp" "/tools" (PyBool true)
              "--input-range limited" "" example_world p rd.2 _ _ _)).
    + vm_compute. reflexivity.
    + reflexivity.
    + left. vm_compute. discriminate.
  - refine (f_equal fst (Hf "/media/clip.mpg" "/tmp" "/tools" (PyBool true)
              "" example_world q rf.2 _ _ _)).
    + vm_compute. reflexivity.
    + reflexivity.
    + left. vm_compute. discriminate.
Defined.

(** C9.  In namespaced mode, whatever admissible value [re_use_indexing]
    has, a constructor whose checks pass creates a manifest file in the cache
    subdirectory when that holds none: the file did not exist before, it
    holds the placeholder mapping afterwards, and no command was spawned. *)
Theorem constructor_creates_manifest
    E index_ext exec_name source v exec_dir indexing_dir fb w ep f1 err :
  let sub := cache_subdir indexing_dir source in
  let new := list_name index_ext (rand E (ticks w)) in
  source ≠ "" →
  isfile (fs w) source = true →
  py_in v [PyBool true; PyBool false] = true →
  (get_exec_path E exec_dir exec_name fb w).1 = Ok ep →
  indexing_dir ≠ "" →
  isdir (fs w) indexing_dir = true →
  makedirs sub (fs w) = (f1, err) →
  err = None ∨ err = Some FileExistsError →
  isdir f1 sub = true →
  manifests f1 sub index_ext = [] →
  valid_name new = true →
  open_w_error E f1 (join sub new) = None →
  ∃ p w', Index_managment_prep E index_ext exec_name source v exec_dir
            indexing_dir fb w = (Ok p, w')
    ∧ reflist_name p = new
    ∧ using_reflist p = true
    ∧ fs w' = <[join sub new := File (json_dumps E placeholder)]> f1
    ∧ isfile (fs w) (join sub new) = false
    ∧ new ∈ manifests (fs w') sub index_ext
    ∧ spawned w' = spawned w.
Proof.
  destruct w as [f l t s]. cbv zeta. cbn [fs log ticks spawned].
  set (sub := cache_subdir indexing_dir source).
  set (new := list_name index_ext (rand E t)).
  intros Hs Hf Hin Hep Hi Hd Hmk Herr Hsub Hm Hvalid Hopen.
  destruct (constructor_namespaced E index_ext exec_name source v exec_dir
              indexing_dir fb f l t s ep f1 err Hs Hf Hin Hep Hi Hd Hmk)
    as [l1 ->].
  cbv zeta. fold sub.
  pose proof (get_reflist_name_absent E sub index_ext f1 l1 t s Hsub Hm) as Hget.
  cbv zeta in Hget. fold new in Hget. rewrite Hopen in Hget.
  destruct (resolver_after_reflist E source index_ext sub v _ _ _ Hget)
    as (a & b & d & w' & -> & Hfs & Hsp).
  cbn [fs spawned] in Hfs, Hsp.
  exists (Prep a b new d ep true sub), w'.
  split; [by destruct Herr as [-> | ->]|].
  split; [done|]. split; [done|]. split; [done|].
  split; [|split; [|done]].
  - destruct (isfile f (join sub new)) eqn:Hfile; [|done]. exfalso.
    assert (new ∈ manifests f1 sub index_ext) as Hin';
      [|rewrite Hm in Hin'; by apply elem_of_nil in Hin'].
    apply manifests_elem. split; [done|]. split; [done|].
    split; [|apply list_name_prefix].
    replace f1 with (makedirs sub f).1 by by rewrite Hmk.
    by rewrite makedirs_isfile.
  - rewrite Hfs. apply manifests_elem. split.
    + unfold isdir in *. rewrite stat_insert_ne; [done|].
      by apply join_valid_ne_dir.
    + split; [done|]. split; [by apply isfile_insert_valid|].
      apply list_name_prefix.
Qed.

(** C9, witness: the constructor with [re_use_indexing=False] on a fresh
    cache directory. *)
Lemma constructor_creates_manifest_witness :
  ∃ p w', Index_managment_prep (example_env failing_tool) "d2v" "d2vwitch"
            "/media/clip.mpg" (PyBool false) "/tools" "/tmp" "" example_world
          = (Ok p, w')
    ∧ reflist_name p = "d2vlisttmpk3v9x_2a"
    ∧ isfile (fs example_world) "/tmp/indexing/media/d2vlisttmpk3v9x_2a" = false
    ∧ "d2vlisttmpk3v9x_2a" ∈ manifests (fs w') "/tmp/indexing/media" "d2v".
Proof.
  destruct (constructor_creates_manifest (example_env failing_tool) "d2v"
              "d2vwitch" "/media/clip.mpg" (PyBool false) "/tools" "/tmp" ""
              example_world "/tools/d2vwitch"
              (makedirs "/tmp/indexing/media" example_fs).1 None)
    as (p & w' & Hrun & Hname & _ & _ & Hbefore & Hafter & _);
    [done|reflexivity|reflexivity|reflexivity|done|reflexivity|reflexivity
    |by left|reflexivity|reflexivity|reflexivity|reflexivity|].
  exists p, w'. split; [exact Hrun|]. split; [exact Hname|].
  split; [exact Hbefore|exact Hafter].
Defined.

(** C10.  When the first line the text layer delivers from the artifact is
    the marker line, the accumulated offset is 0 and
    [correct_byte_for_range] neither reads the flag nor writes, for every
    desired range: the world after the call is the world before, so the file
    is identical byte for byte and nothing is logged, and the call returns
    normally when the file can be opened. *)
Theorem marker_on_first_line_untouched
    E d2v_path input_range w data chars failed first rest :
  stat (fs w) d2v_path = Some (File data) →
  read_text E data 0 = (chars, failed) →
  delivered chars failed = first :: rest →
  text_startswith (strip first) marker = true →
  (correct_byte_for_range E d2v_path input_range w).2 = w
  ∧ (may_write E d2v_path = true →
     correct_byte_for_range E d2v_path input_range w = (Ok tt, w)).
Proof.
  intros Hstat Hread Hlines Hmark.
  unfold correct_byte_for_range, open_update. munfold.
  rewrite Hstat. destruct (may_write E d2v_path); [|done].
  rewrite Hread, Hlines. cbn [scan_marker]. rewrite Hmark.
  cbn [negb andb]. rewrite bool_decide_eq_true_2 by done. cbn [negb].
  by destruct w.
Qed.

(** C10, witness: an artifact that starts with the marker line. *)
Lemma marker_on_first_line_untouched_witness :
  correct_byte_for_range (example_env failing_tool) "/tmp/a.d2v" "full"
    marker_first_world = (Ok tt, marker_first_world).
Proof.
  refine (proj2 (marker_on_first_line_untouched (example_env failing_tool)
            "/tmp/a.d2v" "full" marker_first_world marker_first
            (codes marker_first) false
            (codes ("YUVRGB_Scale=1" +:+ String newline EmptyString))
            [codes ("Frame_Rate=25000 (25/1)" +:+ String newline EmptyString)]
            _ _ _ _) _); vm_compute; reflexivity.
Defined.

(** * Further properties

    Properties of the same functions, and of [get_num], [only_same_pattern],
    [eval_settings] and [validate_sources], read off the code. *)

(** ** What the resolver leaves alone *)


Lemma get_reflist_name_raises E dir ext w e w' :
  get_reflist_name E dir ext w = (Raise e, w') →
  ∃ k, e = OSError k dir.
Proof.
  destruct w as [f l t s]. unfold get_reflist_name. munfold. simpl.
  destruct (listdir f dir) as [k|names]; simpl; [intros [= <- <-]; eauto|].
  case_bool_decide; [|done].
  unfold random_name, json_dump, write_file. munfold. simpl.
  destruct (open_error E f _); simpl; [done|].
  destruct (write_fault E f _); simpl; done.
Qed.

Lemma resolver_raises E source ext dir v w e w' :
  get_index_path_using_reflist E source ext dir v w = (Raise e, w') →
  ∃ k, e = OSError k dir.
Proof.
  intros Hrun.
  destruct (get_reflist_name E dir ext w) as [[m|e0] w1] eqn:Hm.
  - destruct (resolver_after_reflist E source ext dir v w m w1 Hm)
      as (a & b & d & w2 & Heq & _). congruence.
  - unfold get_index_path_using_reflist in Hrun.
    unfold mbind at 1 in Hrun. unfold M_bind at 1 in Hrun.
    rewrite Hm in Hrun. injection Hrun as <- <-.
    by apply get_reflist_name_raises in Hm.
Qed.

Lemma get_index_path_run file ext dir v f l t s :
  ∃ l', get_index_path file ext dir v (World f l t s) =
        (Ok (negb (py_truthy v
                   && isfile f (join dir ((splitext (basename file)).1
                                          +:+ "." +:+ ext))),
             join dir ((splitext (basename file)).1 +:+ "." +:+ ext)),
         World f l' t s).
Proof.
  unfold get_index_path. munfold. simpl.
  destruct (py_truthy v); simpl; [|eauto].
  destruct (isfile f _); simpl; eauto.
Qed.

Lemma get_reflist_name_spawned E dir ext w r w' :
  get_reflist_name E dir ext w = (r, w') → spawned w' = spawned w.
Proof.
  destruct w as [f l t s]. unfold get_reflist_name. munfold. simpl.
  destruct (listdir f dir) as [k|names]; simpl; [by intros [= <- <-]|].
  case_bool_decide; [|by intros [= <- <-]].
  unfold random_name, json_dump, write_file. munfold. simpl.
  destruct (open_error E f _); simpl; [by intros [= <- <-]|].
  destruct (write_fault E f _); simpl; by intros [= <- <-].
Qed.

Lemma resolver_spawned E source ext dir v w r w' :
  get_index_path_using_reflist E source ext dir v w = (r, w') →
  spawned w' = spawned w.
Proof.
  intros Hrun.
  destruct (get_reflist_name E dir ext w) as [[m|e0] w1] eqn:Hm.
  - destruct (resolver_after_reflist E source ext dir v w m w1 Hm)
      as (a & b & d & w2 & Heq & _ & Hs).
    apply get_reflist_name_spawned in Hm. congruence.
  - unfold get_index_path_using_reflist in Hrun.
    unfold mbind at 1 in Hrun. unfold M_bind at 1 in Hrun.
    rewrite Hm in Hrun. injection Hrun as <- <-.
    by apply get_reflist_name_spawned in Hm.
Qed.

Lemma constructor_spawned
    E index_ext exec_name source v exec_dir indexing_dir fb w :
  spawned (Index_managment_prep E index_ext exec_name source v exec_dir
             indexing_dir fb w).2 = spawned w.
Proof.
  destruct w as [f l t s].
  unfold Index_managment_prep. munfold. cbn [fs log ticks spawned].
  case_bool_decide; [done|].
  destruct (isfile f source); cbn [negb]; [|done].
  destruct (py_in v _); cbn [negb]; [|done].
  destruct (get_exec_path E exec_dir exec_name fb (World f l t s))
    as [[ep|e0] w1] eqn:Hep;
    destruct (get_exec_path_world _ _ _ _ _ _ _ _ _ _ Hep) as [l1 ->];
    [|done].
  case_bool_decide; cbn [negb].
  - destruct (get_index_path_run source index_ext (dirname source) v f l1 t s)
      as [l2 ->]. done.
  - destruct (isdir f indexing_dir); cbn [negb]; [|done].
    destruct (makedirs _ f) as [f1 err]. cbn [fs log ticks spawned].
    destruct err as [[]|]; cbn [fs log ticks spawned];
      match goal with
      | |- context [get_index_path_using_reflist ?E ?s ?x ?d ?v ?w] =>
          destruct (get_index_path_using_reflist E s x d v w)
            as [[[[[a b] c] d0]|e1] w2] eqn:Hres
      end; apply resolver_spawned in Hres; done.
Qed.

Lemma constructor_colocated E index_ext exec_name source v exec_dir fb w :
  let r := Index_managment_prep E index_ext exec_name source v exec_dir "" fb w in
  fs r.2 = fs w ∧ ticks r.2 = ticks w
  ∧ ∀ p, r.1 = Ok p → using_reflist p = false.
Proof.
  destruct w as [f l t s]. cbv zeta.
  unfold Index_managment_prep. munfold. cbn [fs log ticks spawned].
  case_bool_decide; [done|].
  destruct (isfile f source); cbn [negb]; [|done].
  destruct (py_in v _); cbn [negb]; [|done].
  destruct (get_exec_path E exec_dir exec_name fb (World f l t s))
    as [[ep|e0] w1] eqn:Hep;
    destruct (get_exec_path_world _ _ _ _ _ _ _ _ _ _ Hep) as [l1 ->];
    [|done].
  rewrite bool_decide_eq_true_2 by done. cbn [negb].
  destruct (get_index_path_run source index_ext (dirname source) v f l1 t s)
    as [l2 ->]. cbn. repeat split; try done. by intros p [= <-].
Qed.

(** X1.  When [Index_managment_prep] raises anything but an operating-system
    error (a rejected argument, a tool that cannot be found), it has changed
    no file, drawn no temporary name and run no command. *)
Theorem constructor_precondition_failure_changes_nothing
    E index_ext exec_name source v exec_dir indexing_dir fb w e w' :
  Index_managment_prep E index_ext exec_name source v exec_dir indexing_dir fb w
  = (Raise e, w') →
  (∀ k p, e ≠ OSError k p) →
  fs w' = fs w ∧ ticks w' = ticks w ∧ spawned w' = spawned w.
Proof.
  destruct w as [f l t s]. intros Hrun Hnos.
  unfold Index_managment_prep in Hrun. munfold. cbn [fs log ticks spawned] in Hrun.
  case_bool_decide; [by simplify_eq|].
  destruct (isfile f source); cbn [negb] in Hrun; [|by simplify_eq].
  destruct (py_in v _); cbn [negb] in Hrun; [|by simplify_eq].
  destruct (get_exec_path E exec_dir exec_name fb (World f l t s))
    as [[ep|e0] w1] eqn:Hep;
    destruct (get_exec_path_world _ _ _ _ _ _ _ _ _ _ Hep) as [l1 ->];
    [|by simplify_eq].
  case_bool_decide; cbn [negb] in Hrun.
  - destruct (get_index_path_run source index_ext (dirname source) v f l1 t s)
      as [l2 Hgip]. rewrite Hgip in Hrun. done.
  - destruct (isdir f indexing_dir); cbn [negb] in Hrun; [|by simplify_eq].
    destruct (makedirs _ f) as [f1 err]. cbn [fs log ticks spawned] in Hrun.
    exfalso.
    destruct err as [[]|]; cbn [fs log ticks spawned] in Hrun;
      match type of Hrun with
      | context [get_index_path_using_reflist ?E ?s ?x ?d ?v ?w] =>
          destruct (get_index_path_using_reflist E s x d v w)
            as [[[[[a b] c] d0]|e1] w2] eqn:Hres
      end; simplify_eq;
      try (apply resolver_raises in Hres as [k ->]); by eapply Hnos.
Qed.

(** X1, witness: a cache directory that does not exist. *)
Lemma constructor_precondition_failure_changes_nothing_witness :
  fs (Index_managment_prep (example_env failing_tool) "d2v" "d2vwitch"
        "/media/clip.mpg" (PyBool true) "/tools" "/nowhere" "" example_world).2
  = fs example_world.
Proof.
  refine (proj1 (constructor_precondition_failure_changes_nothing
            (example_env failing_tool) "d2v" "d2vwitch" "/media/clip.mpg"
            (PyBool true) "/tools" "/nowhere" "" example_world
            (ValueError (invalid_directory_msg "d2vwitch" "/nowhere")) _ _ _)).
  - vm_compute. reflexivity.
  - discriminate.
Defined.

(** ** Locating the tool *)

(** X2.  For a source that is a file and a valid reuse policy: when no tool
    directory is given, the search path yields no regular file and the
    fallback directory is empty or no directory, the constructor raises
    [ExecutableNotInPATHError] naming the tool, before it looks at the cache
    directory, and the world is untouched. *)
Theorem tool_not_found_raises_first
    E index_ext exec_name source v indexing_dir fb w :
  source ≠ "" →
  isfile (fs w) source = true →
  py_in v [PyBool true; PyBool false] = true →
  match which E (fs w) exec_name with
  | Some p => p = "" ∨ isfile (fs w) p = false
  | None => True
  end →
  fb = "" ∨ isdir (fs w) fb = false →
  Index_managment_prep E index_ext exec_name source v "" indexing_dir fb w
  = (Raise (ExecutableNotInPATHError (not_in_path_msg exec_name) exec_name), w).
Proof.
  intros Hs Hf Hv Hw Hfb. destruct w as [f l t s].
  unfold Index_managment_prep. munfold. cbn [fs log ticks spawned] in *.
  rewrite (bool_decide_eq_false_2 _ Hs), Hf, Hv. cbn [negb].
  unfold get_exec_path. munfold. cbn [fs log ticks spawned].
  rewrite bool_decide_eq_true_2 by done.
  assert (negb (bool_decide (default "" (which E f exec_name) = ""))
          && isfile f (default "" (which E f exec_name)) = false) as ->.
  { destruct (which E f exec_name) as [p|]; simpl; [|done].
    destruct Hw as [-> | ->]; [done|apply andb_false_r]. }
  assert (negb (bool_decide (fb = "")) && isdir f fb = false) as ->.
  { destruct Hfb as [-> | ->]; [done|apply andb_false_r]. }
  done.
Qed.

(** X2, witness: no tool directory on a machine whose search path lacks the
    tool. *)
Lemma tool_not_found_raises_first_witness :
  Index_managment_prep (example_env failing_tool) "d2v" "d2vwitch"
    "/media/clip.mpg" (PyBool true) "" "/tmp" "" example_world
  = (Raise (ExecutableNotInPATHError (not_in_path_msg "d2vwitch") "d2vwitch"),
     example_world).
Proof.
  apply tool_not_found_raises_first;
    [done|reflexivity|reflexivity|exact I|by left].
Defined.

(** X3.  A path returned by [get_exec_path] names a regular file; it is the
    tool name, or the tool name followed by [.exe], in the given directory,
    or, when no directory was given, in the fallback directory, or what the
    search path found (with [.exe] added in the case that it is no file).
    The call changes no file. *)
Theorem get_exec_path_returns_existing_file
    E exec_dir exec_name fb w p w' :
  get_exec_path E exec_dir exec_name fb w = (Ok p, w') →
  isfile (fs w) p = true ∧ fs w' = fs w
  ∧ (p = join exec_dir exec_name ∨ p = join exec_dir exec_name +:+ ".exe"
     ∨ (exec_dir = "" ∧ (p = join fb exec_name
                         ∨ p = join fb exec_name +:+ ".exe"
                         ∨ ∃ q, which E (fs w) exec_name = Some q
                                ∧ (p = q ∨ p = q +:+ ".exe")))).
Proof.
  destruct w as [f l t s]. unfold get_exec_path. munfold.
  cbn [fs log ticks spawned]. intros Hrun.
  destruct (which E f exec_name) as [q|] eqn:Hq; cbn [default] in *;
  repeat (case_match; simplify_eq/=);
    repeat match goal with
           | H : negb _ = false |- _ => apply negb_false_iff in H
           | H : negb _ = true |- _ => apply negb_true_iff in H
           | H : _ && _ = true |- _ => apply andb_true_iff in H as [? ?]
           | H : bool_decide _ = true |- _ => apply bool_decide_eq_true in H
           | H : bool_decide _ = false |- _ => apply bool_decide_eq_false in H
           | H : _ && _ = false |- _ => apply andb_false_iff in H as [?|?]
           end; subst; try done; try congruence;
    (split; [done|]); (split; [done|]); eauto 15.
Qed.

(** X3, witness: the tool in the given directory. *)
Lemma get_exec_path_returns_existing_file_witness :
  isfile (fs example_world) "/tools/d2vwitch" = true.
Proof.
  refine (proj1 (get_exec_path_returns_existing_file (example_env failing_tool)
            "/tools" "d2vwitch" "" example_world "/tools/d2vwitch"
            example_world _)).
  vm_compute. reflexivity.
Defined.

(** X4.  With a tool directory given, [get_exec_path] consults neither the
    search path nor the fallback directory and logs nothing: the call is the
    same for every environment and fallback, and leaves the world as it
    was.  It raises [ValueError] when the directory is none, and returns the
    [.exe] name when only that file exists. *)
Theorem explicit_tool_directory_decides_alone
    E E' exec_dir exec_name fb fb' w :
  exec_dir ≠ "" →
  get_exec_path E exec_dir exec_name fb w
  = get_exec_path E' exec_dir exec_name fb' w
  ∧ (get_exec_path E exec_dir exec_name fb w).2 = w
  ∧ (isdir (fs w) exec_dir = false →
     (get_exec_path E exec_dir exec_name fb w).1
     = Raise (ValueError (not_a_directory_msg exec_name exec_dir)))
  ∧ (isdir (fs w) exec_dir = true →
     isfile (fs w) (join exec_dir exec_name) = false →
     isfile (fs w) (join exec_dir exec_name +:+ ".exe") = true →
     (get_exec_path E exec_dir exec_name fb w).1
     = Ok (join exec_dir exec_name +:+ ".exe")).
Proof.
  intros Hd. destruct w as [f l t s]. unfold get_exec_path. munfold.
  cbn [fs log ticks spawned]. rewrite (bool_decide_eq_false_2 _ Hd).
  cbn [fst snd]. rewrite bool_decide_eq_true_2 by done.
  split; [done|]. split.
  - repeat case_match; done.
  - split.
    + by intros ->.
    + by intros -> -> ->.
Qed.

(** X4, witness: two environments and two fallback directories. *)
Lemma explicit_tool_directory_decides_alone_witness :
  get_exec_path (example_env failing_tool) "/tools" "d2vwitch" "" path_world
  = get_exec_path (example_env (writing_tool "/x" "y")) "/tools" "d2vwitch"
      "/tmp" path_world.
Proof.
  refine (proj1 (explicit_tool_directory_decides_alone _ _ "/tools" "d2vwitch"
            "" "/tmp" path_world _)).
  discriminate.
Defined.

(** ** Co-located mode *)


Lemma contains_app a b c :
  contains (a +:+ b) c = contains a c || contains b c.
Proof.
  induction a as [|x a IH]; [done|].
  change (String x a +:+ b) with (String x (a +:+ b)).
  cbn [contains]. rewrite IH. by rewrite orb_assoc.
Qed.

Lemma basename_app d n :
  contains n slash = false → basename (d +:+ "/" +:+ n) = n.
Proof.
  intros Hn. induction d as [|x d IH].
  - change ("" +:+ "/" +:+ n) with (String slash n). cbn [basename].
    rewrite Hn. by rewrite bool_decide_eq_true_2.
  - change (String x d +:+ "/" +:+ n) with (String x (d +:+ "/" +:+ n)).
    cbn [basename]. rewrite contains_app.
    change (contains ("/" +:+ n) slash) with (true || contains n slash).
    by rewrite orb_true_r.
Qed.

Lemma head_raw_app d n :
  contains n slash = false → head_raw (d +:+ "/" +:+ n) = d +:+ "/".
Proof.
  intros Hn. induction d as [|x d IH].
  - change ("" +:+ "/" +:+ n) with (String slash n). cbn [head_raw].
    rewrite Hn. by rewrite bool_decide_eq_true_2.
  - change (String x d +:+ "/" +:+ n) with (String x (d +:+ "/" +:+ n)).
    cbn [head_raw]. rewrite contains_app.
    change (contains ("/" +:+ n) slash) with (true || contains n slash).
    rewrite orb_true_r. by rewrite IH.
Qed.

Lemma rstrip_slash_app_slash d :
  d ≠ "" → endswith_char d slash = false → rstrip_slash (d +:+ "/") = d.
Proof.
  intros Hne Hd. induction d as [|x d IH]; [done|].
  change (String x d +:+ "/") with (String x (d +:+ "/")).
  rewrite rstrip_slash_cons. destruct d as [|y d].
  - simpl in Hd. change ("" +:+ "/") with "/". cbn.
    by rewrite Hd.
  - rewrite IH; [done|done|]. done.
Qed.

Lemma dirname_app d n :
  d ≠ "" → endswith_char d slash = false → contains n slash = false →
  dirname (d +:+ "/" +:+ n) = d.
Proof.
  intros Hne Hd Hn. unfold dirname. rewrite head_raw_app by done.
  rewrite rstrip_slash_app_slash by done. by destruct d.
Qed.

Lemma dir_prefix_plain d :
  d ≠ "" → endswith_char d slash = false → dir_prefix d = d +:+ "/".
Proof.
  intros Hne Hd. unfold dir_prefix.
  by rewrite (bool_decide_eq_false_2 _ Hne), Hd.
Qed.

Lemma rsplit_dot_app stem e :
  contains e dot = false →
  rsplit_dot (stem +:+ "." +:+ e) = Some (stem, "." +:+ e).
Proof.
  intros He.
  assert (rsplit_dot e = None) as Hnone.
  { induction e as [|x e IH]; [done|]. cbn [contains] in He.
    apply orb_false_iff in He as [Hx He]. cbn [rsplit_dot].
    rewrite (IH He). by rewrite Hx. }
  induction stem as [|x stem IH].
  - change ("" +:+ "." +:+ e) with (String dot e). cbn [rsplit_dot].
    rewrite Hnone. by rewrite bool_decide_eq_true_2.
  - change (String x stem +:+ "." +:+ e) with (String x (stem +:+ "." +:+ e)).
    cbn [rsplit_dot]. by rewrite IH.
Qed.

Lemma splitext_app stem e :
  all_dots stem = false → contains e dot = false →
  splitext (stem +:+ "." +:+ e) = (stem, "." +:+ e).
Proof.
  intros Hs He. unfold splitext. rewrite rsplit_dot_app by done. by rewrite Hs.
Qed.

(** X5.  Without a cache directory the artifact of the source
    [d/stem.e] is [d/stem.index_ext], next to the source, whatever the cache
    holds: the constructor returns it with no manifest, and reports indexing
    unless reuse is enabled and that file exists.  No file changes, no
    temporary name is drawn, no command is run. *)
Theorem colocated_path_is_deterministic
    E index_ext exec_name v exec_dir fb w ep d stem e :
  let source := d +:+ "/" +:+ stem +:+ "." +:+ e in
  let path := d +:+ "/" +:+ stem +:+ "." +:+ index_ext in
  d ≠ "" →
  endswith_char d slash = false →
  contains stem slash = false →
  all_dots stem = false →
  contains e slash = false →
  contains e dot = false →
  isfile (fs w) source = true →
  py_in v [PyBool true; PyBool false] = true →
  (get_exec_path E exec_dir exec_name fb w).1 = Ok ep →
  ∃ w', Index_managment_prep E index_ext exec_name source v exec_dir "" fb w
        = (Ok (Prep (negb (py_truthy v && isfile (fs w) path)) path ""
                    (JDict ∅) ep false d), w')
    ∧ fs w' = fs w ∧ ticks w' = ticks w ∧ spawned w' = spawned w.
Proof.
  intros source path Hd Hds Hstem Hdots He Hed Hf Hv Hep.
  destruct w as [f l t s]. cbn [fs log ticks spawned] in *.
  destruct (get_exec_path E exec_dir exec_name fb (World f l t s))
    as [r w1] eqn:Hrun. cbn [fst] in Hep. subst r.
  destruct (get_exec_path_world _ _ _ _ _ _ _ _ _ _ Hrun) as [l1 ->].
  assert (contains (stem +:+ "." +:+ e) slash = false) as Hname.
  { rewrite contains_app, Hstem. change (contains ("." +:+ e) slash)
      with (false || contains e slash). by rewrite He. }
  assert (source ≠ "") as Hs.
  { unfold source. intros [-> _]%app_empty_inv. done. }
  assert (dirname source = d) as Hdir by by apply dirname_app.
  assert (basename source = stem +:+ "." +:+ e) as Hbase by by apply basename_app.
  assert (join d (stem +:+ "." +:+ index_ext) = path) as Hjoin.
  { unfold join, path. rewrite dir_prefix_plain by done.
    assert (startswith (stem +:+ "." +:+ index_ext) "/" = false) as ->.
    { destruct stem as [|x stem]; [done|]. cbn [contains] in Hstem.
      apply orb_false_iff in Hstem as [Hx _].
      change (startswith (String x (stem +:+ "." +:+ index_ext)) "/")
        with (bool_decide (slash = x) && true).
      apply andb_false_iff. left. apply bool_decide_eq_false.
      apply bool_decide_eq_false in Hx. naive_solver. }
    by rewrite app_assoc_str. }
  unfold Index_managment_prep. munfold. cbn [fs log ticks spawned].
  rewrite (bool_decide_eq_false_2 _ Hs), Hf, Hv. cbn [negb].
  rewrite Hrun. rewrite bool_decide_eq_true_2 by done. cbn [negb].
  destruct (get_index_path_run source index_ext (dirname source) v f l1 t s)
    as [l2 ->].
  rewrite Hdir, Hbase, splitext_app by done. cbn [fst]. rewrite Hjoin.
  eauto.
Qed.

(** X5, witness: the artifact of [/media/clip.mpg]. *)
Lemma colocated_path_is_deterministic_witness :
  ∃ w', Index_managment_prep (example_env failing_tool) "d2v" "d2vwitch"
          "/media/clip.mpg" (PyBool false) "/tools" "" "" example_world
        = (Ok (Prep true "/media/clip.d2v" "" (JDict ∅) "/tools/d2vwitch"
                    false "/media"), w')
    ∧ fs w' = fs example_world.
Proof.
  destruct (colocated_path_is_deterministic (example_env failing_tool) "d2v"
              "d2vwitch" (PyBool false) "/tools" "" example_world
              "/tools/d2vwitch" "/media" "clip" "mpg")
    as (w' & Hrun & Hfs & _);
    [done|reflexivity|reflexivity|reflexivity|reflexivity|reflexivity
    |reflexivity|reflexivity|reflexivity|].
  exists w'. split; [exact Hrun|exact Hfs].
Defined.

(** ** The manifest store *)

(** X6.  [json_load] never raises and changes no file: it returns what the
    codec reads from the file and logs nothing, or returns the empty
    dictionary and logs one error when the file is missing, is a directory,
    or does not parse. *)
Theorem json_load_never_raises E storage filename w :
  ∃ v l', json_load E storage filename w
          = (Ok v, World (fs w) (log w ++ l') (ticks w) (spawned w))
    ∧ match stat (fs w) (join storage filename) with
      | Some (File data) =>
          match json_loads E data with
          | Some template => v = template ∧ l' = []
          | None => v = JDict ∅ ∧ l' = [(ERROR, "JSONDecodeError")]
          end
      | Some Dir =>
          v = JDict ∅
          ∧ l' = [(ERROR, str_exn (OSError IsADirectoryError
                                     (join storage filename)))]
      | None =>
          v = JDict ∅
          ∧ l' = [(ERROR, str_exn (OSError FileNotFoundError
                                     (join storage filename)))]
      end.
Proof.
  destruct w as [f l t s]. unfold json_load, open_read. munfold.
  cbn [fs log ticks spawned].
  destruct (stat f (join storage filename)) as [[|data]|];
    [| destruct (json_loads E data) |]; cbn;
    eexists _, _; (split; [|done]); by rewrite ?app_nil_r.
Qed.

Lemma stat_written E f path data :
  open_w_error E f path = None →
  stat (<[path := File data]> f) path = Some (File data).
Proof.
  intros [Ho _]%open_w_error_None. revert Ho.
  unfold open_error, stat. case_bool_decide; [done|].
  destruct (endswith_char path slash); [done|]. intros _.
  by rewrite lookup_insert_eq.
Qed.

(** X7.  What [json_dump] stores, [json_load] returns: when the codec reads
    back what it wrote for [template] and the file can be written (it opens
    and the write is not interrupted), the dump followed by the load returns
    [template], and the only change is the file written. *)
Theorem json_dump_then_load E storage filename template w :
  json_loads E (json_dumps E template) = Some template →
  open_w_error E (fs w) (join storage filename) = None →
  (json_dump E storage filename template ≫= λ _,
   json_load E storage filename) w
  = (Ok template,
     World (<[join storage filename := File (json_dumps E template)]> (fs w))
           (log w) (ticks w) (spawned w)).
Proof.
  intros Hcodec Hopen. destruct w as [f l t s]. cbn [fs log ticks spawned] in *.
  unfold mbind, M_bind. rewrite (json_dump_ok _ _ _ _ _ _ _ _ Hopen).
  apply json_load_file with (json_dumps E template); [|done].
  by eapply stat_written.
Qed.

(** X7, witness: the placeholder dictionary in the example codec. *)
Lemma json_dump_then_load_witness :
  (json_dump (example_env failing_tool) "/tmp" "d2vlistx" placeholder ≫= λ _,
   json_load (example_env failing_tool) "/tmp" "d2vlistx") example_world
  = (Ok placeholder,
     World (<[join "/tmp" "d2vlistx" :=
              File (json_dumps (example_env failing_tool) placeholder)]>
              example_fs) [] 0 []).
Proof.
  exact (json_dump_then_load (example_env failing_tool) "/tmp" "d2vlistx"
           placeholder example_world eq_refl eq_refl).
Defined.

(** X8.  Handed an empty mapping, [update_index_path_reference] starts from
    the mapping of the manifest on disk: the new manifest holds the new entry
    and every other entry of the old manifest. *)
Theorem update_keeps_other_entries E file index_path dir old ext w data d :
  let new := list_name ext (rand E (ticks w)) in
  stat (fs w) (join dir old) = Some (File data) →
  json_loads E data = Some (JDict d) →
  open_w_error E (fs w) (join dir new) = None →
  join dir new ≠ join dir old →
  let w' := (update_index_path_reference E file index_path (JDict ∅)
               dir old ext w).2 in
  ∃ d', fs w' !! join dir new = Some (File (json_dumps E (JDict d')))
    ∧ d' !! path_name file = Some index_path
    ∧ ∀ k, k ≠ path_name file → d' !! k = d !! k.
Proof.
  destruct w as [f l t s]. cbv zeta. cbn [fs log ticks spawned].
  intros Hstat Hloads Hopen Hne.
  rewrite (update_run E file index_path dir old ext d f l l t s (JDict ∅));
    [|by apply json_load_file with data].
  cbv zeta.
  rewrite Hopen. exists (<[path_name file:=index_path]> d).
  split; [|split; [by rewrite lookup_insert_eq
                  |by intros k Hk; rewrite lookup_insert_ne]].
  destruct (isfile _ (join dir old)); [|by cbn; rewrite lookup_insert_eq].
  unfold os_remove. cbn [fs log ticks spawned].
  repeat case_match; cbn [fs snd];
    rewrite ?lookup_delete_ne by done; by rewrite lookup_insert_eq.
Qed.

(** X8, witness: a second source is added to the manifest of the example
    cache. *)
Lemma update_keeps_other_entries_witness :
  ∃ d', fs (update_index_path_reference (example_env failing_tool)
              "/media/new.mpg" "/tmp/indexing/media/n.d2v" (JDict ∅)
              "/tmp/indexing/media" "d2vlisttmpq0q0q0q0" "d2v" indexed_world).2
          !! "/tmp/indexing/media/d2vlisttmpk3v9x_2a"
        = Some (File (example_dumps (JDict d')))
    ∧ d' !! "new.mpg" = Some "/tmp/indexing/media/n.d2v"
    ∧ d' !! "clip.mpg" = Some "/tmp/indexing/media/old.d2v".
Proof.
  destruct (update_keeps_other_entries (example_env failing_tool)
              "/media/new.mpg" "/tmp/indexing/media/n.d2v"
              "/tmp/indexing/media" "d2vlisttmpq0q0q0q0" "d2v" indexed_world
              (example_dumps (JDict {[ "clip.mpg" := "/tmp/indexing/media/old.d2v" ]}))
              {[ "clip.mpg" := "/tmp/indexing/media/old.d2v" ]})
    as (d' & Hfile & Hnew & Hold);
    [reflexivity|reflexivity|reflexivity|discriminate|].
  exists d'. split; [exact Hfile|]. split; [exact Hnew|].
  rewrite Hold by discriminate. reflexivity.
Defined.

(** ** The cases of the namespaced resolver *)


Lemma resolver_forced E source ext sub v f l t s m :
  py_truthy v = false →
  head (manifests f sub ext) = Some m →
  ∃ l', get_index_path_using_reflist E source ext sub v (World f l t s)
        = (Ok (true, join sub (rand E t +:+ "." +:+ ext), m, JDict ∅),
           World f l' (S t) s).
Proof.
  intros Hv Hm. unfold get_index_path_using_reflist.
  unfold mbind at 1. unfold M_bind at 1.
  rewrite (get_reflist_name_found _ _ _ _ _ _ _ _ Hm). rewrite Hv.
  munfold. simpl. eauto.
Qed.

Lemma resolver_absent E source ext sub v f l t s m data d :
  py_truthy v = true →
  head (manifests f sub ext) = Some m →
  stat f (join sub m) = Some (File data) →
  json_loads E data = Some (JDict d) →
  d !! basename source = None →
  ∃ l', get_index_path_using_reflist E source ext sub v (World f l t s)
        = (Ok (true, join sub (rand E t +:+ "." +:+ ext), m, JDict d),
           World f l' (S t) s).
Proof.
  intros Hv Hm Hstat Hloads Hd.
  unfold get_index_path_using_reflist.
  unfold mbind at 1. unfold M_bind at 1.
  rewrite (get_reflist_name_found _ _ _ _ _ _ _ _ Hm). rewrite Hv.
  munfold. simpl.
  rewrite (json_load_file _ _ _ _ _ _ _ _ _ Hstat Hloads).
  unfold lookup_reference. rewrite Hd.
  destruct (jtruthy (JDict d)); munfold; simpl; eauto.
Qed.

Lemma ffmsindex_prep_run E source indexing_dir ffmsindex_dir v fb f l t s :
  ffmsindex_prep E source indexing_dir ffmsindex_dir v fb (World f l t s) =
  Index_managment_prep E "ffindex" "ffmsindex" source v ffmsindex_dir
    indexing_dir fb
    (World f (l ++ [(INFO, "indexing, using " +:+ "ffmsindex" +:+ " for: "
                            +:+ source)]) t s).
Proof. done. Qed.

Lemma constructor_forced E ext exec_name source v exec_dir indexing_dir fb
    f l t s ep m :
  let sub := cache_subdir indexing_dir source in
  source ≠ "" →
  isfile f source = true →
  py_in v [PyBool true; PyBool false] = true →
  py_truthy v = false →
  (get_exec_path E exec_dir exec_name fb (World f l t s)).1 = Ok ep →
  indexing_dir ≠ "" →
  isdir f indexing_dir = true →
  head (manifests f sub ext) = Some m →
  ∃ l', Index_managment_prep E ext exec_name source v exec_dir indexing_dir fb
          (World f l t s)
        = (Ok (Prep true (join sub (rand E t +:+ "." +:+ ext)) m (JDict ∅)
                    ep true sub),
           World f l' (S t) s).
Proof.
  intros sub Hs Hf Hin Hv Hep Hi Hd Hm.
  pose proof (head_manifests_valid _ _ _ _ Hm) as (Hsub%isdir_stat & _).
  destruct (constructor_namespaced E ext exec_name source v exec_dir
              indexing_dir fb f l t s ep f (Some FileExistsError)
              Hs Hf Hin Hep Hi Hd (makedirs_existing _ _ _ Hsub)) as [l1 ->].
  cbv zeta. fold sub.
  destruct (resolver_forced E source ext sub v f l1 t s m Hv Hm) as [l' ->].
  eauto.
Qed.

Lemma constructor_absent E ext exec_name source v exec_dir indexing_dir fb
    f l t s ep m data d :
  let sub := cache_subdir indexing_dir source in
  source ≠ "" →
  isfile f source = true →
  py_in v [PyBool true; PyBool false] = true →
  py_truthy v = true →
  (get_exec_path E exec_dir exec_name fb (World f l t s)).1 = Ok ep →
  indexing_dir ≠ "" →
  isdir f indexing_dir = true →
  head (manifests f sub ext) = Some m →
  stat f (join sub m) = Some (File data) →
  json_loads E data = Some (JDict d) →
  d !! basename source = None →
  ∃ l', Index_managment_prep E ext exec_name source v exec_dir indexing_dir fb
          (World f l t s)
        = (Ok (Prep true (join sub (rand E t +:+ "." +:+ ext)) m (JDict d)
                    ep true sub),
           World f l' (S t) s).
Proof.
  intros sub Hs Hf Hin Hv Hep Hi Hd Hm Hstat Hloads Hlook.
  pose proof (head_manifests_valid _ _ _ _ Hm) as (Hsub%isdir_stat & _).
  destruct (constructor_namespaced E ext exec_name source v exec_dir
              indexing_dir fb f l t s ep f (Some FileExistsError)
              Hs Hf Hin Hep Hi Hd (makedirs_existing _ _ _ Hsub)) as [l1 ->].
  cbv zeta. fold sub.
  destruct (resolver_absent E source ext sub v f l1 t s m data d
              Hv Hm Hstat Hloads Hlook) as [l' ->].
  eauto.
Qed.

Lemma constructor_unindexed E ext exec_name source v exec_dir indexing_dir fb
    f l t s ep m data d :
  let sub := cache_subdir indexing_dir source in
  source ≠ "" →
  isfile f source = true →
  py_in v [PyBool true; PyBool false] = true →
  py_truthy v = true →
  (get_exec_path E exec_dir exec_name fb (World f l t s)).1 = Ok ep →
  indexing_dir ≠ "" →
  isdir f indexing_dir = true →
  head (manifests f sub ext) = Some m →
  stat f (join sub m) = Some (File data) →
  json_loads E data = Some (JDict d) →
  match d !! basename source with
  | Some p => path_exists f p = false
  | None => True
  end →
  ∃ l', Index_managment_prep E ext exec_name source v exec_dir indexing_dir fb
          (World f l t s)
        = (Ok (Prep true (join sub (rand E t +:+ "." +:+ ext)) m
                    (JDict (delete (basename source) d)) ep true sub),
           World f l' (S t) s).
Proof.
  intros sub Hs Hf Hin Hv Hep Hi Hd Hm Hstat Hloads Hlook.
  destruct (d !! basename source) as [p|] eqn:Hk.
  - by eapply constructor_stale.
  - rewrite delete_id by done. by eapply constructor_absent.
Qed.

Lemma ffmsindex_reuse_run E source indexing_dir ffmsindex_dir fb v
    f l t s ep m data d p :
  let sub := cache_subdir indexing_dir source in
  source ≠ "" →
  isfile f source = true →
  py_in v [PyBool true; PyBool false] = true →
  py_truthy v = true →
  (get_exec_path E ffmsindex_dir "ffmsindex" fb (World f l t s)).1 = Ok ep →
  indexing_dir ≠ "" →
  isdir f indexing_dir = true →
  head (manifests f sub "ffindex") = Some m →
  stat f (join sub m) = Some (File data) →
  json_loads E data = Some (JDict d) →
  d !! basename source = Some p →
  path_exists f p = true →
  ∃ l', ffmsindex E source indexing_dir ffmsindex_dir v fb (World f l t s)
        = (Ok p, World f l' t s).
Proof.
  intros sub Hs Hf Hin Hv Hep Hi Hd Hm Hstat Hloads Hlook Hp.
  rewrite (get_exec_path_result _ _ _ _ _ _ _ _
             (l ++ [(INFO, "indexing, using " +:+ "ffmsindex" +:+ " for: "
                            +:+ source)]) t s) in Hep.
  destruct (constructor_reuse E "ffindex" "ffmsindex" source v ffmsindex_dir
              indexing_dir fb f _ t s ep m data d p
              Hs Hf Hin Hv Hep Hi Hd Hm Hstat Hloads Hlook Hp) as [l' Hprep].
  rewrite <- ffmsindex_prep_run in Hprep.
  rewrite (ffmsindex_after_prep _ _ _ _ _ _ _ _ _ Hprep). cbn. eauto.
Qed.

(** X9.  With reuse disabled the manifest is not consulted: the constructor
    reports indexing with a fresh artifact name and an empty mapping, and
    [ffmsindex] hands exactly one command to the system, the one that writes
    that artifact. *)
Theorem forced_regeneration_runs_tool
    E source indexing_dir ffmsindex_dir fb v w ep m :
  let sub := cache_subdir indexing_dir source in
  let artifact := join sub (rand E (ticks w) +:+ "." +:+ "ffindex") in
  let prep := Prep true artifact m (JDict ∅) ep true sub in
  source ≠ "" →
  isfile (fs w) source = true →
  py_in v [PyBool true; PyBool false] = true →
  py_truthy v = false →
  (get_exec_path E ffmsindex_dir "ffmsindex" fb w).1 = Ok ep →
  indexing_dir ≠ "" →
  isdir (fs w) indexing_dir = true →
  head (manifests (fs w) sub "ffindex") = Some m →
  (∃ w1, Index_managment_prep E "ffindex" "ffmsindex" source v ffmsindex_dir
           indexing_dir fb w = (Ok prep, w1) ∧ fs w1 = fs w)
  ∧ spawned (ffmsindex E source indexing_dir ffmsindex_dir v fb w).2
    = spawned w ++ [ffmsindex_cmd prep source].
Proof.
  rename indexing_dir into cache_dir.
  destruct w as [f l t s]. cbv zeta. cbn [fs log ticks spawned].
  set (sub := cache_subdir cache_dir source).
  intros Hs Hf Hin Hv Hep Hi Hd Hm. split.
  - destruct (constructor_forced E "ffindex" "ffmsindex" source v ffmsindex_dir
                cache_dir fb f l t s ep m Hs Hf Hin Hv Hep Hi Hd Hm)
      as [l' ->]. eauto.
  - rewrite (get_exec_path_result _ _ _ _ _ _ _ _
               (l ++ [(INFO, "indexing, using " +:+ "ffmsindex" +:+ " for: "
                              +:+ source)]) t s) in Hep.
    destruct (constructor_forced E "ffindex" "ffmsindex" source v ffmsindex_dir
                cache_dir fb f _ t s ep m Hs Hf Hin Hv Hep Hi Hd Hm)
      as [l' Hprep].
    rewrite <- ffmsindex_prep_run in Hprep. fold sub in Hprep.
    rewrite (ffmsindex_after_prep _ _ _ _ _ _ _ _ _ Hprep).
    unfold prep_indexing_dir.
    cbn [isIndexing index_path using_reflist file_index_ref
         indexing_dir reflist_name negb fs log ticks spawned].
    cbv zeta.
    destruct (_ && _); [|done].
    set (w2 := World _ _ _ _).
    pose proof (update_effect E source
                  (join sub (rand E t +:+ "." +:+ "ffindex")) (JDict ∅)
                  sub m "ffindex" w2) as [Hsp _].
    cbv zeta in Hsp. munfold.
    destruct (update_index_path_reference _ _ _ _ _ _ _ w2) as [[[]|e] w3];
      cbn [fst snd spawned] in *; by rewrite Hsp.
Qed.

(** X9, witness: reuse disabled in the example cache. *)
Lemma forced_regeneration_runs_tool_witness :
  spawned (ffmsindex (example_env failing_tool) "/media/clip.mpg" "/tmp"
             "/tools" (PyBool false) "" ffindex_world).2
  = [ffmsindex_cmd (Prep true "/tmp/indexing/media/tmpk3v9x_2a.ffindex"
                         "ffindexlisttmpq0q0q0q0" (JDict ∅) "/tools/ffmsindex"
                         true "/tmp/indexing/media") "/media/clip.mpg"].
Proof.
  refine (proj2 (forced_regeneration_runs_tool (example_env failing_tool)
            "/media/clip.mpg" "/tmp" "/tools" "" (PyBool false) ffindex_world
            "/tools/ffmsindex" "ffindexlisttmpq0q0q0q0" _ _ _ _ _ _ _ _));
    first [reflexivity | discriminate].
Defined.

(** X10.  Namespaced mode, reuse enabled, the manifest maps the base name
    of the source to a path that exists: [ffmsindex] returns that path and
    changes no file, draws no temporary name and runs no command. *)
Theorem ffmsindex_reuse_changes_no_file
    E source indexing_dir ffmsindex_dir fb v w ep m data d p :
  let sub := cache_subdir indexing_dir source in
  source ≠ "" →
  isfile (fs w) source = true →
  py_in v [PyBool true; PyBool false] = true →
  py_truthy v = true →
  (get_exec_path E ffmsindex_dir "ffmsindex" fb w).1 = Ok ep →
  indexing_dir ≠ "" →
  isdir (fs w) indexing_dir = true →
  head (manifests (fs w) sub "ffindex") = Some m →
  stat (fs w) (join sub m) = Some (File data) →
  json_loads E data = Some (JDict d) →
  d !! basename source = Some p →
  path_exists (fs w) p = true →
  let r := ffmsindex E source indexing_dir ffmsindex_dir v fb w in
  r.1 = Ok p ∧ fs r.2 = fs w ∧ ticks r.2 = ticks w ∧ spawned r.2 = spawned w.
Proof.
  destruct w as [f l t s]. cbv zeta. cbn [fs log ticks spawned].
  intros Hs Hf Hin Hv Hep Hi Hd Hm Hstat Hloads Hlook Hp.
  by destruct (ffmsindex_reuse_run E source indexing_dir ffmsindex_dir fb v
                 f l t s ep m data d p
                 Hs Hf Hin Hv Hep Hi Hd Hm Hstat Hloads Hlook Hp) as [l' ->].
Qed.

(** X10, witness: the source the example cache knows. *)
Lemma ffmsindex_reuse_changes_no_file_witness :
  let r := ffmsindex (example_env failing_tool) "/media/other.mkv" "/tmp"
             "/tools" (PyBool true) "" ffindex_world in
  r.1 = Ok "/tmp/indexing/media/old.ffindex" ∧ fs r.2 = ffindex_fs
  ∧ spawned r.2 = [].
Proof.
  destruct (ffmsindex_reuse_changes_no_file (example_env failing_tool)
              "/media/other.mkv" "/tmp" "/tools" "" (PyBool true) ffindex_world
              "/tools/ffmsindex" "ffindexlisttmpq0q0q0q0"
              (example_dumps
                 (JDict {[ "other.mkv" := "/tmp/indexing/media/old.ffindex" ]}))
              {[ "other.mkv" := "/tmp/indexing/media/old.ffindex" ]}
              "/tmp/indexing/media/old.ffindex")
    as (Hr & Hfs & _ & Hsp);
    [done|reflexivity|reflexivity|reflexivity|reflexivity|done|reflexivity
    |reflexivity|reflexivity|reflexivity|reflexivity|reflexivity|].
  cbv zeta. split; [exact Hr|]. split; [exact Hfs|exact Hsp].
Defined.

(** X11.  Indexed once, reused afterwards.  Namespaced mode, reuse enabled,
    one manifest that has no usable entry for the source (none, or one whose
    artifact is gone).  When the tool succeeds and leaves the manifest
    alone, the new manifest can be written and the codec reads it back, and
    the source, the tool and the cache directory are still in place, then the
    first call of [ffmsindex] runs the tool once and returns the new
    artifact, and a second call returns the same artifact, runs no command
    and changes no file. *)
Theorem indexed_once_reused_after
    E source indexing_dir ffmsindex_dir fb v w ep ep2 m data d fs2 :
  let sub := cache_subdir indexing_dir source in
  let artifact := join sub (rand E (ticks w) +:+ "." +:+ "ffindex") in
  let prep := Prep true artifact m (JDict (delete (basename source) d)) ep
                   true sub in
  let new := list_name "ffindex" (rand E (S (ticks w))) in
  let d' := <[basename source := artifact]> d in
  let fs3 := delete (join sub m)
               (<[join sub new := File (json_dumps E (JDict d'))]> fs2) in
  source ≠ "" →
  isfile (fs w) source = true →
  py_in v [PyBool true; PyBool false] = true →
  py_truthy v = true →
  (get_exec_path E ffmsindex_dir "ffmsindex" fb w).1 = Ok ep →
  indexing_dir ≠ "" →
  isdir (fs w) indexing_dir = true →
  head (manifests (fs w) sub "ffindex") = Some m →
  stat (fs w) (join sub m) = Some (File data) →
  json_loads E data = Some (JDict d) →
  match d !! basename source with
  | Some p => path_exists (fs w) p = false
  | None => True
  end →
  os_system E (ffmsindex_cmd prep source) (fs w) = (0, fs2) →
  isfile fs2 artifact = true →
  manifests fs2 sub "ffindex" = [m] →
  stat fs2 (join sub m) = Some (File data) →
  valid_name new = true →
  new ≠ m →
  open_w_error E fs2 (join sub new) = None →
  may_write E (join sub m) = true →
  json_loads E (json_dumps E (JDict d')) = Some (JDict d') →
  isfile fs3 source = true →
  (get_exec_path E ffmsindex_dir "ffmsindex" fb (World fs3 [] 0 [])).1
    = Ok ep2 →
  isdir fs3 indexing_dir = true →
  path_exists fs3 artifact = true →
  let r1 := ffmsindex E source indexing_dir ffmsindex_dir v fb w in
  let r2 := ffmsindex E source indexing_dir ffmsindex_dir v fb r1.2 in
  r1.1 = Ok artifact
  ∧ fs r1.2 = fs3
  ∧ spawned r1.2 = spawned w ++ [ffmsindex_cmd prep source]
  ∧ r2.1 = Ok artifact
  ∧ fs r2.2 = fs3
  ∧ spawned r2.2 = spawned r1.2
  ∧ ticks r2.2 = ticks r1.2.
Proof.
  rename indexing_dir into cache_dir.
  destruct w as [f l t s]. cbv zeta. cbn [fs log ticks spawned].
  set (sub := cache_subdir cache_dir source).
  set (artifact := join sub (rand E t +:+ "." +:+ "ffindex")).
  set (b := basename source).
  set (new := list_name "ffindex" (rand E (S t))).
  set (d' := <[b := artifact]> d).
  set (fs3 := delete (join sub m) _).
  intros Hs Hf Hin Hv Hep Hi Hd Hm Hstat Hloads Hlook
         Htool Hart Hone Hstat2 Hvnew Hne Hopen Hwr Hcodec
         Hf3 Hep3 Hd3 Hart3.
  rewrite (get_exec_path_result _ _ _ _ _ _ _ _
             (l ++ [(INFO, "indexing, using " +:+ "ffmsindex" +:+ " for: "
                            +:+ source)]) t s) in Hep.
  destruct (constructor_unindexed E "ffindex" "ffmsindex" source v
              ffmsindex_dir cache_dir fb f _ t s ep m data d
              Hs Hf Hin Hv Hep Hi Hd Hm Hstat Hloads Hlook) as [l' Hprep].
  rewrite <- ffmsindex_prep_run in Hprep. fold sub artifact b in Hprep.
  rewrite (ffmsindex_after_prep _ _ _ _ _ _ _ _ _ Hprep).
  unfold prep_indexing_dir.
  cbn [isIndexing index_path using_reflist file_index_ref
       indexing_dir reflist_name negb fs log ticks spawned].
  cbv zeta.
  rewrite Htool. cbn [fst snd]. rewrite Hart.
  rewrite bool_decide_eq_true_2 by done. cbn [andb].
  set (l2 := l' ++ _). set (s2 := s ++ _).
  assert (∃ l3, (if negb (jtruthy (JDict (delete b d)))
                 then json_load E sub m else mret (JDict (delete b d)))
                  (World fs2 l2 (S t) s2)
                = (Ok (JDict (if negb (jtruthy (JDict (delete b d)))
                              then d else delete b d)),
                   World fs2 l3 (S t) s2)) as [l3 Hload].
  { destruct (negb (jtruthy (JDict (delete b d)))).
    - exists l2. by apply json_load_file with data.
    - by exists l2. }
  pose proof (head_manifests_valid _ _ _ _ Hm) as (_ & Hvm & _).
  assert (join sub new ≠ join sub m) as Hjne.
  { intros ?%join_valid_inj; done. }
  assert (<[path_name source:=artifact]>
            (if negb (jtruthy (JDict (delete b d))) then d else delete b d)
          = d') as Hd'.
  { rewrite (path_name_file _ _ Hf). fold b. unfold d'.
    destruct (negb (jtruthy (JDict (delete b d)))); [done|].
    by rewrite insert_delete_eq. }
  assert (stat (<[join sub new:=File (json_dumps E (JDict d'))]> fs2)
               (join sub m) = Some (File data)) as Hstat3.
  { by rewrite stat_insert_ne. }
  assert (update_index_path_reference E source artifact (JDict (delete b d))
            sub m "ffindex" (World fs2 l2 (S t) s2)
          = (Ok tt,
             World fs3
                   (l3 ++ [(INFO, "reference for new indexed file updated")])
                   (S (S t)) s2)) as Hupd.
  { rewrite (update_run _ _ _ _ _ _ _ _ _ _ _ _ _ Hload).
    cbv zeta. fold new. rewrite Hd', Hopen.
    unfold isfile. rewrite Hstat3.
    unfold os_remove. cbn [fs log ticks spawned]. by rewrite Hstat3, Hwr. }
  assert (manifests fs3 sub "ffindex" = [new]) as Hnew.
  { eapply (update_step_manifests E sub "ffindex" (World fs2 l2 (S t) s2)
              (World fs3 _ _ _) m); [done|done|done|].
    eapply Update_step; [|exact Hopen|exact Hupd].
    cbn [fs]. by rewrite Hone. }
  munfold. rewrite Hupd. cbn [fs log ticks spawned fst snd].
  split; [done|]. split; [done|]. split; [done|].
  set (l4 := _ ++ [(INFO, created_msg _ _)]).
  rewrite (get_exec_path_result _ _ _ _ _ _ _ _ l4 (S (S t)) s2) in Hep3.
  destruct (ffmsindex_reuse_run E source cache_dir ffmsindex_dir fb v
              fs3 l4 (S (S t)) s2 ep2 new (json_dumps E (JDict d')) d' artifact)
    as [l5 ->]; try done.
  - fold sub. by rewrite Hnew.
  - fold sub. unfold fs3. rewrite stat_delete_ne by done.
    rewrite stat_join_valid by done. by rewrite lookup_insert_eq.
  - unfold d'. by rewrite lookup_insert_eq.
Qed.

(** X11, witness: two calls in a row for a source the example cache does
    not know. *)
Lemma indexed_once_reused_after_witness :
  let r1 := ffmsindex ffindex_tool_env "/media/clip.mpg" "/tmp" "/tools"
              (PyBool true) "" ffindex_world in
  let r2 := ffmsindex ffindex_tool_env "/media/clip.mpg" "/tmp" "/tools"
              (PyBool true) "" r1.2 in
  r1.1 = Ok "/tmp/indexing/media/tmpk3v9x_2a.ffindex"
  ∧ r2.1 = Ok "/tmp/indexing/media/tmpk3v9x_2a.ffindex"
  ∧ spawned r2.2 = spawned r1.2.
Proof.
  destruct (indexed_once_reused_after ffindex_tool_env
              "/media/clip.mpg" "/tmp" "/tools" "" (PyBool true) ffindex_world
              "/tools/ffmsindex" "/tools/ffmsindex" "ffindexlisttmpq0q0q0q0"
              (example_dumps
                 (JDict {[ "other.mkv" := "/tmp/indexing/media/old.ffindex" ]}))
              {[ "other.mkv" := "/tmp/indexing/media/old.ffindex" ]}
              (<["/tmp/indexing/media/tmpk3v9x_2a.ffindex" := File "ffms2 index"]>
                 ffindex_fs))
    as (H1 & _ & _ & H2 & _ & H3 & _);
    [done|reflexivity|reflexivity|reflexivity|reflexivity|done|reflexivity
    |reflexivity|reflexivity|reflexivity|reflexivity|reflexivity|reflexivity
    |reflexivity|reflexivity|reflexivity|done|reflexivity|reflexivity
    |reflexivity|reflexivity|reflexivity|reflexivity|reflexivity|].
  cbv zeta. split; [exact H1|]. split; [exact H2|exact H3].
Defined.

(** ** Commands and files *)

(** X12.  A call runs at most one command.  The constructor runs none;
    [d2vwitch] and [ffmsindex] run none, or exactly the indexing command of
    the resolver they built, and only when it reports indexing. *)
Theorem one_command_per_call E source indexing_dir tool_dir v fb w :
  (∀ index_ext exec_name,
     spawned (Index_managment_prep E index_ext exec_name source v tool_dir
                indexing_dir fb w).2 = spawned w)
  ∧ (∀ opts,
     let r := d2vwitch E source indexing_dir tool_dir v opts fb w in
     spawned r.2 = spawned w
     ∨ ∃ p w1, d2vwitch_prep E source indexing_dir tool_dir v fb w = (Ok p, w1)
               ∧ isIndexing p = true
               ∧ spawned r.2 = spawned w ++ [d2vwitch_cmd p opts source])
  ∧ (let r := ffmsindex E source indexing_dir tool_dir v fb w in
     spawned r.2 = spawned w
     ∨ ∃ p w1, ffmsindex_prep E source indexing_dir tool_dir v fb w = (Ok p, w1)
               ∧ isIndexing p = true
               ∧ spawned r.2 = spawned w ++ [ffmsindex_cmd p source]).
Proof.
  rename indexing_dir into cache_dir.
  destruct w as [f l t s]. split; [|split].
  - intros index_ext exec_name. apply constructor_spawned.
  - intros opts. cbv zeta.
    destruct (d2vwitch_prep E source cache_dir tool_dir v fb (World f l t s))
      as [[p|e] w1] eqn:Hprep.
    + pose proof (constructor_spawned E "d2v" "d2vwitch" source v tool_dir
                    cache_dir fb (World f (l ++ [(INFO, "indexing, using "
                      +:+ "d2vwitch" +:+ " for: " +:+ source)]) t s)) as Hsp.
      rewrite <- d2vwitch_prep_run, Hprep in Hsp. cbn [snd spawned] in Hsp.
      rewrite (d2vwitch_after_prep _ _ _ _ _ _ _ _ _ _ Hprep).
      destruct (isIndexing p) eqn:Hi; cbn [negb].
      * right. exists p, w1. split; [done|]. split; [done|].
        cbv zeta. destruct (_ && _); [|by cbn; rewrite Hsp].
        set (w2 := World _ _ _ _).
        assert (spawned w2 = s ++ [d2vwitch_cmd p opts source]) as Hw2
          by (cbn; by rewrite Hsp).
        destruct (using_reflist p).
        -- pose proof (update_effect E source (index_path p) (file_index_ref p)
                         (prep_indexing_dir p) (reflist_name p) "d2v" w2)
             as [Hu _]. cbv zeta in Hu. munfold.
           destruct (update_index_path_reference _ _ _ _ _ _ _ w2)
             as [[[]|e] w3]; cbn [fst snd spawned] in *; congruence.
        -- munfold. cbn. by rewrite Hsp.
      * left. pose proof (correct_byte_frame E (index_path p)
                  (scan_input_range (split_on space opts) "limited") w1)
          as (Hc & _). cbv zeta in Hc. munfold.
        destruct (correct_byte_for_range _ _ _ _) as [[[]|e] w2];
          cbn [fst snd spawned] in *; congruence.
    + left. unfold d2vwitch_prep in Hprep. unfold d2vwitch. cbv zeta.
      pose proof (constructor_spawned E "d2v" "d2vwitch" source v tool_dir
                    cache_dir fb (World f (l ++ [(INFO, "indexing, using "
                      +:+ "d2vwitch" +:+ " for: " +:+ source)]) t s)) as Hsp.
      munfold. unfold logger_info, say in *. cbn [fs log ticks spawned] in *.
      destruct (Index_managment_prep _ _ _ _ _ _ _ _ _) as [[q|e'] w2];
        [done|]. by simplify_eq.
  - cbv zeta.
    destruct (ffmsindex_prep E source cache_dir tool_dir v fb (World f l t s))
      as [[p|e] w1] eqn:Hprep.
    + pose proof (constructor_spawned E "ffindex" "ffmsindex" source v tool_dir
                    cache_dir fb (World f (l ++ [(INFO, "indexing, using "
                      +:+ "ffmsindex" +:+ " for: " +:+ source)]) t s)) as Hsp.
      change (Index_managment_prep E "ffindex" "ffmsindex" source v tool_dir
                cache_dir fb _)
        with (ffmsindex_prep E source cache_dir tool_dir v fb (World f l t s))
        in Hsp.
      rewrite Hprep in Hsp. cbn [snd spawned] in Hsp.
      rewrite (ffmsindex_after_prep _ _ _ _ _ _ _ _ _ Hprep).
      destruct (isIndexing p) eqn:Hi; cbn [negb]; [|by left].
      right. exists p, w1. split; [done|]. split; [done|].
      cbv zeta. destruct (_ && _); [|by cbn; rewrite Hsp].
      set (w2 := World _ _ _ _).
      assert (spawned w2 = s ++ [ffmsindex_cmd p source]) as Hw2
        by (cbn; by rewrite Hsp).
      destruct (using_reflist p).
      * pose proof (update_effect E source (index_path p) (file_index_ref p)
                      (prep_indexing_dir p) (reflist_name p) "ffindex" w2)
          as [Hu _]. cbv zeta in Hu. munfold.
        destruct (update_index_path_reference _ _ _ _ _ _ _ w2)
          as [[[]|e] w3]; cbn [fst snd spawned] in *; congruence.
      * munfold. cbn. by rewrite Hsp.
    + left. unfold ffmsindex_prep in Hprep. unfold ffmsindex. cbv zeta.
      pose proof (constructor_spawned E "ffindex" "ffmsindex" source v tool_dir
                    cache_dir fb (World f (l ++ [(INFO, "indexing, using "
                      +:+ "ffmsindex" +:+ " for: " +:+ source)]) t s)) as Hsp.
      munfold. unfold logger_info, say in *. cbn [fs log ticks spawned] in *.
      destruct (Index_managment_prep _ _ _ _ _ _ _ _ _) as [[q|e'] w2];
        [done|]. by simplify_eq.
Qed.

(** X13.  In co-located mode [ffmsindex] writes no file of its own: after the
    call the files are as before and no command was run, or they are as the
    one command it ran left them. *)
Theorem colocated_ffmsindex_writes_nothing E source tool_dir v fb w :
  let r := ffmsindex E source "" tool_dir v fb w in
  (fs r.2 = fs w ∧ spawned r.2 = spawned w)
  ∨ ∃ cmd, fs r.2 = (os_system E cmd (fs w)).2
           ∧ spawned r.2 = spawned w ++ [cmd].
Proof.
  destruct w as [f l t s]. cbv zeta.
  pose proof (constructor_colocated E "ffindex" "ffmsindex" source v tool_dir fb
                (World f (l ++ [(INFO, "indexing, using "
                   +:+ "ffmsindex" +:+ " for: " +:+ source)]) t s))
    as (Hfs & _ & Hur).
  pose proof (constructor_spawned E "ffindex" "ffmsindex" source v tool_dir
                "" fb (World f (l ++ [(INFO, "indexing, using "
                  +:+ "ffmsindex" +:+ " for: " +:+ source)]) t s)) as Hsp.
  cbv zeta in Hfs, Hur.
  change (Index_managment_prep E "ffindex" "ffmsindex" source v tool_dir "" fb _)
    with (ffmsindex_prep E source "" tool_dir v fb (World f l t s))
    in Hfs, Hur, Hsp.
  destruct (ffmsindex_prep E source "" tool_dir v fb (World f l t s))
    as [[p|e] w1] eqn:Hprep; cbn [fst snd fs spawned] in *.
  - rewrite (ffmsindex_after_prep _ _ _ _ _ _ _ _ _ Hprep).
    destruct (isIndexing p); cbn [negb]; [|by left].
    right. exists (ffmsindex_cmd p source). cbv zeta.
    rewrite (Hur p eq_refl), Hfs, Hsp.
    destruct (_ && _); munfold; done.
  - left. unfold ffmsindex_prep in Hprep. unfold ffmsindex. cbv zeta.
    munfold. unfold logger_info, say in *. cbn [fs log ticks spawned] in *.
    destruct (Index_managment_prep _ _ _ _ _ _ _ _ _) as [[q|e'] w2];
      [done|]. by simplify_eq.
Qed.

(** ** The range flag of an artifact *)

Lemma codes_app a b : codes (a +:+ b) = codes a ++ codes b.
Proof.
  induction a as [|c a IH]; [done|].
  change (String c a +:+ b) with (String c (a +:+ b)).
  change (codes (String c (a +:+ b))) with (N_of_ascii c :: codes (a +:+ b)).
  by rewrite IH.
Qed.

Lemma length_codes s : length (codes s) = String.length s.
Proof.
  induction s as [|c s IH]; [done|].
  change (codes (String c s)) with (N_of_ascii c :: codes s).
  cbn [length String.length]. by rewrite IH.
Qed.

Lemma last_codes_newline pre :
  endswith_char pre newline = true → last (codes pre) = Some 10%N.
Proof.
  induction pre as [|c pre IH]; [done|].
  destruct pre as [|c' pre].
  - cbn [endswith_char]. by intros ->%bool_decide_eq_true.
  - intros Hend. change (endswith_char (String c' pre) newline = true) in Hend.
    exact (IH Hend).
Qed.

Lemma codes_not_contains s c :
  contains s c = false → N_of_ascii c ∉ codes s.
Proof.
  induction s as [|a s IH]; intros Hs.
  - apply not_elem_of_nil.
  - cbn [contains] in Hs. apply orb_false_iff in Hs as [Ha Hs].
    apply bool_decide_eq_false in Ha.
    change (codes (String a s)) with (N_of_ascii a :: codes s).
    apply not_elem_of_cons. split; [|by apply IH].
    intros Heq. apply Ha.
    by rewrite <- (ascii_N_embedding a), <- (ascii_N_embedding c), Heq.
Qed.

Lemma translate_newlines_id l : 13%N ∉ l → translate_newlines l = l.
Proof.
  induction l as [|c l IH]; [done|].
  intros [Hc Hl]%not_elem_of_cons.
  cbn [translate_newlines]. rewrite bool_decide_eq_false_2 by done.
  by rewrite IH.
Qed.

(** The text layer of the examples reads a file without carriage return
    as it is. *)
Lemma example_plain_read tool data :
  contains data "013"%char = false → plain_read (example_env tool) data.
Proof.
  intros Hd pos. cbn [read_text example_env]. unfold example_read_text.
  rewrite translate_newlines_id; [done|].
  intros Hin. apply (codes_not_contains _ _ Hd).
  by apply (subseteq_drop pos).
Qed.

Lemma readlines_nonempty c s : readlines (c :: s) ≠ [].
Proof. cbn [readlines]. case_bool_decide; [done|]. by destruct (readlines s). Qed.

Lemma readlines_cons c s :
  readlines (c :: s)
  = if bool_decide (c = 10%N) then [c] :: readlines s
    else match readlines s with
         | l :: ls => (c :: l) :: ls
         | [] => [[c]]
         end.
Proof. done. Qed.

Lemma readlines_app pre rest :
  last pre = Some 10%N →
  readlines (pre ++ rest) = readlines pre ++ readlines rest.
Proof.
  induction pre as [|c pre IH]; [done|].
  destruct pre as [|c' pre].
  - cbn [last]. intros [= ->]. cbn [app readlines].
    by rewrite bool_decide_eq_true_2.
  - intros Hend. change (last (c' :: pre) = Some 10%N) in Hend.
    specialize (IH Hend).
    change ((c :: c' :: pre) ++ rest) with (c :: ((c' :: pre) ++ rest)).
    rewrite !(readlines_cons c), IH.
    pose proof (readlines_nonempty c' pre) as Hne.
    destruct (readlines (c' :: pre)); [done|].
    by case_bool_decide.
Qed.

Lemma length_readlines (s : text) :
  foldr (λ l n, (length l + n)%nat) 0%nat (readlines s) = length s.
Proof.
  induction s as [|c s IH]; [done|].
  cbn [readlines]. case_bool_decide; [cbn; by rewrite IH|].
  destruct (readlines s) as [|l ls]; cbn in *; lia.
Qed.

Lemma scan_marker_app ls1 ls2 off :
  Forall (λ l, text_startswith (strip l) marker = false) ls1 →
  scan_marker (ls1 ++ ls2) off
  = scan_marker ls2 (off + foldr (λ l n, (length l + n)%nat) 0%nat ls1).
Proof.
  intros H. revert off. induction H as [|l ls Hl _ IH]; intros off.
  - cbn. by rewrite Nat.add_0_r.
  - cbn [app scan_marker foldr]. rewrite Hl, IH. f_equal. lia.
Qed.

Lemma rstrip_cons c s : is_space c = false → rstrip (c :: s) = c :: rstrip s.
Proof. intros Hc. cbn [rstrip]. rewrite Hc. by destruct (rstrip s). Qed.

Lemma readlines_head_prefix (p : text) c s :
  10%N ∉ p → ∃ l ls, readlines (p ++ c :: s) = (p ++ l) :: ls.
Proof.
  induction p as [|a p IH]; intros Hp.
  - pose proof (readlines_nonempty c s).
    destruct (readlines (c :: s)) as [|l ls] eqn:Hl; [done|].
    exists l, ls. exact Hl.
  - apply not_elem_of_cons in Hp as [Ha Hp].
    destruct (IH Hp) as (l & ls & Hl).
    change ((a :: p) ++ c :: s) with (a :: (p ++ c :: s)).
    cbn [readlines]. rewrite bool_decide_eq_false_2 by done.
    rewrite Hl. by exists l, ls.
Qed.

Lemma strip_marker_line l : text_startswith (strip (marker ++ l)) marker = true.
Proof.
  unfold strip.
  change (marker ++ l)
    with (89 :: 85 :: 86 :: 82 :: 71 :: 66 :: 95 :: 83 :: 99 :: 97 :: 108
          :: 101 :: l)%N.
  cbn [lstrip]. change (is_space 89) with false. cbv iota.
  repeat (rewrite rstrip_cons by reflexivity).
  reflexivity.
Qed.

Lemma scan_marker_found pre rest :
  endswith_char pre newline = true →
  Forall (λ l, text_startswith (strip l) marker = false)
         (readlines (codes pre)) →
  scan_marker (readlines (codes (pre +:+ "YUVRGB_Scale=" +:+ rest))) 0
  = (String.length pre, true).
Proof.
  intros Hend Hpre.
  rewrite codes_app, readlines_app by by apply last_codes_newline.
  rewrite scan_marker_app, length_readlines, length_codes by done.
  rewrite codes_app.
  change (codes "YUVRGB_Scale=" ++ codes rest)
    with (marker ++ 61%N :: codes rest).
  destruct (readlines_head_prefix marker 61%N (codes rest))
    as (l & ls & ->).
  { apply (bool_decide_unpack _). by vm_compute. }
  cbn [scan_marker]. by rewrite strip_marker_line.
Qed.

Lemma substring_app_skip pre k n s :
  String.substring (String.length pre + k) n (pre +:+ s) = String.substring k n s.
Proof. induction pre as [|c pre IH]; [done|]. exact IH. Qed.

Lemma substring_prefix pre s :
  String.substring 0 (String.length pre) (pre +:+ s) = pre.
Proof.
  induction pre as [|c pre IH]; [by destruct s|].
  cbn [String.length]. change (String c pre +:+ s) with (String c (pre +:+ s)).
  cbn [String.substring]. by rewrite IH.
Qed.

Lemma substring_all n s :
  (String.length s ≤ n)%nat → String.substring 0 n s = s.
Proof.
  revert n. induction s as [|c s IH]; intros n Hn; [by destruct n|].
  destruct n as [|n]; cbn in Hn; [lia|].
  cbn [String.substring]. rewrite IH; [done|lia].
Qed.


Lemma nuls_0 n m : (n ≤ m)%nat → nuls (n - m) = "".
Proof. intros H. by replace (n - m)%nat with 0%nat by lia. Qed.

Lemma write_at_flag pre c n rest :
  write_at (String.length pre) ("YUVRGB_Scale=" +:+ String n "")
    (pre +:+ "YUVRGB_Scale=" +:+ String c rest)
  = pre +:+ "YUVRGB_Scale=" +:+ String n rest.
Proof.
  unfold write_at.
  rewrite substring_prefix.
  rewrite nuls_0 by (rewrite length_app_str; lia).
  rewrite substring_app_skip.
  change (String.length ("YUVRGB_Scale=" +:+ String n "")) with 14%nat.
  change (String.substring 14 ?m ("YUVRGB_Scale=" +:+ String c rest))
    with (String.substring 0 m rest).
  rewrite substring_all.
  - done.
  - rewrite length_app_str.
    change (String.length ("YUVRGB_Scale=" +:+ String c rest))
      with (14 + String.length rest)%nat. lia.
Qed.


Lemma drop_flag pre c rest :
  drop (String.length pre + 13)
       (codes (pre +:+ "YUVRGB_Scale=" +:+ String c rest))
  = N_of_ascii c :: codes rest.
Proof.
  rewrite codes_app, <- (length_codes pre), drop_app_add.
  reflexivity.
Qed.

Lemma range_number_cases range :
  ∃ n, range_number range = String n "".
Proof. unfold range_number. case_bool_decide; eauto. Qed.

(** One run on a file that the text layer reads as it is. *)
Lemma correct_byte_unfold E path range f l t s data o found :
  stat f path = Some (File data) →
  may_write E path = true →
  plain_read E data →
  scan_marker (readlines (codes data)) 0 = (o, found) →
  ∃ msg,
    correct_byte_for_range E path range (World f l t s)
    = if negb (bool_decide (o = 0%nat))
         && negb (bool_decide (take 1 (drop (o + 13) (codes data))
                               = codes (range_number range)))
      then match write_fault E f path with
           | Some written =>
               (Ok tt, World (<[path := File written]> f)
                             (l ++ [(ERROR, msg.2)]) t s)
           | None =>
               (Ok tt,
                World (<[path := File (write_at o ("YUVRGB_Scale="
                                                   +:+ range_number range)
                                         data)]> f)
                      (l ++ [(INFO, msg.1)]) t s)
           end
      else (Ok tt, World f l t s).
Proof.
  intros Hstat Hw Hplain Hscan.
  unfold correct_byte_for_range, open_update, read1. munfold.
  cbn [fs log ticks spawned]. rewrite Hstat, Hw, (Hplain 0%nat), drop_0.
  unfold delivered. rewrite Hscan, (Hplain (o + 13)%nat).
  fold (range_number range).
  exists ("correcting input range byte in d2v file to '"
          +:+ range_number range +:+ "' - '" +:+ range +:+ "'",
          "Not d2v index file or not compatible, input_range byte check failed").
  cbn [fst snd].
  replace (negb found && false) with false by by destruct found.
  destruct (negb (bool_decide (o = 0%nat))); [|done]. cbn [andb].
  destruct (drop (o + 13) (codes data)) as [|a chars]; cbn [take];
    repeat case_bool_decide; try done; cbv beta; cbn [negb fs log ticks spawned];
    destruct (write_fault E f path); reflexivity.
Qed.

Lemma stat_file_lookup f path data :
  stat f path = Some (File data) →
  f !! path = Some (File data) ∧ path ≠ "" ∧ endswith_char path slash = false.
Proof.
  unfold stat. case_bool_decide; [done|].
  destruct (f !! path) as [[|d]|]; try done.
  by destruct (endswith_char path slash).
Qed.

Lemma correct_byte_run E path range pre c rest f l t s :
  pre ≠ "" →
  endswith_char pre newline = true →
  Forall (λ l, text_startswith (strip l) marker = false)
         (readlines (codes pre)) →
  stat f path = Some (File (pre +:+ "YUVRGB_Scale=" +:+ String c rest)) →
  may_write E path = true →
  plain_read E (pre +:+ "YUVRGB_Scale=" +:+ String c rest) →
  (String c "" ≠ range_number range → write_fault E f path = None) →
  ∃ l',
    correct_byte_for_range E path range (World f l t s)
    = (Ok tt,
       World (<[path := File (pre +:+ "YUVRGB_Scale="
                              +:+ range_number range +:+ rest)]> f)
             (l ++ l') t s)
    ∧ (String c "" = range_number range → l' = []).
Proof.
  intros Hne Hend Hpre Hstat Hw Hplain Hfault.
  destruct (stat_file_lookup _ _ _ Hstat) as (Hlook & _ & _).
  destruct (correct_byte_unfold E path range f l t s _ _ _ Hstat Hw Hplain
              (scan_marker_found pre (String c rest) Hend Hpre)) as [msg ->].
  rewrite bool_decide_eq_false_2 by by destruct pre.
  rewrite drop_flag. cbn [negb andb take].
  destruct (range_number_cases range) as [n Hn]. rewrite Hn in *.
  change ("YUVRGB_Scale=" +:+ String n "" +:+ rest)
    with ("YUVRGB_Scale=" +:+ String n rest).
  change (codes (String n "")) with [N_of_ascii n].
  case_bool_decide as Hc; cbn [negb].
  - assert (c = n) as ->.
    { injection Hc as Hc.
      by rewrite <- (ascii_N_embedding c), <- (ascii_N_embedding n), Hc. }
    exists []. by rewrite app_nil_r, insert_id.
  - rewrite Hfault by (intros [= ->]; by apply Hc).
    exists [(INFO, msg.1)]. rewrite write_at_flag. split; [done|].
    intros [= ->]. by destruct Hc.
Qed.

(** X14.  An artifact that the text layer reads as it is, whose marker line
    follows complete lines without the marker, and whose writing nothing
    interrupts: after [correct_byte_for_range] the character after
    [YUVRGB_Scale=] is the digit of the wanted range and every other
    character of the file, and every other file, is as before; when the digit
    was the wanted one already, the world is unchanged (nothing is logged). *)
Theorem correction_sets_the_flag E d2v_path input_range w pre c rest :
  pre ≠ "" →
  endswith_char pre newline = true →
  Forall (λ l, text_startswith (strip l) marker = false)
         (readlines (codes pre)) →
  stat (fs w) d2v_path
    = Some (File (pre +:+ "YUVRGB_Scale=" +:+ String c rest)) →
  may_write E d2v_path = true →
  plain_read E (pre +:+ "YUVRGB_Scale=" +:+ String c rest) →
  write_fault E (fs w) d2v_path = None →
  let r := correct_byte_for_range E d2v_path input_range w in
  r.1 = Ok tt
  ∧ fs r.2 = <[d2v_path := File (pre +:+ "YUVRGB_Scale="
                               +:+ range_number input_range +:+ rest)]> (fs w)
  ∧ ticks r.2 = ticks w ∧ spawned r.2 = spawned w
  ∧ (String c "" = range_number input_range → r.2 = w).
Proof.
  destruct w as [f l t s]. cbn [fs].
  intros Hne Hend Hpre Hstat Hw Hplain Hfault.
  cbv zeta.
  destruct (correct_byte_run E d2v_path input_range pre c rest f l t s)
    as (l' & -> & Hl'); [done..|].
  repeat split; try done.
  intros Hc. rewrite (Hl' Hc), app_nil_r. cbn [snd]. f_equal.
  destruct (stat_file_lookup _ _ _ Hstat) as (Hlook & _ & _).
  rewrite <- Hc.
  change ("YUVRGB_Scale=" +:+ String c "" +:+ rest)
    with ("YUVRGB_Scale=" +:+ String c rest).
  by rewrite insert_id.
Qed.

(** X14, witness: the full-range artifact of the example cache, corrected
    to limited range. *)
Lemma correction_sets_the_flag_witness :
  fs (correct_byte_for_range (example_env failing_tool)
        "/tmp/indexing/media/old.d2v" "limited" indexed_world).2
  = <["/tmp/indexing/media/old.d2v" := File d2v_limited]> indexed_fs.
Proof.
  refine (proj1 (proj2 (correction_sets_the_flag (example_env failing_tool)
            "/tmp/indexing/media/old.d2v" "limited" indexed_world
            (unlines ["DGIndexProjectFile16"; "1"; "/media/clip.mpg"; "";
                      "Stream_Type=0"; ""])
            "0" (unlines [""; "Frame_Rate=25000 (25/1)"; ""])
            _ _ _ _ _ _ _)));
    [discriminate|reflexivity|vm_compute; repeat constructor
    |reflexivity|reflexivity|apply example_plain_read; reflexivity
    |reflexivity].
Defined.

(** X15.  On such an artifact, which the text layer reads as it is before
    and after the correction, a second correction for the same range changes
    nothing. *)
Theorem correction_is_idempotent E d2v_path input_range w pre c rest :
  pre ≠ "" →
  endswith_char pre newline = true →
  Forall (λ l, text_startswith (strip l) marker = false)
         (readlines (codes pre)) →
  stat (fs w) d2v_path
    = Some (File (pre +:+ "YUVRGB_Scale=" +:+ String c rest)) →
  may_write E d2v_path = true →
  plain_read E (pre +:+ "YUVRGB_Scale=" +:+ String c rest) →
  plain_read E (pre +:+ "YUVRGB_Scale=" +:+ range_number input_range
                +:+ rest) →
  write_fault E (fs w) d2v_path = None →
  let w1 := (correct_byte_for_range E d2v_path input_range w).2 in
  correct_byte_for_range E d2v_path input_range w1 = (Ok tt, w1).
Proof.
  destruct w as [f l t s]. cbn [fs].
  intros Hne Hend Hpre Hstat Hw Hplain Hplain1 Hfault.
  cbv zeta.
  destruct (correct_byte_run E d2v_path input_range pre c rest f l t s)
    as (l' & -> & _); [done..|].
  cbn [snd].
  destruct (stat_file_lookup _ _ _ Hstat) as (Hlook & Hp & Hs).
  destruct (range_number_cases input_range) as [n Hn].
  set (f1 := <[d2v_path := _]> f).
  rewrite Hn in Hplain1.
  change ("YUVRGB_Scale=" +:+ String n "" +:+ rest)
    with ("YUVRGB_Scale=" +:+ String n rest) in Hplain1.
  assert (stat f1 d2v_path
          = Some (File (pre +:+ "YUVRGB_Scale=" +:+ String n rest))) as Hstat1.
  { unfold stat, f1. rewrite bool_decide_eq_false_2, lookup_insert_eq, Hs by done.
    by rewrite Hn. }
  destruct (correct_byte_run E d2v_path input_range pre n rest f1 (l ++ l') t s)
    as (l2 & -> & Hl2); [done..|by rewrite Hn|].
  rewrite (Hl2 (eq_sym Hn)), app_nil_r. f_equal. f_equal.
  unfold f1. by rewrite insert_insert_eq.
Qed.

(** X15, witness: the example artifact, corrected twice. *)
Lemma correction_is_idempotent_witness :
  let w1 := (correct_byte_for_range (example_env failing_tool)
               "/tmp/indexing/media/old.d2v" "limited" indexed_world).2 in
  correct_byte_for_range (example_env failing_tool)
    "/tmp/indexing/media/old.d2v" "limited" w1 = (Ok tt, w1).
Proof.
  refine (correction_is_idempotent (example_env failing_tool)
            "/tmp/indexing/media/old.d2v" "limited" indexed_world
            (unlines ["DGIndexProjectFile16"; "1"; "/media/clip.mpg"; "";
                      "Stream_Type=0"; ""])
            "0" (unlines [""; "Frame_Rate=25000 (25/1)"; ""])
            _ _ _ _ _ _ _ _);
    [discriminate|reflexivity|vm_compute; repeat constructor
    |reflexivity|reflexivity|apply example_plain_read; reflexivity
    |apply example_plain_read; reflexivity|reflexivity].
Defined.



(** X25.  When the text layer fails to decode the file before a marker
    line has been read, [correct_byte_for_range] returns normally: the bare
    [except] logs the error, and no file changes. *)
Theorem decoding_failure_is_logged E d2v_path input_range w data chars :
  stat (fs w) d2v_path = Some (File data) →
  may_write E d2v_path = true →
  read_text E data 0 = (chars, true) →
  Forall (λ l, text_startswith (strip l) marker = false)
         (delivered chars true) →
  correct_byte_for_range E d2v_path input_range w
  = (Ok tt,
     World (fs w)
       (log w ++ [(ERROR, "Not d2v index file or not compatible, input_range byte check failed")])
       (ticks w) (spawned w)).
Proof.
  destruct w as [f l t s]. cbn [fs log ticks spawned].
  intros Hstat Hw Hread Hlines.
  unfold correct_byte_for_range, open_update. munfold.
  cbn [fs log ticks spawned]. rewrite Hstat, Hw, Hread.
  rewrite <- (app_nil_r (delivered chars true)).
  rewrite scan_marker_app by done.
  reflexivity.
Qed.

(** X25, witness: the source file, which is not text, read as ASCII. *)
Lemma decoding_failure_is_logged_witness :
  correct_byte_for_range ascii_env "/media/clip.mpg" "full" binary_world
  = (Ok tt,
     World (fs binary_world)
       [(ERROR, "Not d2v index file or not compatible, input_range byte check failed")]
       0 []).
Proof.
  refine (decoding_failure_is_logged ascii_env "/media/clip.mpg" "full"
            binary_world (String "255"%char "mpeg2 data") [] _ _ _ _);
    [reflexivity|reflexivity|reflexivity|constructor].
Defined.

(** ** Numbered image files *)






Lemma app_empty_r_str s : s +:+ "" = s.
Proof.
  induction s as [|a s IH]; [done|].
  change (String a s +:+ "") with (String a (s +:+ "")). by rewrite IH.
Qed.

Lemma forallb_reverse {A} (f : A → bool) l :
  forallb f (reverse l) = forallb f l.
Proof.
  apply eq_bool_prop_intro. by rewrite !forallb_True, Forall_reverse.
Qed.













Lemma length_substring_0 n s :
  String.length (String.substring 0 n s) = Nat.min n (String.length s).
Proof.
  revert n. induction s as [|c s IH]; intros [|n]; cbn; try done.
  by rewrite IH.
Qed.

Lemma length_drop_last k s :
  String.length (drop_last k s) = (String.length s - k)%nat.
Proof. unfold drop_last. rewrite length_substring_0. lia. Qed.

Lemma digits_loop_take l acc :
  ∃ k, digits_loop l acc = string_of_list_ascii (reverse (take k l)) +:+ acc
       ∧ forallb isdigit (take k l) = true.
Proof.
  revert acc. induction l as [|c l IH]; intros acc; [by exists 0%nat|].
  cbn [digits_loop]. destruct (isdigit c) eqn:Hc; [|by exists 0%nat].
  destruct (IH (String c acc)) as (k & -> & Hk). exists (S k).
  cbn [take forallb]. rewrite Hc, Hk. split; [|done].
  rewrite reverse_cons. clear.
  induction (reverse (take k l)) as [|a r IHr]; [done|].
  cbn [app string_of_list_ascii].
  change (String a ?x +:+ ?y) with (String a (x +:+ y)). by rewrite IHr.
Qed.

Lemma length_string_of_list l :
  String.length (string_of_list_ascii l) = length l.
Proof. induction l as [|c l IH]; [done|]. cbn. by rewrite IH. Qed.

Lemma trailing_digits_all_digits s :
  forallb isdigit (list_ascii_of_string (trailing_digits s)) = true
  ∧ (String.length (trailing_digits s) ≤ String.length s)%nat.
Proof.
  unfold trailing_digits.
  destruct (digits_loop_take (reverse (list_ascii_of_string s)) "")
    as (k & -> & Hk).
  rewrite app_empty_r_str, list_ascii_of_string_of_list_ascii.
  rewrite forallb_reverse. split; [done|].
  rewrite length_string_of_list, length_reverse, length_take, length_reverse.
  rewrite <- (string_of_list_ascii_of_string s) at 2.
  rewrite length_string_of_list. lia.
Qed.

Lemma digits_loop_whole l :
  String.length (digits_loop (reverse l) "") = length l →
  digits_loop (reverse l) "" = string_of_list_ascii l.
Proof.
  destruct (digits_loop_take (reverse l) "") as (k & -> & Hk).
  rewrite app_empty_r_str, !length_string_of_list, length_reverse, length_take,
    length_reverse.
  intros Hlen.
  rewrite take_ge by (rewrite length_reverse; lia).
  by rewrite reverse_involutive.
Qed.

Lemma trailing_digits_whole s :
  String.length (trailing_digits s) = String.length s →
  trailing_digits s = s.
Proof.
  unfold trailing_digits. intros Hlen.
  rewrite <- (string_of_list_ascii_of_string s) at 2.
  apply digits_loop_whole. rewrite Hlen.
  rewrite <- (string_of_list_ascii_of_string s) at 1.
  apply length_string_of_list.
Qed.

Section Paths_facts.
Context {P : Type} (stem : P → string).

(** X19.  The selected file is always kept: when [path] is among [paths], it
    is in the result of [only_same_pattern] (so the [paths.index(path)] of
    [imwri_Read] finds it). *)
Theorem selected_path_is_kept (path : P) (paths : list P) :
  path ∈ paths → path ∈ only_same_pattern stem path paths.
Proof.
  intros Hin. unfold only_same_pattern.
  case_bool_decide as Hd; [by apply list_elem_of_singleton|].
  case_bool_decide as Hp; cbn [negb].
  - apply list_elem_of_filter. split; [|done].
    unfold str_isdigit.
    pose proof (length_drop_last (String.length (trailing_digits (stem path)))
                  (stem path)) as Hlen.
    rewrite Hp in Hlen. cbn in Hlen.
    destruct (trailing_digits_all_digits (stem path)) as [Hall Hle].
    assert (trailing_digits (stem path) = stem path) as Heq
      by (apply trailing_digits_whole; lia).
    rewrite Heq in Hall, Hd.
    rewrite Hall, bool_decide_eq_false_2 by done. done.
  - by apply list_elem_of_filter.
Qed.

(** X20.  Every path [only_same_pattern] keeps has a stem as long as the
    stem of the selected path, with the same characters before the last [k],
    where [k] is the number of digits the selected stem ends in; and it is
    the selected path or one of [paths]. *)
Theorem kept_paths_share_prefix_and_length (path p : P) (paths : list P) :
  let k := String.length (trailing_digits (stem path)) in
  p ∈ only_same_pattern stem path paths →
  String.length (stem p) = String.length (stem path)
  ∧ drop_last k (stem p) = drop_last k (stem path)
  ∧ (p = path ∨ p ∈ paths).
Proof.
  intros k. unfold only_same_pattern. fold k.
  case_bool_decide as Hd; [by intros ->%list_elem_of_singleton; auto|].
  pose proof (length_drop_last k (stem path)) as Hlen.
  pose proof (length_drop_last k (stem p)) as Hlenp.
  case_bool_decide as Hp; cbn [negb].
  - intros [[_ Hl] Hin]%list_elem_of_filter. split; [done|]. split; [|auto].
    rewrite Hp in *. cbn in Hlen.
    destruct (drop_last k (stem p)); [done|]. cbn in Hlenp. lia.
  - intros [Heq Hin]%list_elem_of_filter. split; [|auto].
    rewrite Heq in Hlenp.
    destruct (drop_last k (stem path)); [done|]. cbn in *. lia.
Qed.

End Paths_facts.

(** X19, witness: four names, the second selected. *)
Lemma selected_path_is_kept_witness :
  "img_002" ∈ only_same_pattern id "img_002"
                ["img_001"; "img_002"; "other"; "img_abc"].
Proof.
  apply (selected_path_is_kept id "img_002"
           ["img_001"; "img_002"; "other"; "img_abc"]).
  by apply (bool_decide_unpack _).
Defined.

(** X20, witness: a name kept for its prefix and length, though it ends in
    no digit. *)
Lemma kept_paths_share_prefix_and_length_witness :
  String.length "img_abc" = String.length "img_002".
Proof.
  refine (proj1 (kept_paths_share_prefix_and_length id "img_002" "img_abc"
                   ["img_001"; "img_002"; "other"; "img_abc"] _)).
  by apply (bool_decide_unpack _).
Defined.

(** ** Stored settings *)

Section Settings_facts.
Context {V T : Type} `{EqDecision T} (type_of : V → T).
Context (DEFAULT_SETTINGS : gmap string V).


Lemma eval_settings_returns settings :
  ∃ r, eval_settings type_of DEFAULT_SETTINGS (Some settings) = Some r.
Proof. by eexists. Qed.

Lemma eval_settings_lookup settings r k :
  eval_settings type_of DEFAULT_SETTINGS (Some settings) = Some r →
  r !! k
  = (λ dv, match settings !! k with
           | Some v => if decide (type_of v = type_of dv) then v else dv
           | None => dv
           end) <$> DEFAULT_SETTINGS !! k.
Proof.
  unfold eval_settings. intros [= <-].
  apply (map_fold_weak_ind (λ r m, r !! k = _ <$> m !! k)); [done|].
  intros i x m r Hi IH.
  destruct (decide (i = k)) as [->|Hne].
  - rewrite lookup_insert_eq. cbn [fmap option_fmap option_map].
    destruct (settings !! k) as [v|]; cbn [default].
    + destruct (decide (type_of v = type_of x)) as [Ht|Ht].
      * rewrite decide_False by naive_solver. by rewrite lookup_insert_eq.
      * rewrite decide_True by done. by rewrite lookup_insert_eq.
    + rewrite decide_False by naive_solver. by rewrite lookup_insert_eq.
  - rewrite (lookup_insert_ne m) by done. rewrite <- IH.
    case_decide; by rewrite !lookup_insert_ne.
Qed.

(** X21.  On a dictionary [eval_settings] returns a dictionary with exactly
    the keys of [DEFAULT_SETTINGS]; each value has the type of the default
    of its key, and is the stored value or that default. *)
Theorem eval_settings_conforms settings :
  ∃ r, eval_settings type_of DEFAULT_SETTINGS (Some settings) = Some r
     ∧ dom r = dom DEFAULT_SETTINGS
     ∧ ∀ k v, r !! k = Some v →
         ∃ dv, DEFAULT_SETTINGS !! k = Some dv
             ∧ type_of v = type_of dv
             ∧ (settings !! k = Some v ∨ v = dv).
Proof.
  destruct (eval_settings_returns settings) as [r Hr].
  exists r. split; [done|]. split.
  - apply set_eq. intros k. rewrite !elem_of_dom.
    rewrite (eval_settings_lookup settings r k Hr).
    by rewrite fmap_is_Some.
  - intros k v Hv.
    rewrite (eval_settings_lookup settings r k Hr) in Hv.
    destruct (DEFAULT_SETTINGS !! k) as [dv|]; [|done].
    exists dv. split; [done|]. cbn in Hv.
    destruct (settings !! k) as [v'|]; [|naive_solver].
    case_decide; naive_solver.
Qed.

(** X22.  Evaluated settings are stable: [eval_settings] returns its own
    result unchanged. *)
Theorem eval_settings_idempotent settings r :
  eval_settings type_of DEFAULT_SETTINGS (Some settings) = Some r →
  eval_settings type_of DEFAULT_SETTINGS (Some r) = Some r.
Proof.
  intros Hr.
  destruct (eval_settings_returns r) as [r2 Hr2].
  rewrite Hr2. f_equal. apply map_eq. intros k.
  rewrite (eval_settings_lookup r r2 k Hr2).
  rewrite (eval_settings_lookup settings r k Hr).
  destruct (DEFAULT_SETTINGS !! k) as [dv|]; [|done]. cbn.
  destruct (settings !! k) as [v|]; [|by case_decide].
  case_decide as Hv; case_decide; done.
Qed.

End Settings_facts.

(** X22, witness: stored settings with a value of the wrong type and an
    unknown key. *)
Lemma eval_settings_idempotent_witness :
  eval_settings example_type_of example_defaults
    (Some {[ "re_use_indexing" := inl true; "indexing_dir" := inr "/cache" ]})
  = Some {[ "re_use_indexing" := inl true; "indexing_dir" := inr "/cache" ]}.
Proof.
  apply (eval_settings_idempotent example_type_of example_defaults
           example_settings).
  apply (bool_decide_unpack _). vm_compute. exact I.
Defined.

(** ** Source arguments *)

Section Validate_facts.
Context {C V : Type} (is_file : string → bool).


Lemma collect_sources_aligned items sources dicts sources' dicts' :
  collect_sources (C:=C) is_file items sources dicts = inr (sources', dicts') →
  length sources = length dicts →
  length sources' = length dicts'
  ∧ sources' = sources ++ filter (λ i, is_source i = true) items
  ∧ ∀ s, IStr s ∈ items → is_file s = true.
Proof.
  revert sources dicts.
  induction items as [|i items IH]; intros sources dicts Hrun Hlen.
  - injection Hrun as <- <-. rewrite app_nil_r. split; [done|]. split; [done|].
    by intros s ?%elem_of_nil.
  - cbn [collect_sources] in Hrun. destruct i as [c|s|r| | |]; try done.
    + apply IH in Hrun as (H1 & H2 & H3);
        [|by rewrite !length_app, Hlen].
      split; [done|]. split.
      * rewrite H2, <- app_assoc. by rewrite filter_cons_True.
      * intros s [?|?]%elem_of_cons; [done|auto].
    + destruct (is_file s) eqn:Hs; [|done]. cbn [negb] in Hrun.
      apply IH in Hrun as (H1 & H2 & H3);
        [|by rewrite !length_app, Hlen].
      split; [done|]. split.
      * rewrite H2, <- app_assoc. by rewrite filter_cons_True.
      * intros s' [?|?]%elem_of_cons; [by simplify_eq|auto].
    + destruct dicts as [|d dicts]; [done|].
      apply IH in Hrun as (H1 & H2 & H3);
        [|by rewrite length_insert].
      split; [done|]. split.
      * by rewrite filter_cons_False.
      * intros s [?|?]%elem_of_cons; [done|auto].
Qed.

Lemma wanted_outputs_length dicts (heap : gmap nat (gmap string V)) acc :
  length (wanted_outputs dicts heap acc).1 = (length acc + length dicts)%nat.
Proof.
  revert heap acc. induction dicts as [|d dicts IH]; intros heap acc.
  - cbn. lia.
  - cbn [wanted_outputs]. destruct d as [|r].
    + rewrite IH, length_app. cbn. lia.
    + destruct (heap !! r ≫= _); rewrite IH, length_app; cbn; lia.
Qed.

Lemma given_cons_empty r dicts :
  bool_decide (DGiven r ∈ DEmpty :: dicts) = bool_decide (DGiven r ∈ dicts).
Proof.
  apply bool_decide_ext. rewrite elem_of_cons.
  split; [by intros [?|?]|by right].
Qed.

Lemma given_cons_ne r r' dicts :
  r ≠ r' →
  bool_decide (DGiven r ∈ DGiven r' :: dicts) = bool_decide (DGiven r ∈ dicts).
Proof.
  intros Hne. apply bool_decide_ext. rewrite elem_of_cons.
  split; [intros [?|?]; [congruence|done]|by right].
Qed.

Lemma wanted_outputs_heap dicts (heap : gmap nat (gmap string V)) acc r :
  (wanted_outputs dicts heap acc).2 !! r
  = if bool_decide (DGiven r ∈ dicts)
    then delete "vs_output_index" <$> heap !! r
    else heap !! r.
Proof.
  revert heap acc. induction dicts as [|d dicts IH]; intros heap acc; [done|].
  cbn [wanted_outputs]. destruct d as [|r'].
  - by rewrite IH, given_cons_empty.
  - assert (∀ h' : gmap nat (gmap string V),
              h' !! r' = delete "vs_output_index" <$> heap !! r' →
              (∀ q, q ≠ r' → h' !! q = heap !! q) →
              (if bool_decide (DGiven r ∈ dicts)
               then delete "vs_output_index" <$> h' !! r else h' !! r)
              = if bool_decide (DGiven r ∈ DGiven r' :: dicts)
                then delete "vs_output_index" <$> heap !! r
                else heap !! r) as Hcase.
    { intros h' Hsame Hother. destruct (decide (r = r')) as [->|Hne].
      - rewrite Hsame. rewrite (bool_decide_eq_true_2 (_ ∈ _ :: _)) by left.
        case_bool_decide; [|done].
        destruct (heap !! r'); [|done]. cbn. by rewrite delete_delete_eq.
      - by rewrite Hother, given_cons_ne. }
    destruct (heap !! r' ≫= _) as [v|] eqn:Hv; rewrite IH.
    + apply Hcase.
      * rewrite lookup_alter_eq. done.
      * intros q Hq. by rewrite lookup_alter_ne.
    + apply Hcase; [|done].
      destruct (heap !! r') as [d|] eqn:Hd; [|done]. cbn in *.
      by rewrite delete_id.
Qed.

(** X23.  When [validate_sources] returns, its three lists are aligned: there
    is one dictionary and one wanted output for each source.  For a list
    argument the sources are its clips and strings, in order, and every
    string names a file; a single clip, string or class is the one
    source. *)
Theorem validate_sources_aligned sources heap srcs dicts outs heap' :
  validate_sources (C:=C) (V:=V) is_file sources heap
  = inr (srcs, dicts, outs, heap') →
  length dicts = length srcs ∧ length outs = length srcs
  ∧ match sources with
    | ArgList items =>
        srcs = filter (λ i, is_source i = true) items
        ∧ ∀ s, IStr s ∈ items → is_file s = true
    | ArgItem i => srcs = [i]
    end.
Proof.
  destruct sources as [i|items]; cbn [validate_sources].
  - destruct i; try done; by intros [= <- <- <- <-].
  - destruct (collect_sources is_file items [] []) as [e|[ss ds]] eqn:Hc;
      [done|].
    destruct (wanted_outputs ds heap []) as [os h] eqn:Hw.
    intros [= <- <- <- <-].
    apply collect_sources_aligned in Hc as (H1 & H2 & H3); [|done].
    pose proof (wanted_outputs_length ds heap []) as Hl. rewrite Hw in Hl.
    cbn in Hl. repeat split; try done; congruence.
Qed.

(** X24.  [validate_sources] changes the dictionaries of the caller: from
    each dictionary it returns the key [vs_output_index] is removed, and
    nothing else changes in them or in any other object. *)
Theorem validate_sources_strips_output_index items heap srcs dicts outs heap' r :
  validate_sources (C:=C) (V:=V) is_file (ArgList items) heap
  = inr (srcs, dicts, outs, heap') →
  heap' !! r
  = if bool_decide (DGiven r ∈ dicts)
    then delete "vs_output_index" <$> heap !! r
    else heap !! r.
Proof.
  cbn [validate_sources].
  destruct (collect_sources is_file items [] []) as [e|[ss ds]] eqn:Hc; [done|].
  destruct (wanted_outputs ds heap []) as [os h] eqn:Hw.
  intros [= <- <- <- <-].
  pose proof (wanted_outputs_heap ds heap [] r) as Hh. by rewrite Hw in Hh.
Qed.

End Validate_facts.

(** X23, witness: three sources and the dictionaries that follow two of
    them. *)
Lemma validate_sources_aligned_witness :
  ∃ srcs dicts outs heap',
    validate_sources (isfile example_fs) (ArgList example_items) example_heap
    = inr (srcs, dicts, outs, heap')
    ∧ length dicts = length srcs ∧ length outs = length srcs.
Proof.
  exists [IStr "/media/clip.mpg"; IClip (); IStr "/tools/ffmsindex"],
         [DGiven 0; DEmpty; DGiven 0], [Some 4; None; None],
         {[ 0%nat := {[ "matrix_in" := 1 ]} ]}.
  split; [vm_compute; reflexivity|].
  refine (let H := validate_sources_aligned (isfile example_fs)
                     (ArgList example_items) example_heap _ _ _ _ _ in
          conj (proj1 H) (proj1 (proj2 H))).
  vm_compute. reflexivity.
Defined.

(** X24, witness: the dictionary given twice gives its output index once
    and loses it. *)
Lemma validate_sources_strips_output_index_witness :
  ∃ heap',
    validate_sources (isfile example_fs) (ArgList example_items) example_heap
    = inr ([IStr "/media/clip.mpg"; IClip (); IStr "/tools/ffmsindex"],
           [DGiven 0; DEmpty; DGiven 0], [Some 4; None; None], heap')
    ∧ heap' !! 0%nat = Some {[ "matrix_in" := 1 ]}.
Proof.
  exists {[ 0%nat := {[ "matrix_in" := 1 ]} ]}.
  split; [vm_compute; reflexivity|].
  refine (eq_trans (validate_sources_strips_output_index (isfile example_fs)
            example_items example_heap
            [IStr "/media/clip.mpg"; IClip (); IStr "/tools/ffmsindex"]
            [DGiven 0; DEmpty; DGiven 0] [Some 4; None; None]
            {[ 0%nat := {[ "matrix_in" := 1 ]} ]} 0%nat _) _);
    vm_compute; reflexivity.
Defined.
